(** * A relay server over websockets: registry, authenticator, dispatcher, reaper

    Shallow embedding of [server.py] (with the constants of [config.py]).
    The program is asynchronous Python; it is embedded as state-passing
    code over a [World] that holds the process-wide [ws_manager], the wall
    clock, the number of UUIDs drawn so far, the set of websockets whose
    transport is closed, and a trace of what the program did.

    What the embedding fixes:
    - a frame on the wire is the JSON value that [json.dumps] wrote and
      [json.loads] reads back; JSON numbers are integers (no floats);
    - a websocket object is a handle (a number); [websocket.send] either
      writes the frame or raises [ConnectionClosed];
    - [datetime.now()] reads the clock of the world, in microseconds;
    - [uuid.uuid4()] is the next draw of a generator [uuid4];
    - every iteration of the read loop and every registry method runs
      without another task interleaving inside it;
    - [logger] calls are left out: they touch neither registry nor wire;
    - the trace records every attempted send and, as ghost events, every
      call of a method of the registry with its arguments. *)

From Stdlib Require Import ZArith Lia Ascii.
From stdpp Require Import base option list strings pretty gmap sets.

Set Warnings "-register-all".

Local Open Scope Z_scope.
Local Open Scope string_scope.
Local Open Scope list_scope.

(** ** JSON values as Python sees them after [json.loads] *)

Inductive json : Type :=
  | JNull
  | JBool (b : bool)
  | JInt (z : Z)
  | JStr (s : string)
  | JArr (items : list json)
  | JObj (fields : list (string * json)).

(** Hashable Python values, as dictionary keys and set members. Python
    hashes [True] and [1] (and [False] and [0]) to the same key, so booleans
    are stored as integers; a key read back from a dictionary is rendered
    as that integer. *)
Inductive key : Type :=
  | KNone
  | KInt (z : Z)
  | KStr (s : string).

#[global] Instance key_eq_dec : EqDecision key.
Proof. solve_decision. Defined.

Definition key_encode (k : key) : unit + (Z + string) :=
  match k with
  | KNone => inl tt
  | KInt z => inr (inl z)
  | KStr s => inr (inr s)
  end.

Definition key_decode (x : unit + (Z + string)) : key :=
  match x with
  | inl _ => KNone
  | inr (inl z) => KInt z
  | inr (inr s) => KStr s
  end.

#[global] Instance key_countable : Countable key.
Proof.
  apply (inj_countable' key_encode key_decode).
  intros []; reflexivity.
Defined.

(** Exceptions the modelled code can raise; all are subclasses of
    [Exception]. *)
Inductive exn : Type :=
  | JSONDecodeError
  | KeyError
  | TypeError
  | AttributeError
  | ConnectionClosed
  | TimeoutError.

#[global] Instance exn_eq_dec : EqDecision exn.
Proof. solve_decision. Defined.

Inductive result (A : Type) : Type :=
  | Ret (a : A)
  | Raise (e : exn).
Arguments Ret {A} a.
Arguments Raise {A} e.

(** [hash(v)]: lists and dicts are unhashable. *)
Definition hash_key (v : json) : option key :=
  match v with
  | JNull => Some KNone
  | JBool b => Some (KInt (if b then 1 else 0))
  | JInt z => Some (KInt z)
  | JStr s => Some (KStr s)
  | JArr _ | JObj _ => None
  end.

Definition key_json (k : key) : json :=
  match k with
  | KNone => JNull
  | KInt z => JInt z
  | KStr s => JStr s
  end.

(** [bool(v)] *)
Definition truthy (v : json) : bool :=
  match v with
  | JNull => false
  | JBool b => b
  | JInt z => negb (Z.eqb z 0)
  | JStr s => negb (String.eqb s "")
  | JArr items => match items with [] => false | _ => true end
  | JObj fields => match fields with [] => false | _ => true end
  end.

(** [v == "literal"] *)
Definition is_str (v : json) (s : string) : bool :=
  match v with
  | JStr t => String.eqb t s
  | _ => false
  end.

(** [k == v] for a stored key [k] and an arbitrary value [v] *)
Definition key_is (k : key) (v : json) : bool :=
  match hash_key v with
  | Some k' => bool_decide (k = k')
  | None => false
  end.

Fixpoint assoc (f : string) (fields : list (string * json)) : option json :=
  match fields with
  | [] => None
  | (g, v) :: rest => if String.eqb g f then Some v else assoc f rest
  end.

Fixpoint substring_of (p s : string) : bool :=
  String.prefix p s ||
  match s with
  | EmptyString => false
  | String _ s' => substring_of p s'
  end.

(** [f in v] for a string [f] *)
Definition py_contains (f : string) (v : json) : result bool :=
  match v with
  | JObj fields => Ret (bool_decide (is_Some (assoc f fields)))
  | JArr items => Ret (existsb (fun x => is_str x f) items)
  | JStr s => Ret (substring_of f s)
  | JNull | JBool _ | JInt _ => Raise TypeError
  end.

(** [v.get(f, default)] *)
Definition py_get (v : json) (f : string) (dflt : json) : result json :=
  match v with
  | JObj fields => Ret (default dflt (assoc f fields))
  | _ => Raise AttributeError
  end.

(** [v[f]] for a string literal [f] *)
Definition py_index (v : json) (f : string) : result json :=
  match v with
  | JObj fields =>
      match assoc f fields with
      | Some x => Ret x
      | None => Raise KeyError
      end
  | _ => Raise TypeError
  end.

(** ** Python dictionaries in insertion order

    [user_connections] and [active_users] are iterated by the program, so
    their order is kept: assigning to a present key keeps its position,
    assigning to a new one appends, [del] removes. *)
Section pydict.
Context {V : Type}.

Definition pydict := list (key * V).

Fixpoint dict_get (k : key) (d : pydict) : option V :=
  match d with
  | [] => None
  | (k', v) :: rest => if decide (k' = k) then Some v else dict_get k rest
  end.

Definition dict_mem (k : key) (d : pydict) : bool :=
  match dict_get k d with Some _ => true | None => false end.

Fixpoint dict_set (k : key) (v : V) (d : pydict) : pydict :=
  match d with
  | [] => [(k, v)]
  | (k', v') :: rest =>
      if decide (k' = k) then (k', v) :: rest else (k', v') :: dict_set k v rest
  end.

Fixpoint dict_del (k : key) (d : pydict) : pydict :=
  match d with
  | [] => []
  | (k', v') :: rest =>
      if decide (k' = k) then dict_del k rest else (k', v') :: dict_del k rest
  end.

Definition dict_keys (d : pydict) : list key := d.*1.
End pydict.
Arguments pydict V : clear implicits.

(** ** config.py *)

Record Config : Type := {
  HOST : string;
  PORT : Z;
  HEARTBEAT_INTERVAL : Z;
  CONNECTION_TIMEOUT : Z;
  MAX_CONNECTIONS : Z
}.

Definition config : Config := {|
  HOST := "0.0.0.0";
  PORT := 8765;
  HEARTBEAT_INTERVAL := 30;
  CONNECTION_TIMEOUT := 300;
  MAX_CONNECTIONS := 1000
|}.

(** ** The registry and the world around it *)

Definition handle := nat.

(** The four dictionaries of [WebSocketManager.__init__]. *)
Record WebSocketManager : Type := {
  user_connections : pydict handle;
  connection_users : gmap string json;
  user_channels : gmap key (gset key);
  active_users : pydict Z
}.

Definition empty_manager : WebSocketManager := {|
  user_connections := [];
  connection_users := ∅;
  user_channels := ∅;
  active_users := []
|}.

(** Invocations of the registry's methods, kept in the trace so that
    "the dispatcher calls ..." can be counted. *)
Inductive call : Type :=
  | CRegister (websocket : handle) (user_id : json)
  | CUnregister (user_id : json) (connection_id : option string)
  | CSendToUser (user_id : json) (message : json)
  | CBroadcast (message : json) (exclude_user : json)
  | CGetOnlineUsers
  | CUpdateUserActivity (user_id : json).

Inductive event : Type :=
  | Wrote (websocket : handle) (frame : json)
  | WriteFailed (websocket : handle) (frame : json)
  | Called (c : call).

Record World : Type := {
  manager : WebSocketManager;
  clock : Z;
  draws : nat;
  closed : gset handle;
  trace : list event
}.

Definition with_manager (m : WebSocketManager) (w : World) : World :=
  {| manager := m; clock := clock w; draws := draws w;
     closed := closed w; trace := trace w |}.

Definition with_event (ev : event) (w : World) : World :=
  {| manager := manager w; clock := clock w; draws := draws w;
     closed := closed w; trace := trace w ++ [ev] |}.

(** ** Computations: state passing with exceptions *)

Definition M (A : Type) : Type := World -> result A * World.

Definition ret {A} (a : A) : M A := fun w => (Ret a, w).

Definition raise {A} (e : exn) : M A := fun w => (Raise e, w).

Definition bind {A B} (m : M A) (f : A -> M B) : M B :=
  fun w =>
    match m w with
    | (Ret a, w') => f a w'
    | (Raise e, w') => (Raise e, w')
    end.

Notation "'let*' x := m 'in' k" := (bind m (fun x => k))
  (at level 10, x pattern, m at level 100, k at level 200, only parsing).
Notation "m ;;; k" := (bind m (fun _ => k))
  (at level 100, k at level 200, right associativity, only parsing).

(** A pure Python expression that may raise *)
Definition lift {A} (r : result A) : M A := fun w => (r, w).

(** [try: m  except Exception: h] with [h] given the exception *)
Definition try_except {A} (m : M A) (h : exn -> M A) : M A :=
  fun w =>
    match m w with
    | (Ret a, w') => (Ret a, w')
    | (Raise e, w') => h e w'
    end.

Definition get_manager : M WebSocketManager := fun w => (Ret (manager w), w).

Definition update_manager (f : WebSocketManager -> WebSocketManager) : M unit :=
  fun w => (Ret tt, with_manager (f (manager w)) w).

Definition log_call (c : call) : M unit :=
  fun w => (Ret tt, with_event (Called c) w).

(** [hash(v)] as the dictionaries do it *)
Definition hashed (v : json) : M key :=
  match hash_key v with
  | Some k => ret k
  | None => raise TypeError
  end.

(** [datetime.now()] *)
Definition datetime_now : M Z := fun w => (Ret (clock w), w).

(** [await websocket.send(json.dumps(message))] *)
Definition ws_send (websocket : handle) (message : json) : M unit :=
  fun w =>
    if decide (websocket ∈ closed w)
    then (Raise ConnectionClosed, with_event (WriteFailed websocket message) w)
    else (Ret tt, with_event (Wrote websocket message) w).

(** [await asyncio.gather] of the tasks: every task runs; the first exception,
    if any, is the one the awaiting caller gets. *)
Fixpoint gather (tasks : list (M unit)) : M unit :=
  match tasks with
  | [] => ret tt
  | t :: rest =>
      fun w =>
        let (r, w1) := t w in
        let (r', w2) := gather rest w1 in
        (match r with Raise e => Raise e | Ret _ => r' end, w2)
  end.

(** Pure expressions that may raise, in sequence *)
Definition rbind {A B} (r : result A) (f : A -> result B) : result B :=
  match r with
  | Ret a => f a
  | Raise e => Raise e
  end.

Notation "'let?' x := r 'in' k" := (rbind r (fun x => k))
  (at level 10, x pattern, r at level 100, k at level 200, only parsing).

(** [timedelta.seconds] of a difference given in microseconds: the seconds
    field of the normalised (days, seconds, microseconds) triple. *)
Definition timedelta_seconds (d : Z) : Z := (d / 1000000) mod 86400.

Definition set_user_connections (d : pydict handle) (m : WebSocketManager) :=
  {| user_connections := d; connection_users := connection_users m;
     user_channels := user_channels m; active_users := active_users m |}.

Definition set_connection_users (d : gmap string json) (m : WebSocketManager) :=
  {| user_connections := user_connections m; connection_users := d;
     user_channels := user_channels m; active_users := active_users m |}.

Definition set_user_channels (d : gmap key (gset key)) (m : WebSocketManager) :=
  {| user_connections := user_connections m;
     connection_users := connection_users m;
     user_channels := d; active_users := active_users m |}.

Definition set_active_users (d : pydict Z) (m : WebSocketManager) :=
  {| user_connections := user_connections m;
     connection_users := connection_users m;
     user_channels := user_channels m; active_users := d |}.

(** [bool(connection_id)] for [connection_id: str = None] *)
Definition truthy_id (connection_id : option string) : bool :=
  match connection_id with
  | Some s => negb (String.eqb s "")
  | None => false
  end.

(** A received text frame: [None] is text that [json.loads] rejects. *)
Definition frame := option json.

Definition json_loads (text : frame) : result json :=
  match text with
  | Some v => Ret v
  | None => Raise JSONDecodeError
  end.

(** What [websocket.recv()] under [asyncio.wait_for] gives the handshake *)
Inductive recv : Type :=
  | Received (text : frame)
  | TimedOut
  | Disconnected.

(** How [async for message in websocket] ends: normally on a clean close,
    with [ConnectionClosed] on a transport error. *)
Inductive ending : Type :=
  | ClosedOK
  | ClosedError.

(** Everything one connection receives in its life *)
Record connection_script : Type := {
  first_recv : recv;
  inbox : list frame;
  close : ending
}.

Section server.

(** [str(uuid.uuid4())] at the n-th draw, and [datetime.isoformat] *)
Variable uuid4 : nat -> string.
Variable isoformat : Z -> string.

Definition uuid4_str : M string :=
  fun w =>
    (Ret (uuid4 (draws w)),
     {| manager := manager w; clock := clock w; draws := S (draws w);
        closed := closed w; trace := trace w |}).

(** *** class WebSocketManager *)

Definition register (websocket : handle) (user_id : json) : M string :=
  log_call (CRegister websocket user_id);;;
  let* connection_id := uuid4_str in
  update_manager (fun m =>
    set_connection_users (<[connection_id := user_id]> (connection_users m)) m);;;
  let* k := hashed user_id in
  update_manager (fun m =>
    set_user_connections (dict_set k websocket (user_connections m)) m);;;
  let* now := datetime_now in
  update_manager (fun m =>
    set_active_users (dict_set k now (active_users m)) m);;;
  ret connection_id.

Definition unregister (user_id : json) (connection_id : option string)
  : M unit :=
  log_call (CUnregister user_id connection_id);;;
  let* k := hashed user_id in
  update_manager (fun m =>
    if dict_mem k (user_connections m)
    then set_user_connections (dict_del k (user_connections m)) m
    else m);;;
  update_manager (fun m =>
    match connection_id with
    | Some c =>
        if truthy_id connection_id && bool_decide (is_Some (connection_users m !! c))
        then set_connection_users (delete c (connection_users m)) m
        else m
    | None => m
    end);;;
  update_manager (fun m =>
    if dict_mem k (active_users m)
    then set_active_users (dict_del k (active_users m)) m
    else m).

Definition send_to_user (user_id : json) (message : json) : M bool :=
  log_call (CSendToUser user_id message);;;
  let* k := hashed user_id in
  let* m := get_manager in
  match dict_get k (user_connections m) with
  | Some websocket =>
      try_except
        (ws_send websocket message;;; ret true)
        (fun e =>
           match e with
           | ConnectionClosed => unregister user_id None;;; ret false
           | _ => raise e
           end)
  | None => ret false
  end.

(** The loop of [broadcast]. [websocket.send(...)] without [await] only
    builds the coroutine, so nothing is sent and nothing can be raised
    inside the loop's [try]; the sends happen in [gather]. *)
Fixpoint broadcast_tasks (message : json) (exclude_user : json)
    (items : pydict handle) : list (M unit) :=
  match items with
  | [] => []
  | (user_id, websocket) :: rest =>
      if negb (key_is user_id exclude_user)
      then ws_send websocket message :: broadcast_tasks message exclude_user rest
      else broadcast_tasks message exclude_user rest
  end.

Definition broadcast (message : json) (exclude_user : json) : M unit :=
  log_call (CBroadcast message exclude_user);;;
  let* m := get_manager in
  let tasks := broadcast_tasks message exclude_user (user_connections m) in
  match tasks with
  | [] => ret tt
  | _ => gather tasks
  end.

Definition get_online_users : M (list key) :=
  log_call CGetOnlineUsers;;;
  let* m := get_manager in
  ret (dict_keys (active_users m)).

Definition update_user_activity (user_id : json) : M unit :=
  log_call (CUpdateUserActivity user_id);;;
  let* k := hashed user_id in
  let* now := datetime_now in
  update_manager (fun m =>
    set_active_users (dict_set k now (active_users m)) m).

(** *** class MessageHandler *)

Definition create_message (msg_type : string) (data : json) (sender : json)
  : M json :=
  let* now := datetime_now in
  let* message_id := uuid4_str in
  let message :=
    [("type", JStr msg_type); ("data", data);
     ("timestamp", JStr (isoformat now)); ("message_id", JStr message_id)] in
  ret (JObj (if truthy sender then message ++ [("sender", sender)] else message)).

Definition required_fields : list string := ["type"; "data"; "timestamp"].

(** [all(field in message for field in fields)] *)
Fixpoint all_in (fields : list string) (message : json) : result bool :=
  match fields with
  | [] => Ret true
  | field :: rest =>
      let? present := py_contains field message in
      if present then all_in rest message else Ret false
  end.

Definition validate_message (message : json) : result bool :=
  all_in required_fields message.

(** *** authenticate; [None] is [JNull] *)
Definition authenticate (message : json) : result json :=
  let? kind := py_get message "type" JNull in
  if is_str kind "auth" then
    let? data := py_get message "data" (JObj []) in
    let? user_id := py_get data "user_id" JNull in
    let? data' := py_get message "data" (JObj []) in
    let? token := py_get data' "token" JNull in
    if truthy user_id && truthy token then Ret user_id else Ret JNull
  else Ret JNull.

(** *** handle_message: the loop body *)

(** [ws_manager.user_channels[user_id]] on a [defaultdict(set)]: a missing
    entry is created empty by the access itself. *)
Definition channels_of (user_id : json) : M (gset key) :=
  let* k := hashed user_id in
  let* m := get_manager in
  match user_channels m !! k with
  | Some s => ret s
  | None =>
      update_manager (fun m =>
        set_user_channels (<[k := ∅]> (user_channels m)) m);;;
      ret ∅
  end.

Definition store_channels (user_id : json) (s : gset key) : M unit :=
  let* k := hashed user_id in
  update_manager (fun m => set_user_channels (<[k := s]> (user_channels m)) m).

Definition dispatch (websocket : handle) (user_id data : json) : M unit :=
  let* msg_type := lift (py_index data "type") in
  if is_str msg_type "ping" then
    let* now := datetime_now in
    ws_send websocket
      (JObj [("type", JStr "pong"); ("timestamp", JStr (isoformat now))])
  else if is_str msg_type "send_message" then
    let* payload := lift (py_index data "data") in
    let* target_user := lift (py_get payload "target_user" JNull) in
    let* payload' := lift (py_index data "data") in
    let* content := lift (py_get payload' "content" JNull) in
    if truthy target_user && truthy content then
      let* msg :=
        create_message "new_message"
          (JObj [("content", content); ("from_user", user_id);
                 ("to_user", target_user)])
          user_id in
      let* success := send_to_user target_user msg in
      let* echoed := lift (py_get data "message_id" JNull) in
      let* receipt :=
        create_message "message_receipt"
          (JObj [("message_id", echoed);
                 ("status", JStr (if success then "delivered" else "failed"));
                 ("target_user", target_user)])
          JNull in
      ws_send websocket receipt
    else ret tt
  else if is_str msg_type "subscribe" then
    let* payload := lift (py_index data "data") in
    let* channel := lift (py_get payload "channel" JNull) in
    if truthy channel then
      let* s := channels_of user_id in
      let* c := hashed channel in
      store_channels user_id (s ∪ {[c]})
    else ret tt
  else if is_str msg_type "unsubscribe" then
    let* payload := lift (py_index data "data") in
    let* channel := lift (py_get payload "channel" JNull) in
    if truthy channel then
      let* s := channels_of user_id in
      let* c := hashed channel in
      if bool_decide (c ∈ s) then
        let* s' := channels_of user_id in
        store_channels user_id (s' ∖ {[c]})
      else ret tt
    else ret tt
  else if is_str msg_type "get_online_users" then
    let* online_users := get_online_users in
    let* response :=
      create_message "online_users"
        (JObj [("users", JArr (key_json <$> online_users))]) JNull in
    ws_send websocket response
  else ret tt.

(** The body of the inner [try] *)
Definition frame_body (websocket : handle) (user_id : json) (message : frame)
  : M unit :=
  let* data := lift (json_loads message) in
  let* valid := lift (validate_message data) in
  if negb valid then ret tt
  else
    update_user_activity user_id;;;
    dispatch websocket user_id data.

(** One iteration of [async for message in websocket], with its two
    [except] clauses (both only log). *)
Definition frame_iteration (websocket : handle) (user_id : json)
    (message : frame) : M unit :=
  try_except (frame_body websocket user_id message)
    (fun e =>
       match e with
       | JSONDecodeError => ret tt
       | _ => ret tt
       end).

Fixpoint message_loop (websocket : handle) (user_id : json)
    (messages : list frame) : M unit :=
  match messages with
  | [] => ret tt
  | message :: rest =>
      frame_iteration websocket user_id message;;;
      message_loop websocket user_id rest
  end.

(** *** handle_message: handshake, session, cleanup *)

(** Lines 140-144: receive, parse and authenticate the first frame. *)
Definition auth_stage (first : recv) : result json :=
  let? auth_message :=
    match first with
    | Received text => Ret text
    | TimedOut => Raise TimeoutError
    | Disconnected => Raise ConnectionClosed
    end in
  let? auth_data := json_loads auth_message in
  authenticate auth_data.

Definition auth_error : json :=
  JObj [("type", JStr "error");
        ("data", JObj [("message", JStr "认证失败")])].

(** Lines 155-249: from the welcome message to the end of the loop. *)
Definition session (websocket : handle) (user_id : json)
    (connection_id : string) (script : connection_script) : M unit :=
  let* welcome_msg :=
    create_message "connection_established"
      (JObj [("user_id", user_id); ("connection_id", JStr connection_id)])
      JNull in
  ws_send websocket welcome_msg;;;
  let* online :=
    create_message "user_online" (JObj [("user_id", user_id)]) (JStr "system") in
  broadcast online user_id;;;
  message_loop websocket user_id (inbox script);;;
  match close script with
  | ClosedOK => ret tt
  | ClosedError => raise ConnectionClosed
  end.

(** The [finally] clause, with the values the two locals have then. *)
Definition cleanup (user_id : json) (connection_id : option string) : M unit :=
  if truthy user_id then
    unregister user_id connection_id;;;
    let* offline :=
      create_message "user_offline" (JObj [("user_id", user_id)]) (JStr "system") in
    broadcast offline user_id
  else ret tt.

(** The three outer [except] clauses catch every exception of the [try]
    and only log; [swallow] is their effect on a stage of the [try]. *)
Definition swallow {A} (m : M A) : M (result A) :=
  fun w => let (r, w') := m w in (Ret r, w').

(** [handle_message], by the point at which the [try] is left: before
    [user_id] is set, on a failed authentication, inside [register]
    ([connection_id] still [None]), or later. *)
Definition handle_message (websocket : handle) (script : connection_script)
  : M unit :=
  match auth_stage (first_recv script) with
  | Raise _ => cleanup JNull None
  | Ret user_id =>
      if negb (truthy user_id) then
        swallow (ws_send websocket auth_error);;;
        cleanup user_id None
      else
        let* registered := swallow (register websocket user_id) in
        match registered with
        | Raise _ => cleanup user_id None
        | Ret connection_id =>
            swallow (session websocket user_id connection_id script);;;
            cleanup user_id (Some connection_id)
        end
  end.

(** *** health_check: one pass of its loop, after the sleep *)

Fixpoint inactive_users (now : Z) (items : pydict Z) : list key :=
  match items with
  | [] => []
  | (user_id, last_active) :: rest =>
      if Z.ltb (CONNECTION_TIMEOUT config) (timedelta_seconds (now - last_active))
      then user_id :: inactive_users now rest
      else inactive_users now rest
  end.

Fixpoint unregister_each (users : list key) : M unit :=
  match users with
  | [] => ret tt
  | user_id :: rest =>
      unregister (key_json user_id) None;;;
      unregister_each rest
  end.

Definition health_check_tick : M unit :=
  let* now := datetime_now in
  let* m := get_manager in
  unregister_each (inactive_users now (active_users m)).

(** [await asyncio.sleep(60)] when the sleep really took [elapsed]
    microseconds *)
Definition asyncio_sleep (elapsed : Z) : M unit :=
  fun w =>
    (Ret tt,
     {| manager := manager w; clock := clock w + elapsed; draws := draws w;
        closed := closed w; trace := trace w |}).

(** The first passes of the endless loop of [health_check], one for each
    sleep in the list *)
Fixpoint health_check (sleeps : list Z) : M unit :=
  match sleeps with
  | [] => ret tt
  | elapsed :: rest =>
      asyncio_sleep elapsed;;;
      health_check_tick;;;
      health_check rest
  end.

End server.

(** ** client_pc.py and web_client.py

    The PC client as far as it talks to the server: the frames it builds,
    its handshake, its sends, its listener and its heartbeat. What the
    client's clock gives ([datetime.now().isoformat()] and
    [datetime.now().timestamp()], as text) is an argument of the functions
    that read it; [logger] and [print] calls are left out. The world of
    these functions is the client's process; its websocket is its end of
    the connection. *)

(** [s.split(sep, maxsplit)] for a separator of one character: the text
    before the first separator and what follows it, then the same on the
    rest, at most [maxsplit] times. *)
Fixpoint split_at (sep : Ascii.ascii) (s : string) : string * option string :=
  match s with
  | EmptyString => (EmptyString, None)
  | String c s' =>
      if Ascii.eqb c sep then (EmptyString, Some s')
      else let (before, rest) := split_at sep s' in (String c before, rest)
  end.

Fixpoint py_split (sep : Ascii.ascii) (maxsplit : nat) (s : string) : list string :=
  match maxsplit with
  | O => [s]
  | S n =>
      match split_at sep s with
      | (before, Some rest) => before :: py_split sep n rest
      | (before, None) => [before]
      end
  end.

Module pc_client.

Record client : Type := {
  user_id : string;
  token : string;
  websocket : option handle;
  running : bool
}.

Definition with_websocket (h : handle) (self : client) : client :=
  {| user_id := user_id self; token := token self;
     websocket := Some h; running := running self |}.

Definition with_running (b : bool) (self : client) : client :=
  {| user_id := user_id self; token := token self;
     websocket := websocket self; running := b |}.

(** The message [connect] sends first *)
Definition auth_message (user_id token timestamp : string) : json :=
  JObj [("type", JStr "auth");
        ("data", JObj [("user_id", JStr user_id); ("token", JStr token)]);
        ("timestamp", JStr timestamp)].

(** [connect]: [dialled] is the websocket that [websockets.connect]
    returns, if it returns one; [response] is what [recv] gives, [None]
    when the connection is closed instead. Every exception ends in
    [return False]. *)
Definition connect (self : client) (dialled : option handle)
    (timestamp : string) (response : option frame) : M (bool * client) :=
  match dialled with
  | None => ret (false, self)
  | Some h =>
      try_except
        (ws_send h (auth_message (user_id self) (token self) timestamp);;;
         let* text :=
           lift (match response with
                 | Some text => Ret text
                 | None => Raise ConnectionClosed
                 end) in
         let* response_data := lift (json_loads text) in
         let* kind := lift (py_get response_data "type" JNull) in
         ret (is_str kind "connection_established", with_websocket h self))
        (fun _ => ret (false, with_websocket h self))
  end.

(** The message of [send_message]; [stamp] is the text of
    [datetime.now().timestamp()] *)
Definition message (target_user content timestamp stamp : string) : json :=
  JObj [("type", JStr "send_message");
        ("data", JObj [("target_user", JStr target_user);
                       ("content", JStr content)]);
        ("timestamp", JStr timestamp);
        ("message_id", JStr ("msg_" +:+ stamp))].

Definition send_message (self : client)
    (target_user content timestamp stamp : string) : M bool :=
  match websocket self with
  | None => ret false
  | Some h =>
      try_except
        (ws_send h (message target_user content timestamp stamp);;; ret true)
        (fun _ => ret false)
  end.

(** The body of the loop of [listen_for_messages] *)
Definition listen_step (h : handle) (text : frame) : M unit :=
  let* data := lift (json_loads text) in
  let* msg_type := lift (py_get data "type" JNull) in
  if is_str msg_type "new_message" then
    let* payload := lift (py_index data "data") in
    let* content := lift (py_get payload "content" JNull) in
    let* payload' := lift (py_index data "data") in
    let* from_user := lift (py_get payload' "from_user" JNull) in
    ret tt
  else if is_str msg_type "message_receipt" then
    let* payload := lift (py_index data "data") in
    let* status := lift (py_get payload "status" JNull) in
    let* payload' := lift (py_index data "data") in
    let* target_user := lift (py_get payload' "target_user" JNull) in
    ret tt
  else if is_str msg_type "user_online" then
    let* payload := lift (py_index data "data") in
    let* user_id := lift (py_get payload "user_id" JNull) in
    ret tt
  else if is_str msg_type "user_offline" then
    let* payload := lift (py_index data "data") in
    let* user_id := lift (py_get payload "user_id" JNull) in
    ret tt
  else if is_str msg_type "ping" then
    ws_send h (JObj [("type", JStr "pong")])
  else ret tt.

Fixpoint listen_loop (h : handle) (messages : list frame) : M unit :=
  match messages with
  | [] => ret tt
  | text :: rest => listen_step h text;;; listen_loop h rest
  end.

(** [listen_for_messages]: only [ConnectionClosed] is caught; it clears
    [running]. Iterating over a websocket that is [None] raises. *)
Definition listen_for_messages (self : client) (messages : list frame)
    (close : ending) : M client :=
  match websocket self with
  | None => raise TypeError
  | Some h =>
      try_except
        (listen_loop h messages;;;
         match close with
         | ClosedOK => ret self
         | ClosedError => raise ConnectionClosed
         end)
        (fun e =>
           match e with
           | ConnectionClosed => ret (with_running false self)
           | _ => raise e
           end)
  end.

(** The first [beats] rounds of [heartbeat], which runs while [running]
    is set and stops at the first exception. *)
Fixpoint heartbeat (self : client) (beats : nat) : M unit :=
  match beats with
  | O => ret tt
  | S n =>
      if running self then
        let* alive :=
          try_except
            (match websocket self with
             | Some h => ws_send h (JObj [("type", JStr "ping")])
             | None => ret tt
             end;;;
             asyncio_sleep 30000000;;;
             ret true)
            (fun _ => ret false) in
        if alive then heartbeat self n else ret tt
      else ret tt
  end.

(** [interactive_client], the command [users]: the request it sends *)
Definition users_request (timestamp : string) : json :=
  JObj [("type", JStr "get_online_users"); ("timestamp", JStr timestamp)].

(** [interactive_client], the branch of the commands that start with
    [send ] (such a command is neither [quit] nor [users] in lower case):
    with fewer than three parts the usage is printed and nothing is
    sent. *)
Definition interactive_send (self : client) (cmd timestamp stamp : string)
    : M unit :=
  match py_split " "%char 2 cmd with
  | [_; target_user; content] =>
      send_message self target_user content timestamp stamp;;; ret tt
  | _ => ret tt
  end.

End pc_client.

(** [ws_test] of web_client.py: the values it hands to the template, from
    the [user_id] of the path and the [Host] header of the request. *)
Definition ws_test (user_id : string) (host_header : option string)
    : list (string * string) :=
  let host := default "localhost:8765" host_header in
  let ws_host := List.hd "" (py_split ":"%char (String.length host) host) in
  let ws_port := "8765" in
  [("user_id", user_id); ("ws_url", "ws://" +:+ ws_host +:+ ":" +:+ ws_port)].

(** ** Vocabulary of the statements *)

Definition run {A} (m : M A) (w : World) : World := (m w).2.

Definition outcome {A} (m : M A) (w : World) : result A := (m w).1.

(** Websockets on which a send was attempted, and those really written *)
Definition attempted (evs : list event) : list handle :=
  omap (fun ev =>
          match ev with
          | Wrote h _ | WriteFailed h _ => Some h
          | Called _ => None
          end) evs.

Definition written (evs : list event) : list (handle * json) :=
  omap (fun ev =>
          match ev with
          | Wrote h v => Some (h, v)
          | _ => None
          end) evs.

(** The event a send of [message] on [websocket] leaves in world [w] *)
Definition send_event (w : World) (websocket : handle) (message : json) : event :=
  if decide (websocket ∈ closed w)
  then WriteFailed websocket message
  else Wrote websocket message.

(** Every dictionary of the registry has each key once, as a Python
    dictionary does. *)
Definition dict_wf {V} (d : pydict V) : Prop := NoDup (dict_keys d).

(** What [unregister] does to the registry for a hashable identity *)
Definition forget (k : key) (connection_id : option string)
    (m : WebSocketManager) : WebSocketManager :=
  {| user_connections := dict_del k (user_connections m);
     connection_users :=
       match connection_id with
       | Some c =>
           if truthy_id connection_id
           then delete c (connection_users m)
           else connection_users m
       | None => connection_users m
       end;
     user_channels := user_channels m;
     active_users := dict_del k (active_users m) |}.

(** The Session of an identity: its connection handle and its
    last-activity entry *)
Definition session_of (k : key) (w : World) : option handle * option Z :=
  (dict_get k (user_connections (manager w)),
   dict_get k (active_users (manager w))).

(** The guard the specification describes for [unregister]: a connection id
    left over from an earlier registration does not evict the Session that
    a later registration created. *)
Definition unregister_guard_claim (uuid4 : nat -> string)
    (h1 h2 : handle) (user_id : json) (w : World) : Prop :=
  let '(r1, w1) := register uuid4 h1 user_id w in
  let '(r2, w2) := register uuid4 h2 user_id w1 in
  match r1, r2, hash_key user_id with
  | Ret c1, Ret c2, Some k =>
      c1 ≠ c2 ->
      session_of k (run (unregister user_id (Some c1)) w2) = session_of k w2
  | _, _, _ => True
  end.

(** The registry after [unregister(user_id)] for each of [users] in turn *)
Definition forget_all (users : list key) (m : WebSocketManager)
  : WebSocketManager :=
  fold_left (fun m k => forget k None m) users m.

Definition with_events (evs : list event) (w : World) : World :=
  {| manager := manager w; clock := clock w; draws := draws w;
     closed := closed w; trace := trace w ++ evs |}.

(** What a computation added to the trace *)
Definition news (w w' : World) : list event :=
  drop (length (trace w)) (trace w').

(** The websockets [broadcast] sends to, in the order of the dictionary *)
Fixpoint recipients (exclude_user : json) (items : pydict handle)
  : list handle :=
  match items with
  | [] => []
  | (user_id, websocket) :: rest =>
      if negb (key_is user_id exclude_user)
      then websocket :: recipients exclude_user rest
      else recipients exclude_user rest
  end.

(** A [user_offline] frame about identity [k] *)
Definition is_offline_about (k : key) (frame : json) : bool :=
  match frame with
  | JObj fields =>
      match assoc "type" fields, assoc "data" fields with
      | Some kind, Some (JObj data) =>
          is_str kind "user_offline" &&
          match assoc "user_id" data with
          | Some user_id => key_is k user_id
          | None => false
          end
      | _, _ => false
      end
  | _ => false
  end.

(** How many [user_offline] frames about [k] the peer of [websocket] got *)
Definition offline_seen (websocket : handle) (k : key) (evs : list event) : nat :=
  length
    (List.filter
       (fun ev =>
          match ev with
          | Wrote h frame => bool_decide (h = websocket) && is_offline_about k frame
          | _ => false
          end) evs).

(** The reaper as the specification describes it: a Session idle for more
    than the timeout is gone after one pass, and every other registered
    session has seen one [user_offline] frame about it. *)
Definition reaper_notifies_claim (w : World) : Prop :=
  forall k last,
    dict_get k (active_users (manager w)) = Some last ->
    CONNECTION_TIMEOUT config * 1000000 < clock w - last ->
    session_of k (run health_check_tick w) = (None, None) /\
    forall k' h',
      k' ≠ k ->
      dict_get k' (user_connections (manager w)) = Some h' ->
      offline_seen h' k (news w (run health_check_tick w)) = 1%nat.

(** Is the transport of one of these websockets closed? *)
Definition some_closed (w : World) (websockets : list handle) : bool :=
  existsb (fun h => bool_decide (h ∈ closed w)) websockets.

(** An envelope, a JSON object, carries a field *)
Definition carries (field : string) (v : json) : Prop :=
  match v with
  | JObj fields => is_Some (assoc field fields)
  | _ => False
  end.

(** The dispatcher accepts a parsed frame when [validate_message] lets it
    through to the dispatch on its kind. *)
Definition accepted (v : json) : Prop := validate_message v = Ret true.

(** Acceptance as the specification describes it: kind and payload
    suffice. *)
Definition dispatcher_accepts_claim (v : json) : Prop :=
  accepted v <-> carries "type" v /\ carries "data" v.

(** The first frames [authenticate] accepts, with the identity it returns *)
Definition auth_accepts (message : json) (user_id : json) : Prop :=
  exists fields payload token,
    message = JObj fields /\
    assoc "type" fields = Some (JStr "auth") /\
    assoc "data" fields = Some (JObj payload) /\
    assoc "user_id" payload = Some user_id /\
    truthy user_id = true /\
    assoc "token" payload = Some token /\
    truthy token = true.

Definition rejection_reasons : list string :=
  ["malformed"; "missing_fields"; "invalid_token"].

(** The string occurs somewhere in the value *)
Fixpoint mentions (s : string) (v : json) : bool :=
  match v with
  | JStr t => String.eqb t s
  | JArr items => existsb (mentions s) items
  | JObj fields => existsb (fun p => let '(_, x) := p in mentions s x) fields
  | _ => false
  end.

(** Rejection as the specification describes it: a frame that is not
    accepted gets a result that carries one of the three reasons. *)
Definition authenticate_reason_claim (message : json) : Prop :=
  (~ exists user_id, auth_accepts message user_id) ->
  exists reason v,
    reason ∈ rejection_reasons /\
    authenticate message = Ret v /\
    mentions reason v = true.

(** The world after one more UUID was drawn *)
Definition drew (w : World) : World :=
  {| manager := manager w; clock := clock w; draws := S (draws w);
     closed := closed w; trace := trace w |}.

(** The message [create_message] builds at time [now] with id [message_id] *)
Definition envelope (isoformat : Z -> string) (msg_type : string)
    (data : json) (sender : json) (now : Z) (message_id : string) : json :=
  let message :=
    [("type", JStr msg_type); ("data", data);
     ("timestamp", JStr (isoformat now)); ("message_id", JStr message_id)] in
  JObj (if truthy sender then message ++ [("sender", sender)] else message).

(** The world after [update_user_activity] for a hashable identity *)
Definition touched (user_id : json) (k : key) (w : World) : World :=
  with_manager
    (set_active_users (dict_set k (clock w) (active_users (manager w))) (manager w))
    (with_event (Called (CUpdateUserActivity user_id)) w).

(** The payload of the receipt for a [send_message] frame *)
Definition receipt_data (fields : list (string * json)) (success : bool)
    (target_user : json) : json :=
  JObj [("message_id", default JNull (assoc "message_id" fields));
        ("status", JStr (if success then "delivered" else "failed"));
        ("target_user", target_user)].

(** Would a send to this identity succeed in this world? *)
Definition deliverable (k : key) (w : World) : bool :=
  match dict_get k (user_connections (manager w)) with
  | Some h => bool_decide (h ∉ closed w)
  | None => false
  end.

(** Calls that only the [finally] clause of [handle_message] makes: an
    [unregister] that is given a connection id, and a broadcast of a
    [user_offline] message. *)
Definition is_cleanup_unregister (ev : event) : bool :=
  match ev with
  | Called (CUnregister _ (Some _)) => true
  | _ => false
  end.

Definition is_offline_broadcast (ev : event) : bool :=
  match ev with
  | Called (CBroadcast (JObj fields) _) =>
      match assoc "type" fields with
      | Some kind => is_str kind "user_offline"
      | None => false
      end
  | _ => false
  end.

Definition count_events (p : event -> bool) (evs : list event) : nat :=
  length (List.filter p evs).

Definition quiet (ev : event) : Prop :=
  is_cleanup_unregister ev = false /\ is_offline_broadcast ev = false.

(** A computation that adds only events of a given kind to the trace and
    closes no transport *)
Definition steady (P : event -> Prop) {A} (m : M A) : Prop :=
  forall w, exists evs,
    trace (run m w) = trace w ++ evs /\ Forall P evs /\
    closed (run m w) = closed w.

(** The two iterated dictionaries of a registry are well formed *)
Definition registry_wf (m : WebSocketManager) : Prop :=
  dict_wf (user_connections m) /\ dict_wf (active_users m).

(** A computation that keeps a property of the registry *)
Definition keeps (I : WebSocketManager -> Prop) {A} (m : M A) : Prop :=
  forall w, I (manager w) -> I (manager (run m w)).

(** The kinds [handle_message] has a branch for *)
Definition dispatched_kinds : list string :=
  ["ping"; "send_message"; "subscribe"; "unsubscribe"; "get_online_users"].

(** The channels an identity is subscribed to; none when it has no entry *)
Definition channels (k : key) (w : World) : gset key :=
  default ∅ (user_channels (manager w) !! k).

(** The kinds whose branch reads the payload with [data["data"].get] *)
Definition payload_kinds : list string :=
  ["send_message"; "subscribe"; "unsubscribe"].

(** A JSON value that is a mapping *)
Definition is_object (v : json) : bool :=
  match v with
  | JObj _ => true
  | _ => false
  end.

(** The presence notices of [handle_message]: [user_online] and
    [user_offline] about an identity, sent in the name of the system *)
Definition presence (isoformat : Z -> string) (kind : string) (user_id : json)
    (now : Z) (message_id : string) : json :=
  envelope isoformat kind (JObj [("user_id", user_id)]) (JStr "system")
    now message_id.

(** The welcome message of a connection *)
Definition welcome (isoformat : Z -> string) (user_id : json)
    (connection_id : string) (now : Z) (message_id : string) : json :=
  envelope isoformat "connection_established"
    (JObj [("user_id", user_id); ("connection_id", JStr connection_id)])
    JNull now message_id.

(** The world in which the read loop of a connection starts: the identity
    is registered, the welcome is written, the others were sent the online
    notice. *)
Definition greeted (uuid4 : nat -> string) (isoformat : Z -> string)
    (websocket : handle) (user_id : json) (k : key) (w : World) : World :=
  {| manager :=
       {| user_connections := dict_set k websocket (user_connections (manager w));
          connection_users :=
            <[uuid4 (draws w) := user_id]> (connection_users (manager w));
          user_channels := user_channels (manager w);
          active_users := dict_set k (clock w) (active_users (manager w)) |};
     clock := clock w;
     draws := S (S (S (draws w)));
     closed := closed w;
     trace :=
       trace w ++
       [Called (CRegister websocket user_id);
        Wrote websocket
          (welcome isoformat user_id (uuid4 (draws w)) (clock w)
             (uuid4 (S (draws w))));
        Called
          (CBroadcast
             (presence isoformat "user_online" user_id (clock w)
                (uuid4 (S (S (draws w)))))
             user_id)] ++
       ((fun h =>
           send_event w h
             (presence isoformat "user_online" user_id (clock w)
                (uuid4 (S (S (draws w))))))
          <$> recipients user_id (user_connections (manager w))) |}.

(** What follows the online notice inside the [try] *)
Definition read_loop (uuid4 : nat -> string) (isoformat : Z -> string)
    (websocket : handle) (user_id : json) (script : connection_script) : M unit :=
  bind (message_loop uuid4 isoformat websocket user_id (inbox script))
    (fun _ =>
       match close script with
       | ClosedOK => ret tt
       | ClosedError => raise ConnectionClosed
       end).

Definition is_activity_update (ev : event) : bool :=
  match ev with
  | Called (CUpdateUserActivity _) => true
  | _ => false
  end.

(** A string that is true for Python *)
Definition nonempty (s : string) : bool := negb (String.eqb s "").

(** A character occurs in a string *)
Fixpoint has_char (c : Ascii.ascii) (s : string) : bool :=
  match s with
  | EmptyString => false
  | String c' s' => Ascii.eqb c' c || has_char c s'
  end.

(** A property of every frame an event sends or tries to send *)
Definition on_frames (P : json -> Prop) (ev : event) : Prop :=
  match ev with
  | Wrote _ frame | WriteFailed _ frame => P frame
  | Called _ => True
  end.

(** A frame the listener of the PC client takes without raising and
    without answering *)
Definition pc_ignores (frame : json) : Prop :=
  forall h w, pc_client.listen_step h (Some frame) w = (Ret tt, w).

(** A frame the server's read loop drops: no reply, no activity update *)
Definition server_drops (frame : json) : Prop :=
  forall uuid4 isoformat websocket user_id w,
    frame_iteration uuid4 isoformat websocket user_id (Some frame) w = (Ret tt, w).

(** Sample data for the closed statements *)
Definition sample_uuid4 (n : nat) : string := "c" +:+ pretty n.

Definition sample_isoformat (t : Z) : string := "t" +:+ pretty t.

Definition world0 : World :=
  {| manager := empty_manager; clock := 0; draws := 0%nat;
     closed := ∅; trace := [] |}.

Definition alice : json := JStr "alice".
Definition bob : json := JStr "bob".
Definition carol : json := JStr "carol".

(** A registry with alice on websocket 1, last active at time 0, and bob
    on websocket 2, last active at 400 s; the clock reads 401 s. *)
Definition reaper_world : World :=
  {| manager :=
       {| user_connections := [(KStr "alice", 1%nat); (KStr "bob", 2%nat)];
          connection_users := {[ "c0" := alice; "c1" := bob ]};
          user_channels := ∅;
          active_users := [(KStr "alice", 0); (KStr "bob", 400000000)] |};
     clock := 401000000;
     draws := 2%nat;
     closed := ∅;
     trace := [] |}.

(** alice, bob and carol on websockets 1, 2 and 3; bob's transport has
    closed without the registry knowing. *)
Definition broadcast_world : World :=
  {| manager :=
       {| user_connections :=
            [(KStr "alice", 1%nat); (KStr "bob", 2%nat); (KStr "carol", 3%nat)];
          connection_users := {[ "c0" := alice; "c1" := bob; "c2" := carol ]};
          user_channels := ∅;
          active_users :=
            [(KStr "alice", 0); (KStr "bob", 0); (KStr "carol", 0)] |};
     clock := 1000000;
     draws := 3%nat;
     closed := {[ 2%nat ]};
     trace := [] |}.

Definition notice : json :=
  JObj [("type", JStr "user_online"); ("data", JObj [("user_id", alice)]);
        ("timestamp", JStr "t1000000"); ("message_id", JStr "c3");
        ("sender", JStr "system")].

Definition ping_without_timestamp : json :=
  JObj [("type", JStr "ping"); ("data", JObj [])].

(** bob alone, on websocket 2 *)
Definition chat_world : World :=
  {| manager :=
       {| user_connections := [(KStr "bob", 2%nat)];
          connection_users := {[ "c0" := bob ]};
          user_channels := ∅;
          active_users := [(KStr "bob", 0)] |};
     clock := 5000000;
     draws := 1%nat;
     closed := ∅;
     trace := [] |}.

Definition hello_payload : list (string * json) :=
  [("target_user", bob); ("content", JStr "hi")].

Definition hello_fields : list (string * json) :=
  [("type", JStr "send_message"); ("data", JObj hello_payload);
   ("timestamp", JStr "2024-01-01T00:00:00"); ("message_id", JStr "m1")].

(** alice authenticates, pings, sends text that is not JSON, sends "hi" to
    bob, and then loses her connection. *)
Definition alice_script : connection_script :=
  {| first_recv :=
       Received
         (Some (JObj [("type", JStr "auth");
                      ("data", JObj [("user_id", alice); ("token", JStr "demo-token")]);
                      ("timestamp", JStr "2024-01-01T00:00:00")]));
     inbox :=
       [Some (JObj [("type", JStr "ping"); ("data", JObj []);
                    ("timestamp", JStr "2024-01-01T00:00:01")]);
        None;
        Some (JObj hello_fields)];
     close := ClosedError |}.

Definition ping_fields : list (string * json) :=
  [("type", JStr "ping"); ("data", JObj []);
   ("timestamp", JStr "2024-01-01T00:00:01")].

Definition subscribe_fields : list (string * json) :=
  [("type", JStr "subscribe"); ("data", JObj [("channel", JStr "news")]);
   ("timestamp", JStr "2024-01-01T00:00:02")].

Definition unsubscribe_fields : list (string * json) :=
  [("type", JStr "unsubscribe"); ("data", JObj [("channel", JStr "news")]);
   ("timestamp", JStr "2024-01-01T00:00:03")].

Definition typing_fields : list (string * json) :=
  [("type", JStr "typing"); ("data", JObj []);
   ("timestamp", JStr "2024-01-01T00:00:04")].

Definition online_fields : list (string * json) :=
  [("type", JStr "get_online_users"); ("data", JObj []);
   ("timestamp", JStr "2024-01-01T00:00:05")].

Definition empty_message_fields : list (string * json) :=
  [("type", JStr "send_message");
   ("data", JObj [("target_user", bob); ("content", JStr "")]);
   ("timestamp", JStr "2024-01-01T00:00:06"); ("message_id", JStr "m2")].

Definition text_payload_fields : list (string * json) :=
  [("type", JStr "send_message"); ("data", JStr "hello");
   ("timestamp", JStr "2024-01-01T00:00:07")].

Definition silent_script : connection_script :=
  {| first_recv := TimedOut; inbox := []; close := ClosedOK |}.

(** A first frame that is no authentication *)
Definition intruder_script : connection_script :=
  {| first_recv := Received (Some (JObj ping_fields));
     inbox := [Some (JObj ping_fields)];
     close := ClosedOK |}.

(** alice, on websocket 1, arrives in a registry that still holds bob on
    his closed websocket 2 and carol on websocket 3. *)
Definition blocked_world : World :=
  {| manager :=
       {| user_connections := [(KStr "bob", 2%nat); (KStr "carol", 3%nat)];
          connection_users := {[ "c0" := bob; "c1" := carol ]};
          user_channels := ∅;
          active_users := [(KStr "bob", 0); (KStr "carol", 0)] |};
     clock := 1000000;
     draws := 2%nat;
     closed := {[ 2%nat ]};
     trace := [] |}.

Definition pc_alice : pc_client.client :=
  {| pc_client.user_id := "alice"; pc_client.token := "demo-token";
     pc_client.websocket := Some 9%nat; pc_client.running := true |}.

(** ** Dictionaries *)

Section pydict_facts.
Context {V : Type}.
Implicit Types (d : pydict V) (k : key) (v : V).

Lemma dict_get_set_eq k v d : dict_get k (dict_set k v d) = Some v.
Proof.
  induction d as [|[k' v'] d IH]; simpl.
  - by rewrite decide_True.
  - destruct (decide (k' = k)) as [->|Hne]; simpl.
    + by rewrite decide_True.
    + by rewrite decide_False.
Qed.

Lemma dict_get_set_ne k k' v d :
  k ≠ k' -> dict_get k' (dict_set k v d) = dict_get k' d.
Proof.
  intros Hne. induction d as [|[k0 v0] d IH]; simpl.
  - by rewrite decide_False.
  - destruct (decide (k0 = k)) as [->|Hk]; simpl.
    + by rewrite !decide_False.
    + destruct (decide (k0 = k')); [done | apply IH].
Qed.

Lemma dict_get_del_eq k d : dict_get k (dict_del k d) = None.
Proof.
  induction d as [|[k' v'] d IH]; simpl; [done |].
  destruct (decide (k' = k)); simpl; [done |].
  by rewrite decide_False.
Qed.

Lemma dict_get_del_ne k k' d :
  k ≠ k' -> dict_get k' (dict_del k d) = dict_get k' d.
Proof.
  intros Hne. induction d as [|[k0 v0] d IH]; simpl; [done |].
  destruct (decide (k0 = k)) as [->|Hk]; simpl.
  - by rewrite decide_False.
  - destruct (decide (k0 = k')); [done | apply IH].
Qed.

Lemma dict_del_absent k d : dict_get k d = None -> dict_del k d = d.
Proof.
  induction d as [|[k' v'] d IH]; simpl; [done |].
  destruct (decide (k' = k)); [done |].
  intros H. by rewrite IH.
Qed.

Lemma dict_del_if_mem k d :
  (if dict_mem k d then dict_del k d else d) = dict_del k d.
Proof.
  unfold dict_mem. destruct (dict_get k d) eqn:E; [done |].
  by rewrite dict_del_absent.
Qed.

Lemma dict_get_Some_elem k v d : dict_get k d = Some v -> (k, v) ∈ d.
Proof.
  induction d as [|[k' v'] d IH]; simpl; [done |].
  destruct (decide (k' = k)) as [->|Hne].
  - intros [= ->]. apply list_elem_of_here.
  - intros H. apply list_elem_of_further. by apply IH.
Qed.

Lemma dict_get_None_keys k d : dict_get k d = None <-> k ∉ dict_keys d.
Proof.
  unfold dict_keys. induction d as [|[k' v'] d IH]; simpl.
  - split; [intros _; apply not_elem_of_nil | done].
  - rewrite not_elem_of_cons. destruct (decide (k' = k)) as [->|Hne].
    + split; [done | intros [? _]; done].
    + rewrite IH. split; [intros ?; split; [congruence | done] | by intros [_ ?]].
Qed.

Lemma dict_wf_elem_get k v d : dict_wf d -> (k, v) ∈ d -> dict_get k d = Some v.
Proof.
  unfold dict_wf, dict_keys. induction d as [|[k' v'] d IH]; simpl.
  - intros _ H. by apply elem_of_nil in H.
  - intros Hnd Hin. apply NoDup_cons in Hnd as [Hk' Hnd].
    apply elem_of_cons in Hin as [[= -> ->]|Hin].
    + by rewrite decide_True.
    + destruct (decide (k' = k)) as [->|Hne]; [| by apply IH].
      exfalso. apply Hk'. apply list_elem_of_fmap. by exists (k, v).
Qed.
Lemma dict_keys_set k v d :
  dict_keys (dict_set k v d) =
    if dict_mem k d then dict_keys d else dict_keys d ++ [k].
Proof.
  induction d as [|[k' v'] d IH]; [done |].
  cbn [dict_set]. unfold dict_mem in *. cbn [dict_get].
  destruct (decide (k' = k)) as [->|Hne]; [done |].
  change (dict_keys ((k', v') :: dict_set k v d))
    with (k' :: dict_keys (dict_set k v d)).
  rewrite IH. by destruct (dict_get k d).
Qed.

Lemma dict_wf_set k v d : dict_wf d -> dict_wf (dict_set k v d).
Proof.
  unfold dict_wf. rewrite dict_keys_set. unfold dict_mem.
  destruct (dict_get k d) eqn:E; [done |].
  intros Hnd. apply NoDup_app. split; [done |].
  split; [| apply NoDup_singleton].
  intros x Hx Hxk. apply list_elem_of_singleton in Hxk as ->.
  by apply dict_get_None_keys in E.
Qed.

Lemma dict_keys_del k d :
  dict_keys (dict_del k d) = List.filter (fun k' => bool_decide (k' ≠ k)) (dict_keys d).
Proof.
  induction d as [|[k' v'] d IH]; [done |].
  cbn [dict_del].
  change (dict_keys ((k', v') :: d)) with (k' :: dict_keys d).
  cbn [List.filter].
  destruct (decide (k' = k)) as [->|Hne].
  - by rewrite bool_decide_eq_false_2 by (intros ?; done).
  - rewrite bool_decide_eq_true_2 by done.
    change (dict_keys ((k', v') :: dict_del k d))
      with (k' :: dict_keys (dict_del k d)).
    by rewrite IH.
Qed.

Lemma dict_wf_del k d : dict_wf d -> dict_wf (dict_del k d).
Proof.
  unfold dict_wf. rewrite dict_keys_del.
  induction (dict_keys d) as [|k' ks IH]; simpl; [done |].
  intros Hnd. apply NoDup_cons in Hnd as [Hk' Hnd].
  destruct (bool_decide (k' ≠ k)); [| by apply IH].
  apply NoDup_cons. split; [| by apply IH].
  intros Hin. apply Hk'. apply list_elem_of_In in Hin.
  apply List.filter_In in Hin as [Hin _]. by apply list_elem_of_In.
Qed.

End pydict_facts.

(** ** The registry, method by method *)

Lemma bind_run {A B} (m : M A) (f : A -> M B) w :
  bind m f w =
    match m w with
    | (Ret a, w') => f a w'
    | (Raise e, w') => (Raise e, w')
    end.
Proof. reflexivity. Qed.

Lemma hash_key_json k : hash_key (key_json k) = Some k.
Proof. by destruct k. Qed.

Lemma drop_connection k m :
  (if dict_mem k (user_connections m)
   then set_user_connections (dict_del k (user_connections m)) m
   else m)
  = set_user_connections (dict_del k (user_connections m)) m.
Proof.
  unfold dict_mem. destruct (dict_get k (user_connections m)) eqn:E; [done |].
  rewrite (dict_del_absent _ _ E). by destruct m.
Qed.

Lemma drop_activity k m :
  (if dict_mem k (active_users m)
   then set_active_users (dict_del k (active_users m)) m
   else m)
  = set_active_users (dict_del k (active_users m)) m.
Proof.
  unfold dict_mem. destruct (dict_get k (active_users m)) eqn:E; [done |].
  rewrite (dict_del_absent _ _ E). by destruct m.
Qed.

Lemma drop_connection_id c m :
  (if truthy_id (Some c) && bool_decide (is_Some (connection_users m !! c))
   then set_connection_users (delete c (connection_users m)) m
   else m)
  = if truthy_id (Some c)
    then set_connection_users (delete c (connection_users m)) m
    else m.
Proof.
  destruct (truthy_id (Some c)); [| done]. cbn [andb].
  case_bool_decide as Hc; [done |].
  rewrite delete_id; [by destruct m |].
  destruct (connection_users m !! c) eqn:E; [| done].
  exfalso. apply Hc. by eexists.
Qed.

Lemma unregister_run user_id k connection_id w :
  hash_key user_id = Some k ->
  unregister user_id connection_id w =
    (Ret tt,
     with_manager (forget k connection_id (manager w))
       (with_event (Called (CUnregister user_id connection_id)) w)).
Proof.
  intros Hk. unfold unregister, bind, log_call, hashed. rewrite Hk.
  transitivity
    (Ret tt,
     with_manager
       ((fun m => if dict_mem k (active_users m)
                  then set_active_users (dict_del k (active_users m)) m
                  else m)
          ((fun m => match connection_id with
                     | Some c =>
                         if truthy_id connection_id &&
                            bool_decide (is_Some (connection_users m !! c))
                         then set_connection_users (delete c (connection_users m)) m
                         else m
                     | None => m
                     end)
             ((fun m => if dict_mem k (user_connections m)
                        then set_user_connections
                               (dict_del k (user_connections m)) m
                        else m)
                (manager w))))
       (with_event (Called (CUnregister user_id connection_id)) w));
    [reflexivity |].
  f_equal. f_equal. cbv beta. rewrite drop_connection.
  destruct connection_id as [c|].
  - rewrite drop_connection_id, drop_activity.
    unfold forget. by destruct (truthy_id (Some c)).
  - by rewrite drop_activity.
Qed.

Lemma unregister_unhashable user_id connection_id w :
  hash_key user_id = None ->
  unregister user_id connection_id w =
    (Raise TypeError, with_event (Called (CUnregister user_id connection_id)) w).
Proof.
  intros Hk. unfold unregister, bind, log_call, hashed. by rewrite Hk.
Qed.

Lemma register_run uuid4 websocket user_id k w :
  hash_key user_id = Some k ->
  register uuid4 websocket user_id w =
    (Ret (uuid4 (draws w)),
     {| manager :=
          {| user_connections := dict_set k websocket (user_connections (manager w));
             connection_users :=
               <[uuid4 (draws w) := user_id]> (connection_users (manager w));
             user_channels := user_channels (manager w);
             active_users := dict_set k (clock w) (active_users (manager w)) |};
        clock := clock w;
        draws := S (draws w);
        closed := closed w;
        trace := trace w ++ [Called (CRegister websocket user_id)] |}).
Proof.
  intros Hk. unfold register, bind, log_call, hashed, uuid4_str. simpl.
  by rewrite Hk.
Qed.

Lemma register_unhashable uuid4 websocket user_id w :
  hash_key user_id = None ->
  register uuid4 websocket user_id w =
    (Raise TypeError,
     {| manager :=
          set_connection_users
            (<[uuid4 (draws w) := user_id]> (connection_users (manager w)))
            (manager w);
        clock := clock w;
        draws := S (draws w);
        closed := closed w;
        trace := trace w ++ [Called (CRegister websocket user_id)] |}).
Proof.
  intros Hk. unfold register, bind, log_call, hashed, uuid4_str. simpl.
  by rewrite Hk.
Qed.

Lemma send_to_user_absent user_id k message w :
  hash_key user_id = Some k ->
  dict_get k (user_connections (manager w)) = None ->
  send_to_user user_id message w =
    (Ret false, with_event (Called (CSendToUser user_id message)) w).
Proof.
  intros Hk Hget. unfold send_to_user, bind, log_call, hashed, get_manager.
  rewrite Hk. simpl. by rewrite Hget.
Qed.

Lemma send_to_user_open user_id k websocket message w :
  hash_key user_id = Some k ->
  dict_get k (user_connections (manager w)) = Some websocket ->
  websocket ∉ closed w ->
  send_to_user user_id message w =
    (Ret true,
     with_event (Wrote websocket message)
       (with_event (Called (CSendToUser user_id message)) w)).
Proof.
  intros Hk Hget Hopen. unfold send_to_user, bind, log_call, hashed, get_manager.
  rewrite Hk. simpl. rewrite Hget.
  unfold try_except, bind, ws_send. simpl. by rewrite decide_False.
Qed.

Lemma send_to_user_closed user_id k websocket message w :
  hash_key user_id = Some k ->
  dict_get k (user_connections (manager w)) = Some websocket ->
  websocket ∈ closed w ->
  send_to_user user_id message w =
    (Ret false,
     with_manager (forget k None (manager w))
       (with_event (Called (CUnregister user_id None))
          (with_event (WriteFailed websocket message)
             (with_event (Called (CSendToUser user_id message)) w)))).
Proof.
  intros Hk Hget Hclosed. unfold send_to_user, bind, log_call, hashed, get_manager.
  rewrite Hk. simpl. rewrite Hget.
  unfold try_except, bind, ws_send. simpl. rewrite decide_True by done.
  by rewrite (unregister_run _ k).
Qed.

(** ** C1: unregister *)

(** C1, as amended. [unregister(user_id, connection_id)] never compares
    [connection_id] with anything stored for the identity: whatever the id,
    the identity's connection handle and last-activity entry are gone
    afterwards. The id only selects which [connection_users] entry is
    forgotten as well. Sessions of other identities and all channel
    subscriptions are untouched, and for an identity that is not registered
    the handle and activity dictionaries stay as they are. *)
Theorem unregister_ignores_connection_id user_id k connection_id w :
  hash_key user_id = Some k ->
  let w' := run (unregister user_id connection_id) w in
  outcome (unregister user_id connection_id) w = Ret tt /\
  manager w' = forget k connection_id (manager w) /\
  session_of k w' = (None, None) /\
  (forall k', k' ≠ k -> session_of k' w' = session_of k' w) /\
  (session_of k w = (None, None) ->
   user_connections (manager w') = user_connections (manager w) /\
   active_users (manager w') = active_users (manager w)) /\
  user_channels (manager w') = user_channels (manager w) /\
  (forall c, connection_id ≠ Some c ->
     connection_users (manager w') !! c = connection_users (manager w) !! c).
Proof.
  intros Hk. unfold run, outcome. rewrite (unregister_run _ k) by done. simpl.
  unfold session_of. simpl. repeat split.
  - by rewrite !dict_get_del_eq.
  - intros k' Hne. by rewrite !dict_get_del_ne.
  - injection H as H _. by apply dict_del_absent.
  - injection H as _ H. by apply dict_del_absent.
  - intros c Hc. destruct connection_id as [c'|]; [| done].
    destruct (truthy_id (Some c')); [| done].
    apply lookup_delete_ne. congruence.
Qed.

Lemma unregister_ignores_connection_id_witness :
  hash_key alice = Some (KStr "alice") /\
  session_of (KStr "alice")
    (run (unregister alice (Some "c0"))
       (run (register sample_uuid4 2%nat alice)
          (run (register sample_uuid4 1%nat alice) world0))) = (None, None).
Proof.
  split; [reflexivity |].
  apply (unregister_ignores_connection_id alice (KStr "alice") (Some "c0")).
  reflexivity.
Defined.

(** C1, as stated, fails: alice registers on websocket 1 and again on
    websocket 2; the unregister of the first connection's task, carrying
    the first (stale) connection id, evicts the second Session. *)
Lemma unregister_guard_counterexample :
  ~ unregister_guard_claim sample_uuid4 1%nat 2%nat alice world0.
Proof.
  unfold unregister_guard_claim.
  rewrite (register_run _ _ _ (KStr "alice")) by done.
  rewrite (register_run _ _ _ (KStr "alice")) by done.
  simpl. intros H.
  assert (Hne : sample_uuid4 0 ≠ sample_uuid4 1) by (vm_compute; congruence).
  specialize (H Hne). unfold run in H.
  rewrite (unregister_run _ (KStr "alice")) in H by done.
  vm_compute in H. discriminate H.
Qed.

(** ** C6: registering an identity twice *)

(** A registration leaves the Sessions of the other identities alone. *)
Lemma register_keeps_others uuid4 websocket user_id k k' w :
  hash_key user_id = Some k ->
  k' ≠ k ->
  session_of k' (run (register uuid4 websocket user_id) w) = session_of k' w.
Proof.
  intros Hk Hne. unfold run. rewrite (register_run _ _ _ k) by done.
  unfold session_of. cbn [snd manager user_connections active_users].
  by rewrite !dict_get_set_ne.
Qed.


(** C6. With a UUID generator that never repeats a draw, two successive
    [register] calls for one identity return two distinct connection ids;
    afterwards the identity maps to the second websocket, and a
    [send_to_user] makes its one send attempt on that websocket (writing
    the message when its transport is open) and none on the first. *)
Theorem register_twice_routes_to_newest
    (uuid4 : nat -> string) h1 h2 user_id k message w :
  (forall i j, uuid4 i = uuid4 j -> i = j) ->
  hash_key user_id = Some k ->
  exists c1 c2 w1 w2 evs,
    register uuid4 h1 user_id w = (Ret c1, w1) /\
    register uuid4 h2 user_id w1 = (Ret c2, w2) /\
    c1 ≠ c2 /\
    dict_get k (user_connections (manager w2)) = Some h2 /\
    trace (run (send_to_user user_id message) w2) = trace w2 ++ evs /\
    attempted evs = [h2] /\
    (h1 ≠ h2 -> h1 ∉ attempted evs) /\
    written evs = (if decide (h2 ∈ closed w) then [] else [(h2, message)]) /\
    outcome (send_to_user user_id message) w2 = Ret (bool_decide (h2 ∉ closed w)).
Proof.
  intros Hinj Hk.
  rewrite (register_run _ _ _ k) by done.
  assert (Hfresh : uuid4 (draws w) ≠ uuid4 (S (draws w))).
  { intros Heq. apply Hinj in Heq. lia. }
  destruct (decide (h2 ∈ closed w)) as [Hc|Hc].
  - eexists _, _, _, _, _. split; [reflexivity |].
    rewrite (register_run _ _ _ k) by done.
    split; [reflexivity |]. simpl.
    split; [exact Hfresh |]. split; [apply dict_get_set_eq |].
    unfold run, outcome.
    erewrite (send_to_user_closed _ k h2);
      [| done | apply dict_get_set_eq | done ].
    simpl. rewrite <- !(assoc_L (++)). split; [reflexivity |]. simpl.
    split; [done |].
    split. { intros Hne Hin. by apply list_elem_of_singleton in Hin. }
    split; [done |]. by rewrite bool_decide_eq_false_2 by (intros ?; done).
  - eexists _, _, _, _, _. split; [reflexivity |].
    rewrite (register_run _ _ _ k) by done.
    split; [reflexivity |]. simpl.
    split; [exact Hfresh |]. split; [apply dict_get_set_eq |].
    unfold run, outcome.
    erewrite (send_to_user_open _ k h2);
      [| done | apply dict_get_set_eq | done ].
    simpl. rewrite <- !(assoc_L (++)). split; [reflexivity |]. simpl.
    split; [done |].
    split. { intros Hne Hin. by apply list_elem_of_singleton in Hin. }
    split; [done |]. by rewrite bool_decide_eq_true_2.
Qed.

Lemma sample_uuid4_inj i j : sample_uuid4 i = sample_uuid4 j -> i = j.
Proof.
  unfold sample_uuid4. intros H. injection H as H. by apply (inj pretty).
Qed.

Lemma register_twice_routes_to_newest_witness :
  hash_key alice = Some (KStr "alice") /\
  exists c1 c2 w1 w2 evs,
    register sample_uuid4 1%nat alice world0 = (Ret c1, w1) /\
    register sample_uuid4 2%nat alice w1 = (Ret c2, w2) /\
    c1 ≠ c2 /\
    dict_get (KStr "alice") (user_connections (manager w2)) = Some 2%nat /\
    trace (run (send_to_user alice bob) w2) = trace w2 ++ evs /\
    attempted evs = [2%nat] /\
    (1%nat ≠ 2%nat -> 1%nat ∉ attempted evs) /\
    written evs = (if decide (2%nat ∈ closed world0) then [] else [(2%nat, bob)]) /\
    outcome (send_to_user alice bob) w2 = Ret (bool_decide (2%nat ∉ closed world0)).
Proof.
  split; [reflexivity |].
  apply (register_twice_routes_to_newest sample_uuid4 1%nat 2%nat alice
           (KStr "alice") bob world0 sample_uuid4_inj).
  reflexivity.
Defined.

(** ** The reaper *)

Lemma forget_all_channels users m :
  user_channels (forget_all users m) = user_channels m.
Proof.
  revert m. induction users as [|k users IH]; intros m; simpl; [done |].
  unfold forget_all in *. simpl. by rewrite IH.
Qed.

Lemma forget_all_connections k users m :
  dict_get k (user_connections (forget_all users m)) =
    if decide (k ∈ users) then None else dict_get k (user_connections m).
Proof.
  revert m. induction users as [|k0 users IH]; intros m.
  - by rewrite decide_False by apply not_elem_of_nil.
  - change (forget_all (k0 :: users) m)
      with (forget_all users (forget k0 None m)).
    rewrite IH. cbn [forget user_connections].
    destruct (decide (k ∈ users)) as [Hin|Hnin].
    + by rewrite decide_True by (by apply list_elem_of_further).
    + destruct (decide (k0 = k)) as [->|Hne].
      * rewrite decide_True by apply list_elem_of_here. apply dict_get_del_eq.
      * rewrite decide_False
          by (rewrite elem_of_cons; intros [?|?]; congruence).
        by apply dict_get_del_ne.
Qed.

Lemma forget_all_active k users m :
  dict_get k (active_users (forget_all users m)) =
    if decide (k ∈ users) then None else dict_get k (active_users m).
Proof.
  revert m. induction users as [|k0 users IH]; intros m.
  - by rewrite decide_False by apply not_elem_of_nil.
  - change (forget_all (k0 :: users) m)
      with (forget_all users (forget k0 None m)).
    rewrite IH. cbn [forget active_users].
    destruct (decide (k ∈ users)) as [Hin|Hnin].
    + by rewrite decide_True by (by apply list_elem_of_further).
    + destruct (decide (k0 = k)) as [->|Hne].
      * rewrite decide_True by apply list_elem_of_here. apply dict_get_del_eq.
      * rewrite decide_False
          by (rewrite elem_of_cons; intros [?|?]; congruence).
        by apply dict_get_del_ne.
Qed.

Lemma unregister_each_run users w :
  unregister_each users w =
    (Ret tt,
     with_manager (forget_all users (manager w))
       (with_events
          ((fun k => Called (CUnregister (key_json k) None)) <$> users) w)).
Proof.
  revert w. induction users as [|k users IH]; intros w; simpl.
  - unfold ret, with_manager, with_events. simpl. rewrite app_nil_r.
    by destruct w.
  - unfold bind. rewrite (unregister_run _ k) by apply hash_key_json.
    rewrite IH. unfold with_manager, with_events, with_event. simpl.
    by rewrite <- (assoc_L (++)).
Qed.

Lemma elem_of_inactive_users k now items :
  k ∈ inactive_users now items <->
  exists last, (k, last) ∈ items /\
    CONNECTION_TIMEOUT config < timedelta_seconds (now - last).
Proof.
  induction items as [|[k0 last0] items IH]; cbn [inactive_users].
  - split.
    + intros H. by apply elem_of_nil in H.
    + intros (last & H & _). by apply elem_of_nil in H.
  - destruct (Z.ltb_spec (CONNECTION_TIMEOUT config) (timedelta_seconds (now - last0)))
      as [Hlt|Hge].
    + rewrite elem_of_cons, IH. split.
      * intros [->|(last & Hin & Hl)].
        -- exists last0. split; [apply list_elem_of_here | done].
        -- exists last. split; [by apply list_elem_of_further | done].
      * intros (last & Hin & Hl). apply elem_of_cons in Hin as [[= -> ->]|Hin].
        -- by left.
        -- right. by exists last.
    + rewrite IH. split.
      * intros (last & Hin & Hl). exists last.
        split; [by apply list_elem_of_further | done].
      * intros (last & Hin & Hl). apply elem_of_cons in Hin as [[= -> ->]|Hin].
        -- lia.
        -- by exists last.
Qed.

Lemma health_check_tick_run w :
  health_check_tick w =
    (Ret tt,
     with_manager
       (forget_all (inactive_users (clock w) (active_users (manager w))) (manager w))
       (with_events
          ((fun k => Called (CUnregister (key_json k) None)) <$>
             inactive_users (clock w) (active_users (manager w))) w)).
Proof.
  unfold health_check_tick, bind, datetime_now, get_manager.
  apply unregister_each_run.
Qed.

Lemma attempted_calls {A} (f : A -> call) (xs : list A) :
  attempted ((fun x => Called (f x)) <$> xs) = [].
Proof. induction xs as [|x xs IH]; simpl; [done | exact IH]. Qed.

Lemma news_app w evs w' : trace w' = trace w ++ evs -> news w w' = evs.
Proof. intros H. unfold news. rewrite H. by rewrite drop_app_length. Qed.

Lemma timedelta_seconds_small d :
  0 <= d / 1000000 < 86400 -> timedelta_seconds d = d / 1000000.
Proof. intros H. unfold timedelta_seconds. by apply Z.mod_small. Qed.

(** ** C2: the reaper *)

(** C2, as amended. One pass of [health_check] unregisters (without a
    connection id) every identity whose last-activity entry is older than
    the timeout of 300 s, counted in whole seconds and below one day, and
    keeps every identity idle for between 0 and 300 s. The pass sends
    nothing on any websocket: no [user_offline] broadcast is issued by the
    reaper. *)
Theorem reaper_evicts_silently w k last :
  dict_wf (active_users (manager w)) ->
  dict_get k (active_users (manager w)) = Some last ->
  let w' := run health_check_tick w in
  let idle := (clock w - last) / 1000000 in
  outcome health_check_tick w = Ret tt /\
  CONNECTION_TIMEOUT config = 300 /\
  (CONNECTION_TIMEOUT config < idle < 86400 -> session_of k w' = (None, None)) /\
  (0 <= idle <= CONNECTION_TIMEOUT config -> session_of k w' = session_of k w) /\
  attempted (news w w') = [] /\
  written (news w w') = [].
Proof.
  intros Hwf Hget w' idle. subst w' idle. unfold run, outcome.
  assert (Htimeout : CONNECTION_TIMEOUT config = 300) by reflexivity.
  rewrite health_check_tick_run. cbn [fst snd].
  set (users := inactive_users (clock w) (active_users (manager w))).
  split; [done |]. split; [done |].
  assert (Hnews :
    news w (with_manager (forget_all users (manager w))
              (with_events
                 ((fun k => Called (CUnregister (key_json k) None)) <$> users) w))
    = (fun k => Called (CUnregister (key_json k) None)) <$> users).
  { by apply news_app. }
  rewrite Hnews. unfold session_of. cbn [manager with_manager].
  rewrite forget_all_connections, forget_all_active.
  split; [| split; [| split]].
  - intros Hidle.
    assert (Hin : k ∈ users).
    { apply elem_of_inactive_users. exists last.
      split; [by apply dict_get_Some_elem |].
      rewrite timedelta_seconds_small; lia. }
    by rewrite !decide_True by done.
  - intros Hidle.
    assert (Hnin : k ∉ users).
    { intros Hin. apply elem_of_inactive_users in Hin as (last' & Hin & Hlt).
      apply (dict_wf_elem_get _ _ _ Hwf) in Hin.
      assert (last' = last) as -> by congruence.
      rewrite timedelta_seconds_small in Hlt; lia. }
    by rewrite !decide_False by done.
  - apply attempted_calls.
  - clear. induction users as [|u users IH]; [done | exact IH].
Qed.

Lemma reaper_evicts_silently_witness :
  dict_wf (active_users (manager reaper_world)) /\
  dict_get (KStr "alice") (active_users (manager reaper_world)) = Some 0 /\
  session_of (KStr "alice") (run health_check_tick reaper_world) = (None, None) /\
  attempted (news reaper_world (run health_check_tick reaper_world)) = [].
Proof.
  assert (Hwf : dict_wf (active_users (manager reaper_world))).
  { unfold dict_wf. simpl. apply NoDup_cons. split.
    - intros H. apply list_elem_of_singleton in H. discriminate H.
    - apply NoDup_singleton. }
  assert (Hget : dict_get (KStr "alice") (active_users (manager reaper_world))
                 = Some 0) by reflexivity.
  split; [exact Hwf |]. split; [exact Hget |].
  destruct (reaper_evicts_silently reaper_world (KStr "alice") 0 Hwf Hget)
    as (_ & _ & Hevict & _ & Hsilent & _).
  split; [| exact Hsilent].
  apply Hevict. vm_compute. split; reflexivity.
Defined.

(** C2, as stated, fails: in [reaper_world] alice has been idle for 401 s
    and is evicted by the pass, but bob, who stays registered on websocket
    2, is sent no [user_offline] frame about her. *)
Lemma reaper_notifies_counterexample : ~ reaper_notifies_claim reaper_world.
Proof.
  intros H.
  destruct (H (KStr "alice") 0) as [_ Hbob]; [reflexivity | reflexivity |].
  specialize (Hbob (KStr "bob") 2%nat).
  assert (Hseen :
    offline_seen 2%nat (KStr "alice")
      (news reaper_world (run health_check_tick reaper_world)) = 0%nat).
  { unfold run. rewrite health_check_tick_run. reflexivity. }
  rewrite Hseen in Hbob.
  assert (0%nat = 1%nat) as Habs; [| discriminate Habs].
  apply Hbob; [discriminate | reflexivity].
Qed.

(** ** C10: channel subscriptions outlive the Session *)

(** C10. [unregister], with any identity and any connection id, and a pass
    of the reaper leave [user_channels] as it was; so does a later
    [register]: the identity that registers again finds the channel set
    its previous session left. *)
Theorem unregister_keeps_channels
    (uuid4 : nat -> string) websocket user_id connection_id w :
  user_channels (manager (run (unregister user_id connection_id) w))
    = user_channels (manager w) /\
  user_channels (manager (run health_check_tick w))
    = user_channels (manager w) /\
  user_channels
    (manager (run (register uuid4 websocket user_id)
                (run (unregister user_id connection_id) w)))
    = user_channels (manager w).
Proof.
  unfold run. destruct (hash_key user_id) as [k|] eqn:Hk.
  - rewrite (unregister_run _ k) by done.
    rewrite (register_run _ _ _ k) by done.
    rewrite health_check_tick_run. cbn [snd manager with_manager].
    by rewrite forget_all_channels.
  - rewrite unregister_unhashable by done.
    rewrite register_unhashable by done.
    rewrite health_check_tick_run. cbn [snd manager with_manager].
    by rewrite forget_all_channels.
Qed.

(** ** C3: broadcast *)

Lemma broadcast_tasks_recipients message exclude_user items :
  broadcast_tasks message exclude_user items =
    (fun h => ws_send h message) <$> recipients exclude_user items.
Proof.
  induction items as [|[k h] items IH]; simpl; [done |].
  destruct (negb (key_is k exclude_user)); simpl; by rewrite IH.
Qed.

Lemma send_event_with_events evs w h message :
  send_event (with_events evs w) h message = send_event w h message.
Proof. reflexivity. Qed.

Lemma with_events_nil w : with_events [] w = w.
Proof. unfold with_events. rewrite app_nil_r. by destruct w. Qed.

Lemma with_events_app evs1 evs2 w :
  with_events evs2 (with_events evs1 w) = with_events (evs1 ++ evs2) w.
Proof. unfold with_events. simpl. by rewrite (assoc_L (++)). Qed.

Lemma ws_send_run h message w :
  ws_send h message w =
    (if decide (h ∈ closed w) then Raise ConnectionClosed else Ret tt,
     with_events [send_event w h message] w).
Proof.
  unfold ws_send, send_event, with_event, with_events.
  by destruct (decide (h ∈ closed w)).
Qed.

Lemma gather_sends message websockets w :
  gather ((fun h => ws_send h message) <$> websockets) w =
    (if some_closed w websockets then Raise ConnectionClosed else Ret tt,
     with_events ((fun h => send_event w h message) <$> websockets) w).
Proof.
  revert w. induction websockets as [|h hs IH]; intros w.
  - simpl. unfold ret. by rewrite with_events_nil.
  - cbn [fmap list_fmap gather]. rewrite ws_send_run, IH.
    rewrite with_events_app. cbn [some_closed existsb app].
    change (some_closed (with_events [send_event w h message] w) hs)
      with (some_closed w hs).
    fold (some_closed w hs).
    destruct (decide (h ∈ closed w)) as [Hc|Hc].
    + rewrite bool_decide_eq_true_2 by done. reflexivity.
    + rewrite bool_decide_eq_false_2 by done. simpl.
      by destruct (some_closed w hs).
Qed.

Lemma gather_guard (tasks : list (M unit)) :
  match tasks with [] => ret tt | _ :: _ => gather tasks end = gather tasks.
Proof. by destruct tasks. Qed.

Lemma broadcast_run message exclude_user w :
  broadcast message exclude_user w =
    (if some_closed w (recipients exclude_user (user_connections (manager w)))
     then Raise ConnectionClosed else Ret tt,
     with_events
       (Called (CBroadcast message exclude_user) ::
        ((fun h => send_event w h message) <$>
           recipients exclude_user (user_connections (manager w)))) w).
Proof.
  unfold broadcast, bind, log_call, get_manager. cbn [manager with_event].
  rewrite gather_guard, broadcast_tasks_recipients.
  change (with_event (Called (CBroadcast message exclude_user)) w)
    with (with_events [Called (CBroadcast message exclude_user)] w).
  rewrite gather_sends, with_events_app. reflexivity.
Qed.

(** The part of C3 that holds: a send is attempted on the websocket of
    every registered identity but the excluded one, whatever happens to the
    other attempts; what does not hold is that the caller is spared: it gets
    [ConnectionClosed] as soon as one recipient's transport is closed. *)
Lemma broadcast_attempts_every_recipient message exclude_user w :
  attempted (news w (run (broadcast message exclude_user) w)) =
    recipients exclude_user (user_connections (manager w)) /\
  outcome (broadcast message exclude_user) w =
    if some_closed w (recipients exclude_user (user_connections (manager w)))
    then Raise ConnectionClosed else Ret tt.
Proof.
  unfold run, outcome. rewrite broadcast_run. cbn [fst snd]. split; [| done].
  erewrite news_app; [| reflexivity]. cbn [attempted omap].
  induction (recipients exclude_user (user_connections (manager w)))
    as [|h hs IH]; [done |].
  cbn [fmap list_fmap omap]. unfold send_event at 1.
  destruct (decide (h ∈ closed w)); cbn; f_equal; exact IH.
Qed.

(** C3, at the failing input. alice comes online while bob's transport is
    closed: the broadcast excluding alice attempts bob (fails) and carol
    (written), and then raises [ConnectionClosed] to its caller instead of
    returning. *)
Theorem broadcast_failure_reaches_caller :
  broadcast notice alice broadcast_world =
    (Raise ConnectionClosed,
     with_events
       [Called (CBroadcast notice alice);
        WriteFailed 2%nat notice; Wrote 3%nat notice] broadcast_world).
Proof. rewrite broadcast_run. reflexivity. Qed.

(** ** C4: which frames the dispatcher accepts *)

Lemma validate_message_obj fields :
  validate_message (JObj fields) =
    Ret (bool_decide (is_Some (assoc "type" fields)) &&
         bool_decide (is_Some (assoc "data" fields)) &&
         bool_decide (is_Some (assoc "timestamp" fields))).
Proof.
  unfold validate_message, required_fields. cbn [all_in py_contains rbind].
  destruct (bool_decide (is_Some (assoc "type" fields))); [| done].
  destruct (bool_decide (is_Some (assoc "data" fields))); [| done].
  by destruct (bool_decide (is_Some (assoc "timestamp" fields))).
Qed.

Lemma accepted_obj fields :
  accepted (JObj fields) <->
  carries "type" (JObj fields) /\ carries "data" (JObj fields) /\
  carries "timestamp" (JObj fields).
Proof.
  unfold accepted, carries. rewrite validate_message_obj. split.
  - intros [= H]. apply andb_prop in H as [H H3]. apply andb_prop in H as [H1 H2].
    by apply bool_decide_eq_true_1 in H1, H2, H3.
  - intros (H1 & H2 & H3). by rewrite !bool_decide_eq_true_2 by done.
Qed.

(** C4, as amended. An envelope is accepted, that is handed to the dispatch
    on its kind after the sender's activity is updated, if and only if it
    carries the three fields [type], [data] and [timestamp]; an envelope
    that misses one of them is dropped: the iteration returns normally and
    leaves the world as it was, so nothing is sent to anyone, the
    connection stays, and the activity entry is not updated. *)
Theorem dispatcher_accepts_three_fields
    (uuid4 : nat -> string) (isoformat : Z -> string)
    websocket user_id fields :
  (accepted (JObj fields) <->
     carries "type" (JObj fields) /\ carries "data" (JObj fields) /\
     carries "timestamp" (JObj fields)) /\
  (accepted (JObj fields) ->
   forall w,
     frame_body uuid4 isoformat websocket user_id (Some (JObj fields)) w =
       bind (update_user_activity user_id)
         (fun _ => dispatch uuid4 isoformat websocket user_id (JObj fields)) w) /\
  (~ accepted (JObj fields) ->
   forall w,
     frame_iteration uuid4 isoformat websocket user_id (Some (JObj fields)) w =
       (Ret tt, w)).
Proof.
  split; [apply accepted_obj |]. split.
  - intros Hacc w. unfold frame_body, bind, lift. cbn [json_loads].
    unfold accepted in Hacc. by rewrite Hacc.
  - intros Hrej w. unfold frame_iteration, try_except, frame_body, bind, lift.
    cbn [json_loads]. unfold accepted in Hrej.
    rewrite validate_message_obj in Hrej |- *.
    destruct (_ && _ && _); [done | reflexivity].
Qed.

(** C4, as stated, fails: a ping that carries a kind and a payload but no
    timestamp is not accepted. *)
Lemma dispatcher_accepts_counterexample :
  ~ dispatcher_accepts_claim ping_without_timestamp.
Proof.
  unfold dispatcher_accepts_claim, ping_without_timestamp. intros [_ H].
  assert (Hacc : accepted (JObj [("type", JStr "ping"); ("data", JObj [])])).
  { apply H. split; simpl; by eexists. }
  apply accepted_obj in Hacc as (_ & _ & [v Hv]). discriminate Hv.
Qed.

(** The dropped ping gets no pong. *)
Lemma ping_without_timestamp_dropped uuid4 isoformat websocket user_id w :
  frame_iteration uuid4 isoformat websocket user_id
    (Some ping_without_timestamp) w = (Ret tt, w).
Proof. reflexivity. Qed.

(** ** C5: authenticate *)

Lemma authenticate_obj fields :
  authenticate (JObj fields) =
    if is_str (default JNull (assoc "type" fields)) "auth" then
      match default (JObj []) (assoc "data" fields) with
      | JObj payload =>
          if truthy (default JNull (assoc "user_id" payload)) &&
             truthy (default JNull (assoc "token" payload))
          then Ret (default JNull (assoc "user_id" payload))
          else Ret JNull
      | _ => Raise AttributeError
      end
    else Ret JNull.
Proof.
  unfold authenticate. cbn [py_get rbind].
  destruct (is_str _ "auth"); [| done].
  by destruct (default (JObj []) (assoc "data" fields)).
Qed.

Lemma is_str_true v s : is_str v s = true <-> v = JStr s.
Proof.
  destruct v; simpl; try (split; [discriminate | discriminate]).
  rewrite String.eqb_eq. split; congruence.
Qed.

(** C5, as amended. [authenticate] returns the payload's [user_id] exactly
    for the frames of kind [auth] whose payload holds a [user_id] and a
    [token] that Python counts as true (for strings: non-empty). For every
    other frame it returns [None], the same for all of them and without a
    reason, or, when the frame or its payload is not a mapping, raises
    [AttributeError]. *)
Theorem authenticate_accepts_or_returns_none message :
  (forall user_id,
     auth_accepts message user_id <->
     authenticate message = Ret user_id /\ truthy user_id = true) /\
  ((~ exists user_id, auth_accepts message user_id) ->
   authenticate message = Ret JNull \/
   authenticate message = Raise AttributeError).
Proof.
  assert (Hiff : forall user_id,
     auth_accepts message user_id <->
     authenticate message = Ret user_id /\ truthy user_id = true).
  { intros user_id. split.
    - intros (fields & payload & token & -> & Hty & Hdata & Hu & Htu & Ht & Htt).
      rewrite authenticate_obj, Hty, Hdata. simpl. rewrite Hu, Ht. simpl.
      by rewrite Htu, Htt.
    - intros [Hauth Htu]. destruct message as [| | | | |fields];
        try discriminate Hauth.
      rewrite authenticate_obj in Hauth.
      destruct (is_str _ "auth") eqn:Hkind;
        [| injection Hauth as <-; discriminate Htu].
      apply is_str_true in Hkind.
      destruct (assoc "type" fields) as [kind|] eqn:Hty;
        [simpl in Hkind; subst kind | discriminate Hkind].
      destruct (assoc "data" fields) as [data|] eqn:Hdata; simpl in Hauth.
      + destruct data as [| | | | |payload]; try discriminate Hauth.
        destruct (assoc "user_id" payload) as [u|] eqn:Hu; simpl in Hauth.
        * destruct (truthy u) eqn:Hut; simpl in Hauth;
            [| injection Hauth as <-; discriminate Htu].
          destruct (assoc "token" payload) as [t|] eqn:Ht; simpl in Hauth.
          -- destruct (truthy t) eqn:Htt;
               [| injection Hauth as <-; discriminate Htu].
             injection Hauth as ->.
             by exists fields, payload, t.
          -- injection Hauth as <-; discriminate Htu.
        * injection Hauth as <-; discriminate Htu.
      + injection Hauth as <-; discriminate Htu. }
  split; [exact Hiff |].
  intros Hrej. destruct message as [| | | | |fields]; try (by right).
  rewrite authenticate_obj.
  destruct (is_str _ "auth") eqn:Hkind; [| by left].
  destruct (default (JObj []) (assoc "data" fields)) as [| | | | |payload] eqn:Hd;
    try (by right).
  destruct (truthy (default JNull (assoc "user_id" payload)) &&
            truthy (default JNull (assoc "token" payload))) eqn:Hboth;
    [| by left].
  exfalso. apply Hrej. exists (default JNull (assoc "user_id" payload)).
  apply Hiff. rewrite authenticate_obj, Hkind, Hd, Hboth.
  split; [done |]. by apply andb_prop in Hboth as [? _].
Qed.

(** C5, as stated, fails: a first frame of kind [ping] is answered with
    [None], which carries none of the three reasons. *)
Lemma authenticate_reason_counterexample :
  ~ authenticate_reason_claim (JObj [("type", JStr "ping")]).
Proof.
  intros H. destruct H as (reason & v & _ & Hret & Hm).
  - intros (user_id & fields & payload & token & [= <-] & Hty & _).
    discriminate Hty.
  - injection Hret as <-. discriminate Hm.
Qed.

(** ** C9: no frame content ends the read loop *)

(** The body of the inner [try] does raise: on text that is not JSON, and
    on a payload that is not a mapping (after the activity update). *)
Lemma frame_body_raises_on_malformed uuid4 isoformat websocket user_id w :
  outcome (frame_body uuid4 isoformat websocket user_id None) w
    = Raise JSONDecodeError.
Proof. reflexivity. Qed.

Lemma frame_body_raises_on_bad_payload uuid4 isoformat websocket w :
  outcome
    (frame_body uuid4 isoformat websocket alice
       (Some (JObj [("type", JStr "send_message"); ("data", JStr "hello");
                    ("timestamp", JStr "now")]))) w
    = Raise AttributeError.
Proof. reflexivity. Qed.

Lemma frame_iteration_returns uuid4 isoformat websocket user_id message w :
  outcome (frame_iteration uuid4 isoformat websocket user_id message) w = Ret tt.
Proof.
  unfold outcome, frame_iteration, try_except.
  destruct (frame_body uuid4 isoformat websocket user_id message w)
    as [[[]|e] w']; [done |].
  by destruct e.
Qed.

Lemma message_loop_app uuid4 isoformat websocket user_id before after w :
  message_loop uuid4 isoformat websocket user_id (before ++ after) w =
    message_loop uuid4 isoformat websocket user_id after
      (run (message_loop uuid4 isoformat websocket user_id before) w).
Proof.
  revert w. induction before as [|message before IH]; intros w; [done |].
  cbn [app message_loop]. unfold bind, run in *.
  pose proof (frame_iteration_returns uuid4 isoformat websocket user_id message w)
    as Hret. unfold outcome in Hret.
  destruct (frame_iteration uuid4 isoformat websocket user_id message w)
    as [r w1]. simpl in Hret. subst r. apply IH.
Qed.

(** C9. Whatever a frame contains, its iteration of the read loop returns
    normally: text that is not JSON and every exception raised while the
    frame is processed end in one of the two [except] clauses of the loop
    body. So the loop over any inbox returns normally too, and every frame
    that follows another one is processed, in the world its predecessors
    left. *)
Theorem frame_never_escapes_loop
    (uuid4 : nat -> string) (isoformat : Z -> string) websocket user_id :
  (forall message w,
     outcome (frame_iteration uuid4 isoformat websocket user_id message) w
       = Ret tt) /\
  (forall inbox w,
     outcome (message_loop uuid4 isoformat websocket user_id inbox) w = Ret tt) /\
  (forall before message after w,
     run (message_loop uuid4 isoformat websocket user_id
            (before ++ message :: after)) w =
     run (message_loop uuid4 isoformat websocket user_id after)
       (run (frame_iteration uuid4 isoformat websocket user_id message)
          (run (message_loop uuid4 isoformat websocket user_id before) w))).
Proof.
  split; [apply frame_iteration_returns |]. split.
  - intros inbox. induction inbox as [|message inbox IH]; intros w; [done |].
    cbn [message_loop]. unfold outcome, bind.
    pose proof (frame_iteration_returns uuid4 isoformat websocket user_id message w)
      as Hret. unfold outcome in Hret.
    destruct (frame_iteration uuid4 isoformat websocket user_id message w)
      as [r w1]. simpl in Hret. subst r. apply IH.
  - intros before message after w. unfold run at 1.
    rewrite message_loop_app. cbn [message_loop]. unfold bind.
    set (w0 := run (message_loop uuid4 isoformat websocket user_id before) w).
    pose proof (frame_iteration_returns uuid4 isoformat websocket user_id message w0)
      as Hret. unfold outcome in Hret. unfold run at 2.
    destruct (frame_iteration uuid4 isoformat websocket user_id message w0)
      as [r w1]. simpl in Hret. subst r. reflexivity.
Qed.

(** ** C7: the receipt of a send_message frame *)

Lemma create_message_run uuid4 isoformat msg_type data sender w :
  create_message uuid4 isoformat msg_type data sender w =
    (Ret (envelope isoformat msg_type data sender (clock w) (uuid4 (draws w))),
     drew w).
Proof. reflexivity. Qed.

Lemma update_user_activity_run user_id k w :
  hash_key user_id = Some k ->
  update_user_activity user_id w = (Ret tt, touched user_id k w).
Proof.
  intros Hk. unfold update_user_activity, bind, log_call, hashed.
  by rewrite Hk.
Qed.

Lemma send_to_user_run user_id k message w :
  hash_key user_id = Some k ->
  outcome (send_to_user user_id message) w = Ret (deliverable k w) /\
  exists evs,
    trace (run (send_to_user user_id message) w) = trace w ++ evs /\
    closed (run (send_to_user user_id message) w) = closed w /\
    clock (run (send_to_user user_id message) w) = clock w /\
    draws (run (send_to_user user_id message) w) = draws w.
Proof.
  intros Hk. unfold outcome, run, deliverable.
  destruct (dict_get k (user_connections (manager w))) as [h|] eqn:Hget.
  - destruct (decide (h ∈ closed w)) as [Hc|Hc].
    + rewrite (send_to_user_closed _ k h) by done. cbn [fst snd].
      split; [by rewrite bool_decide_eq_false_2 by (intros ?; done) |].
      eexists. cbn. rewrite <- !(assoc_L (++)). done.
    + rewrite (send_to_user_open _ k h) by done. cbn [fst snd].
      split; [by rewrite bool_decide_eq_true_2 |].
      eexists. cbn. rewrite <- !(assoc_L (++)). done.
  - rewrite (send_to_user_absent _ k) by done. cbn [fst snd].
    split; [done |]. eexists. cbn. done.
Qed.

(** On a [send_message] frame with a target and a content the dispatch is
    the forward followed by the receipt. *)
Lemma dispatch_send_message uuid4 isoformat websocket user_id
    fields payload target_user content w :
  assoc "type" fields = Some (JStr "send_message") ->
  assoc "data" fields = Some (JObj payload) ->
  assoc "target_user" payload = Some target_user ->
  truthy target_user = true ->
  assoc "content" payload = Some content ->
  truthy content = true ->
  dispatch uuid4 isoformat websocket user_id (JObj fields) w =
    bind
      (create_message uuid4 isoformat "new_message"
         (JObj [("content", content); ("from_user", user_id);
                ("to_user", target_user)]) user_id)
      (fun msg =>
         bind (send_to_user target_user msg)
           (fun success =>
              bind
                (create_message uuid4 isoformat "message_receipt"
                   (receipt_data fields success target_user) JNull)
                (fun receipt => ws_send websocket receipt))) w.
Proof.
  intros Hty Hdata Htarget Htt Hcontent Htc.
  unfold dispatch, bind, lift, receipt_data. cbn [py_index py_get].
  rewrite Hty. cbn [is_str String.eqb Ascii.eqb Bool.eqb andb].
  rewrite Hdata. cbn [py_get]. rewrite Htarget, Hcontent. cbn [default id].
  rewrite Htt, Htc. cbn [andb]. reflexivity.
Qed.

(** The iteration on such a frame, step by step *)
Lemma send_message_receipt_run
    (uuid4 : nat -> string) (isoformat : Z -> string)
    websocket user_id k fields payload target_user kt content w :
  hash_key user_id = Some k ->
  accepted (JObj fields) ->
  assoc "type" fields = Some (JStr "send_message") ->
  assoc "data" fields = Some (JObj payload) ->
  assoc "target_user" payload = Some target_user ->
  truthy target_user = true ->
  hash_key target_user = Some kt ->
  assoc "content" payload = Some content ->
  truthy content = true ->
  let iteration :=
    frame_iteration uuid4 isoformat websocket user_id (Some (JObj fields)) in
  let w1 := drew (touched user_id k w) in
  let msg :=
    envelope isoformat "new_message"
      (JObj [("content", content); ("from_user", user_id);
             ("to_user", target_user)])
      user_id (clock w) (uuid4 (draws w)) in
  let w2 := run (send_to_user target_user msg) w1 in
  exists success receipt,
    outcome (send_to_user target_user msg) w1 = Ret success /\
    success = deliverable kt w /\
    outcome iteration w = Ret tt /\
    trace (run iteration w) = trace w2 ++ [send_event w websocket receipt] /\
    receipt =
      envelope isoformat "message_receipt"
        (receipt_data fields success target_user) JNull
        (clock w) (uuid4 (S (draws w))) /\
    py_get receipt "type" JNull = Ret (JStr "message_receipt") /\
    py_get (receipt_data fields success target_user) "status" JNull
      = Ret (JStr (if success then "delivered" else "failed")) /\
    py_get (receipt_data fields success target_user) "message_id" JNull
      = Ret (default JNull (assoc "message_id" fields)).
Proof.
  intros Hk Hacc Hty Hdata Htarget Htt Hkt Hcontent Htc iteration w1 msg w2.
  destruct (send_to_user_run target_user kt msg w1 Hkt)
    as (Hout & evs & Htrace & Hclosed & Hclock & Hdraws).
  fold w2 in Htrace, Hclosed, Hclock, Hdraws.
  eexists (deliverable kt w), _.
  split; [exact Hout |]. split; [reflexivity |].
  split; [apply frame_iteration_returns |].
  split; [| split; [reflexivity | split; [reflexivity | split; reflexivity]]].
  subst iteration. unfold run at 1. unfold frame_iteration, try_except.
  unfold frame_body. unfold bind at 1. unfold lift at 1. cbn [json_loads].
  unfold bind at 1. unfold lift at 1. unfold accepted in Hacc. rewrite Hacc.
  cbn [negb]. unfold bind at 1. rewrite (update_user_activity_run _ k) by done.
  rewrite (dispatch_send_message _ _ _ _ _ payload target_user content) by done.
  rewrite bind_run, create_message_run. fold w1.
  change (envelope isoformat "new_message" _ user_id
            (clock (touched user_id k w)) (uuid4 (draws (touched user_id k w))))
    with msg.
  rewrite bind_run. unfold outcome in Hout.
  unfold run in w2. destruct (send_to_user target_user msg w1) as [r w2'] eqn:Hsend.
  simpl in Hout. subst r. simpl in w2. subst w2. cbv beta iota.
  rewrite bind_run, create_message_run.
  rewrite ws_send_run. cbn [drew closed clock draws trace snd with_events].
  rewrite Hclock, Hdraws.
  replace (send_event (drew w2') websocket) with (send_event w websocket).
  2:{ unfold send_event. cbn [drew closed]. rewrite Hclosed. reflexivity. }
  destruct (decide (websocket ∈ closed w2')); reflexivity.
Qed.

(** C7. A [send_message] frame that the dispatcher accepts and whose
    payload carries a target identity and a content (both true for
    Python, the target hashable) is always answered on the sender's
    websocket: the last thing the iteration does is to send a
    [message_receipt] envelope there (written whenever the sender's own
    transport is open). Its status is [delivered] when the [send_to_user]
    of the forwarded [new_message] returned true, which it does exactly
    when the target is registered on an open websocket, and [failed]
    otherwise; its [message_id] is the frame's own, unchanged ([None] when
    the frame has none). *)
Theorem send_message_always_receipted
    (uuid4 : nat -> string) (isoformat : Z -> string)
    websocket user_id k fields payload target_user kt content w :
  hash_key user_id = Some k ->
  accepted (JObj fields) ->
  assoc "type" fields = Some (JStr "send_message") ->
  assoc "data" fields = Some (JObj payload) ->
  assoc "target_user" payload = Some target_user ->
  truthy target_user = true ->
  hash_key target_user = Some kt ->
  assoc "content" payload = Some content ->
  truthy content = true ->
  let iteration :=
    frame_iteration uuid4 isoformat websocket user_id (Some (JObj fields)) in
  let forward :=
    create_message uuid4 isoformat "new_message"
      (JObj [("content", content); ("from_user", user_id);
             ("to_user", target_user)])
      user_id in
  let w0 := run (update_user_activity user_id) w in
  let w1 := run forward w0 in
  exists msg success receipt data,
    outcome forward w0 = Ret msg /\
    outcome (send_to_user target_user msg) w1 = Ret success /\
    success = deliverable kt w /\
    outcome iteration w = Ret tt /\
    trace (run iteration w) =
      trace (run (send_to_user target_user msg) w1) ++
      [send_event w websocket receipt] /\
    py_get receipt "type" JNull = Ret (JStr "message_receipt") /\
    py_get receipt "data" JNull = Ret data /\
    py_get data "status" JNull
      = Ret (JStr (if success then "delivered" else "failed")) /\
    py_get data "message_id" JNull
      = Ret (default JNull (assoc "message_id" fields)) /\
    py_get data "target_user" JNull = Ret target_user.
Proof.
  intros Hk Hacc Hty Hdata Htarget Htt Hkt Hcontent Htc iteration forward w0 w1.
  assert (Hw0 : w0 = touched user_id k w).
  { subst w0. unfold run. by rewrite (update_user_activity_run _ k). }
  destruct (send_message_receipt_run uuid4 isoformat websocket user_id k
              fields payload target_user kt content w
              Hk Hacc Hty Hdata Htarget Htt Hkt Hcontent Htc)
    as (success & receipt & Hout & Hsuccess & Hret & Htrace & Hreceipt & _).
  subst w1 forward. rewrite Hw0.
  eexists _, success, receipt, (receipt_data fields success target_user).
  split; [reflexivity |]. split; [exact Hout |]. split; [exact Hsuccess |].
  split; [exact Hret |]. split; [exact Htrace |].
  rewrite Hreceipt. repeat split.
Qed.

Lemma send_message_always_receipted_witness :
  hash_key alice = Some (KStr "alice") /\
  accepted (JObj hello_fields) /\
  exists receipt data,
    last (trace (run (frame_iteration sample_uuid4 sample_isoformat 1%nat alice
                        (Some (JObj hello_fields))) chat_world)) =
      Some (Wrote 1%nat receipt) /\
    py_get receipt "type" JNull = Ret (JStr "message_receipt") /\
    py_get receipt "data" JNull = Ret data /\
    py_get data "status" JNull = Ret (JStr "delivered") /\
    py_get data "message_id" JNull = Ret (JStr "m1").
Proof.
  split; [reflexivity |]. split; [reflexivity |].
  destruct (send_message_always_receipted sample_uuid4 sample_isoformat
              1%nat alice (KStr "alice") hello_fields hello_payload
              bob (KStr "bob") (JStr "hi") chat_world
              eq_refl eq_refl eq_refl eq_refl eq_refl eq_refl eq_refl
              eq_refl eq_refl)
    as (msg & success & receipt & data & _ & _ & Hs & _ & Htrace & Hty & Hd
        & Hstatus & Hid & _).
  exists receipt, data.
  split; [by rewrite Htrace, last_snoc |].
  split; [exact Hty |]. split; [exact Hd |].
  split; [by rewrite Hstatus, Hs | exact Hid].
Defined.

(** ** What the steps of a connection add to the trace *)

Section steady_facts.
Context (P : event -> Prop).

Lemma steady_ret {A} (a : A) : steady P (ret a).
Proof. intros w. exists []. by rewrite app_nil_r. Qed.

Lemma steady_raise {A} e : steady P (@raise A e).
Proof. intros w. exists []. by rewrite app_nil_r. Qed.

Lemma steady_lift {A} (r : result A) : steady P (lift r).
Proof. intros w. exists []. by rewrite app_nil_r. Qed.

Lemma steady_bind {A B} (m : M A) (f : A -> M B) :
  steady P m -> (forall a, steady P (f a)) -> steady P (bind m f).
Proof.
  intros Hm Hf w. destruct (Hm w) as (evs1 & Ht1 & HP1 & Hc1).
  unfold run, bind in *. destruct (m w) as [[a|e] w1]; simpl in *.
  - destruct (Hf a w1) as (evs2 & Ht2 & HP2 & Hc2). unfold run in Ht2, Hc2.
    exists (evs1 ++ evs2).
    rewrite Ht2, Ht1, Hc2, Hc1, (assoc_L (++)).
    split; [done |]. split; [by apply Forall_app | done].
  - by exists evs1.
Qed.

Lemma steady_try_except {A} (m : M A) (h : exn -> M A) :
  steady P m -> (forall e, steady P (h e)) -> steady P (try_except m h).
Proof.
  intros Hm Hh w. destruct (Hm w) as (evs1 & Ht1 & HP1 & Hc1).
  unfold run, try_except in *. destruct (m w) as [[a|e] w1]; simpl in *.
  - by exists evs1.
  - destruct (Hh e w1) as (evs2 & Ht2 & HP2 & Hc2). unfold run in Ht2, Hc2.
    exists (evs1 ++ evs2).
    rewrite Ht2, Ht1, Hc2, Hc1, (assoc_L (++)).
    split; [done |]. split; [by apply Forall_app | done].
Qed.

Lemma steady_swallow {A} (m : M A) : steady P m -> steady P (swallow m).
Proof.
  intros Hm w. destruct (Hm w) as (evs & Ht & HP & Hc).
  unfold run, swallow in *. destruct (m w) as [r w1]. by exists evs.
Qed.

Lemma steady_log_call c : P (Called c) -> steady P (log_call c).
Proof.
  intros Hc w. exists [Called c]. split; [done |].
  split; [by apply Forall_singleton | done].
Qed.

Lemma steady_ws_send h message :
  P (Wrote h message) -> P (WriteFailed h message) ->
  steady P (ws_send h message).
Proof.
  intros Hw Hf w. unfold run, ws_send.
  destruct (decide (h ∈ closed w)).
  - exists [WriteFailed h message]. split; [done |].
    split; [by apply Forall_singleton | done].
  - exists [Wrote h message]. split; [done |].
    split; [by apply Forall_singleton | done].
Qed.

Lemma steady_update_manager f : steady P (update_manager f).
Proof. intros w. exists []. by rewrite app_nil_r. Qed.

Lemma steady_get_manager : steady P get_manager.
Proof. intros w. exists []. by rewrite app_nil_r. Qed.

Lemma steady_datetime_now : steady P datetime_now.
Proof. intros w. exists []. by rewrite app_nil_r. Qed.

Lemma steady_uuid4_str uuid4 : steady P (uuid4_str uuid4).
Proof. intros w. exists []. by rewrite app_nil_r. Qed.

Lemma steady_hashed v : steady P (hashed v).
Proof.
  unfold hashed. destruct (hash_key v); [apply steady_ret | apply steady_raise].
Qed.

Lemma steady_gather tasks : Forall (steady P) tasks -> steady P (gather tasks).
Proof.
  induction 1 as [|t tasks Ht _ IH]; [apply steady_ret |].
  intros w. destruct (Ht w) as (evs1 & Ht1 & HP1 & Hc1).
  unfold run in *. cbn [gather]. destruct (t w) as [r w1]. simpl in *.
  destruct (IH w1) as (evs2 & Ht2 & HP2 & Hc2). unfold run in Ht2, Hc2.
  destruct (gather tasks w1) as [r' w2]. simpl in *. exists (evs1 ++ evs2).
  rewrite Ht2, Ht1, Hc2, Hc1, (assoc_L (++)).
  split; [done |]. split; [by apply Forall_app | done].
Qed.

Lemma steady_create_message uuid4 isoformat msg_type data sender :
  steady P (create_message uuid4 isoformat msg_type data sender).
Proof. intros w. exists []. by rewrite app_nil_r. Qed.

End steady_facts.

Ltac steady_step :=
  first
    [ apply steady_ret | apply steady_raise | apply steady_lift
    | apply steady_update_manager | apply steady_get_manager
    | apply steady_datetime_now | apply steady_uuid4_str
    | apply steady_hashed | apply steady_create_message
    | apply steady_log_call; split; reflexivity
    | apply steady_ws_send; split; reflexivity
    | apply steady_bind; [| intros ?]
    | apply steady_try_except; [| intros ?]
    | match goal with
      | |- steady _ (if ?b then _ else _) => destruct b
      | |- steady _ (match ?x with _ => _ end) => destruct x
      end ].

Lemma steady_unregister_plain user_id :
  steady quiet (unregister user_id None).
Proof. unfold unregister. repeat steady_step. Qed.

Lemma steady_send_to_user user_id message :
  steady quiet (send_to_user user_id message).
Proof.
  unfold send_to_user. repeat steady_step; apply steady_unregister_plain.
Qed.

Lemma steady_update_user_activity user_id :
  steady quiet (update_user_activity user_id).
Proof. unfold update_user_activity. repeat steady_step. Qed.

Lemma steady_get_online_users : steady quiet get_online_users.
Proof. unfold get_online_users. repeat steady_step. Qed.

Lemma steady_channels_of user_id : steady quiet (channels_of user_id).
Proof. unfold channels_of. repeat steady_step. Qed.

Lemma steady_store_channels user_id s : steady quiet (store_channels user_id s).
Proof. unfold store_channels. repeat steady_step. Qed.

Lemma steady_broadcast message exclude_user :
  is_offline_broadcast (Called (CBroadcast message exclude_user)) = false ->
  steady quiet (broadcast message exclude_user).
Proof.
  intros Hq. unfold broadcast.
  apply steady_bind; [apply steady_log_call; by split |]. intros _.
  apply steady_bind; [apply steady_get_manager |]. intros m.
  rewrite gather_guard. apply steady_gather.
  rewrite broadcast_tasks_recipients. apply Forall_fmap, Forall_forall.
  intros h _. apply steady_ws_send; by split.
Qed.

Lemma steady_bind_create_message (P : event -> Prop) {B}
    uuid4 isoformat msg_type data sender (f : json -> M B) :
  (forall now message_id,
     steady P (f (envelope isoformat msg_type data sender now message_id))) ->
  steady P (bind (create_message uuid4 isoformat msg_type data sender) f).
Proof.
  intros Hf w. unfold run. rewrite bind_run, create_message_run.
  destruct (Hf (clock w) (uuid4 (draws w)) (drew w)) as (evs & Ht & HP & Hc).
  by exists evs.
Qed.

Ltac steady_quiet :=
  repeat first
    [ apply steady_send_to_user | apply steady_update_user_activity
    | apply steady_get_online_users | apply steady_channels_of
    | apply steady_store_channels | steady_step ].

Lemma steady_dispatch uuid4 isoformat websocket user_id data :
  steady quiet (dispatch uuid4 isoformat websocket user_id data).
Proof. unfold dispatch. steady_quiet. Qed.

Lemma steady_frame_iteration uuid4 isoformat websocket user_id message :
  steady quiet (frame_iteration uuid4 isoformat websocket user_id message).
Proof.
  unfold frame_iteration, frame_body.
  apply steady_try_except; [| intros []; apply steady_ret].
  apply steady_bind; [apply steady_lift |]. intros data.
  apply steady_bind; [apply steady_lift |]. intros valid.
  destruct (negb valid); [apply steady_ret |].
  apply steady_bind; [apply steady_update_user_activity |]. intros _.
  apply steady_dispatch.
Qed.

Lemma steady_message_loop uuid4 isoformat websocket user_id inbox :
  steady quiet (message_loop uuid4 isoformat websocket user_id inbox).
Proof.
  induction inbox as [|message inbox IH]; [apply steady_ret |].
  cbn [message_loop].
  apply steady_bind; [apply steady_frame_iteration | intros _; exact IH].
Qed.

Lemma steady_session uuid4 isoformat websocket user_id connection_id script :
  steady quiet (session uuid4 isoformat websocket user_id connection_id script).
Proof.
  unfold session.
  apply steady_bind; [apply steady_create_message |]. intros welcome_msg.
  apply steady_bind; [apply steady_ws_send; by split |]. intros _.
  apply steady_bind_create_message. intros now message_id.
  apply steady_bind; [by apply steady_broadcast |]. intros _.
  apply steady_bind; [apply steady_message_loop |]. intros _.
  destruct (close script); [apply steady_ret | apply steady_raise].
Qed.

Lemma recipients_absent user_id k (d : pydict handle) :
  hash_key user_id = Some k ->
  dict_get k d = None ->
  recipients user_id d = d.*2.
Proof.
  intros Hk. induction d as [|[k0 h] d IH]; [done |].
  cbn [dict_get recipients fmap list_fmap snd]. unfold key_is. rewrite Hk.
  destruct (decide (k0 = k)) as [->|Hne]; [done |].
  intros Hget. rewrite bool_decide_eq_false_2 by done. cbn [negb].
  by rewrite IH.
Qed.

Lemma count_events_app p evs1 evs2 :
  count_events p (evs1 ++ evs2) = (count_events p evs1 + count_events p evs2)%nat.
Proof. unfold count_events. by rewrite List.filter_app, length_app. Qed.

Lemma count_events_none p evs :
  Forall (fun ev => p ev = false) evs -> count_events p evs = 0%nat.
Proof.
  unfold count_events. induction 1 as [|ev evs Hev _ IH]; [done |].
  cbn [List.filter]. by rewrite Hev.
Qed.

Lemma sends_not_calls p w message (websockets : list handle) :
  (forall h v, p (Wrote h v) = false) ->
  (forall h v, p (WriteFailed h v) = false) ->
  count_events p ((fun h => send_event w h message) <$> websockets) = 0%nat.
Proof.
  intros Hw Hf. apply count_events_none, Forall_fmap, Forall_forall.
  intros h _. simpl. unfold send_event. by destruct (decide (h ∈ closed w)).
Qed.

(** ** C8: the cleanup of a closing connection *)

(** C8. Let a connection authenticate with a (hashable) identity. However
    its handler comes to an end (the peer closes cleanly, the transport
    fails, the welcome or the online broadcast raises), the handler's last
    acts are one [unregister(user_id, connection_id)], with the id that
    [register] returned for this connection, and one broadcast of a
    [user_offline] message about the identity, excluding it: a send of that
    message is attempted on the websocket of every identity still
    registered. Nothing before these two calls is a cleanup call, so both
    happen exactly once, and the identity is unregistered afterwards. *)
Theorem cleanup_exactly_once
    (uuid4 : nat -> string) (isoformat : Z -> string)
    websocket script user_id k w :
  auth_stage (first_recv script) = Ret user_id ->
  truthy user_id = true ->
  hash_key user_id = Some k ->
  let w' := run (handle_message uuid4 isoformat websocket script) w in
  let connection_id := uuid4 (draws w) in
  exists before offline,
    outcome (register uuid4 websocket user_id) w = Ret connection_id /\
    news w w' =
      before ++
      [Called (CUnregister user_id (Some connection_id));
       Called (CBroadcast offline user_id)] ++
      ((fun h => send_event w h offline) <$> (user_connections (manager w')).*2) /\
    Forall quiet before /\
    is_offline_about k offline = true /\
    count_events is_cleanup_unregister (news w w') = 1%nat /\
    count_events is_offline_broadcast (news w w') = 1%nat /\
    session_of k w' = (None, None).
Proof.
  intros Hauth Htruthy Hk w' connection_id.
  pose proof (register_run uuid4 websocket user_id k w Hk) as Hreg.
  fold connection_id in Hreg.
  destruct (register uuid4 websocket user_id w) as [rr wr] eqn:Hreg0.
  injection Hreg as -> Hwr.
  assert (Htr : trace wr = trace w ++ [Called (CRegister websocket user_id)])
    by (by rewrite Hwr).
  assert (Hcl : closed wr = closed w) by (by rewrite Hwr).
  clear Hwr.
  destruct (steady_session uuid4 isoformat websocket user_id connection_id
              script wr) as (evs & Htrace & Hquiet & Hclosed).
  unfold run in Htrace, Hclosed.
  destruct (session uuid4 isoformat websocket user_id connection_id script wr)
    as [rs w1] eqn:Hsess.
  cbn [snd] in Htrace, Hclosed.
  set (offline :=
         envelope isoformat "user_offline" (JObj [("user_id", user_id)])
           (JStr "system") (clock w1) (uuid4 (draws w1))).
  assert (Hw' :
    w' = with_events
           (Called (CBroadcast offline user_id) ::
            ((fun h => send_event w h offline) <$>
               recipients user_id (dict_del k (user_connections (manager w1)))))
           (drew (with_manager (forget k (Some connection_id) (manager w1))
                    (with_event
                       (Called (CUnregister user_id (Some connection_id))) w1)))).
  { subst w'. unfold run, handle_message. rewrite Hauth, Htruthy. cbn [negb].
    rewrite bind_run. unfold swallow at 1. rewrite Hreg0. cbv beta iota.
    rewrite bind_run. unfold swallow. rewrite Hsess. cbv beta iota.
    unfold cleanup. rewrite Htruthy.
    rewrite bind_run, (unregister_run _ k) by done.
    rewrite bind_run, create_message_run, broadcast_run. cbn [snd].
    f_equal. f_equal. apply list_fmap_ext. intros _ h _.
    unfold send_event. cbn [closed drew with_manager with_event].
    by rewrite Hclosed, Hcl. }
  assert (Hrec :
    recipients user_id (dict_del k (user_connections (manager w1)))
    = (user_connections (manager w')).*2).
  { rewrite Hw'. cbn [manager with_events drew with_manager forget user_connections].
    apply (recipients_absent _ k); [done | apply dict_get_del_eq]. }
  assert (Hnews :
    news w w' =
      (Called (CRegister websocket user_id) :: evs) ++
      [Called (CUnregister user_id (Some connection_id));
       Called (CBroadcast offline user_id)] ++
      ((fun h => send_event w h offline) <$> (user_connections (manager w')).*2)).
  { apply news_app. rewrite <- Hrec. rewrite Hw' at 1.
    cbn [trace with_events drew with_manager with_event].
    rewrite Htrace, Htr. by rewrite <- !(assoc_L (++)). }
  assert (Hbefore : Forall quiet (Called (CRegister websocket user_id) :: evs)).
  { apply Forall_cons. split; [by split | done]. }
  exists (Called (CRegister websocket user_id) :: evs), offline.
  split. { unfold outcome. by rewrite Hreg0. }
  split; [exact Hnews |]. split; [exact Hbefore |].
  split.
  { unfold offline, envelope, is_offline_about. cbn. unfold key_is.
    rewrite Hk. by rewrite bool_decide_eq_true_2. }
  split; [| split].
  - rewrite Hnews, !count_events_app.
    rewrite (count_events_none is_cleanup_unregister (_ :: evs)).
    2:{ eapply Forall_impl; [exact Hbefore |]. by intros ev [? _]. }
    rewrite sends_not_calls by done. reflexivity.
  - rewrite Hnews, !count_events_app.
    rewrite (count_events_none is_offline_broadcast (_ :: evs)).
    2:{ eapply Forall_impl; [exact Hbefore |]. by intros ev [_ ?]. }
    rewrite sends_not_calls by done. reflexivity.
  - rewrite Hw'. unfold session_of.
    cbn [manager with_events drew with_manager forget user_connections active_users].
    by rewrite !dict_get_del_eq.
Qed.

Lemma cleanup_exactly_once_witness :
  auth_stage (first_recv alice_script) = Ret alice /\
  truthy alice = true /\
  hash_key alice = Some (KStr "alice") /\
  count_events is_cleanup_unregister
    (news chat_world
       (run (handle_message sample_uuid4 sample_isoformat 1%nat alice_script)
          chat_world)) = 1%nat /\
  count_events is_offline_broadcast
    (news chat_world
       (run (handle_message sample_uuid4 sample_isoformat 1%nat alice_script)
          chat_world)) = 1%nat.
Proof.
  split; [reflexivity |]. split; [reflexivity |]. split; [reflexivity |].
  destruct (cleanup_exactly_once sample_uuid4 sample_isoformat 1%nat
              alice_script alice (KStr "alice") chat_world
              eq_refl eq_refl eq_refl)
    as (before & offline & _ & _ & _ & _ & Hunregister & Hbroadcast & _).
  split; [exact Hunregister | exact Hbroadcast].
Defined.

(** Outside the theorem: an identity that is true for Python but not
    hashable (a JSON array) makes [register] raise before the connection is
    ever active, and the [unregister] of the [finally] clause raises in
    turn, out of the handler. *)
Example unhashable_identity_never_active :
  handle_message sample_uuid4 sample_isoformat 1%nat
    {| first_recv :=
         Received
           (Some (JObj [("type", JStr "auth");
                        ("data", JObj [("user_id", JArr [JStr "x"]);
                                       ("token", JStr "demo-token")])]));
       inbox := [];
       close := ClosedOK |} world0
  = (Raise TypeError,
     {| manager :=
          set_connection_users {[ "c0" := JArr [JStr "x"] ]} empty_manager;
        clock := 0;
        draws := 1%nat;
        closed := ∅;
        trace := [Called (CRegister 1%nat (JArr [JStr "x"]));
                  Called (CUnregister (JArr [JStr "x"]) None)] |}).
Proof. reflexivity. Qed.

(** The scenario of the relay: alice's whole connection, as the two peers
    see it on the wire. *)
Example relay_scenario :
  written
    (trace (run (handle_message sample_uuid4 sample_isoformat 1%nat alice_script)
              chat_world)) =
    [(1%nat,
      envelope sample_isoformat "connection_established"
        (JObj [("user_id", alice); ("connection_id", JStr "c1")]) JNull
        5000000 "c2");
     (2%nat,
      envelope sample_isoformat "user_online" (JObj [("user_id", alice)])
        (JStr "system") 5000000 "c3");
     (1%nat, JObj [("type", JStr "pong"); ("timestamp", JStr "t5000000")]);
     (2%nat,
      envelope sample_isoformat "new_message"
        (JObj [("content", JStr "hi"); ("from_user", alice); ("to_user", bob)])
        alice 5000000 "c4");
     (1%nat,
      envelope sample_isoformat "message_receipt"
        (receipt_data hello_fields true bob) JNull 5000000 "c5");
     (2%nat,
      envelope sample_isoformat "user_offline" (JObj [("user_id", alice)])
        (JStr "system") 5000000 "c6")].
Proof. vm_compute. reflexivity. Qed.

(** ** The registry stays well formed

    Every state the program reaches from the empty registry has each key
    once in [user_connections] and in [active_users]: the hypothesis of the
    statement about the reaper is an invariant of the program. *)

Section keeps_facts.
Context (I : WebSocketManager -> Prop).

Lemma keeps_ret {A} (a : A) : keeps I (ret a).
Proof. by intros w. Qed.

Lemma keeps_raise {A} e : keeps I (@raise A e).
Proof. by intros w. Qed.

Lemma keeps_lift {A} (r : result A) : keeps I (lift r).
Proof. by intros w. Qed.

Lemma keeps_bind {A B} (m : M A) (f : A -> M B) :
  keeps I m -> (forall a, keeps I (f a)) -> keeps I (bind m f).
Proof.
  intros Hm Hf w Hw. specialize (Hm w Hw). unfold run, bind in *.
  destruct (m w) as [[a|e] w1]; [| done]. by apply (Hf a w1).
Qed.

Lemma keeps_try_except {A} (m : M A) (h : exn -> M A) :
  keeps I m -> (forall e, keeps I (h e)) -> keeps I (try_except m h).
Proof.
  intros Hm Hh w Hw. specialize (Hm w Hw). unfold run, try_except in *.
  destruct (m w) as [[a|e] w1]; [done |]. by apply (Hh e w1).
Qed.

Lemma keeps_swallow {A} (m : M A) : keeps I m -> keeps I (swallow m).
Proof.
  intros Hm w Hw. specialize (Hm w Hw). unfold run, swallow in *.
  by destruct (m w).
Qed.

Lemma keeps_log_call c : keeps I (log_call c).
Proof. by intros w. Qed.

Lemma keeps_ws_send h message : keeps I (ws_send h message).
Proof. intros w Hw. unfold run, ws_send. by destruct (decide (h ∈ closed w)). Qed.

Lemma keeps_get_manager : keeps I get_manager.
Proof. by intros w. Qed.

Lemma keeps_datetime_now : keeps I datetime_now.
Proof. by intros w. Qed.

Lemma keeps_asyncio_sleep elapsed : keeps I (asyncio_sleep elapsed).
Proof. by intros w. Qed.

Lemma keeps_uuid4_str uuid4 : keeps I (uuid4_str uuid4).
Proof. by intros w. Qed.

Lemma keeps_hashed v : keeps I (hashed v).
Proof.
  unfold hashed. destruct (hash_key v); [apply keeps_ret | apply keeps_raise].
Qed.

Lemma keeps_create_message uuid4 isoformat msg_type data sender :
  keeps I (create_message uuid4 isoformat msg_type data sender).
Proof. by intros w. Qed.

Lemma keeps_update_manager f :
  (forall m, I m -> I (f m)) -> keeps I (update_manager f).
Proof. intros Hf w Hw. by apply Hf. Qed.

Lemma keeps_gather tasks : Forall (keeps I) tasks -> keeps I (gather tasks).
Proof.
  induction 1 as [|t tasks Ht _ IH]; [apply keeps_ret |].
  intros w Hw. specialize (Ht w Hw). unfold run in *. cbn [gather].
  destruct (t w) as [r w1]. specialize (IH w1 Ht). unfold run in IH.
  by destruct (gather tasks w1).
Qed.

End keeps_facts.

Ltac keeps_step :=
  first
    [ apply keeps_ret | apply keeps_raise | apply keeps_lift
    | apply keeps_log_call | apply keeps_ws_send | apply keeps_get_manager
    | apply keeps_datetime_now | apply keeps_uuid4_str | apply keeps_hashed
    | apply keeps_create_message | apply keeps_asyncio_sleep
    | apply keeps_update_manager; intros ? [? ?]; repeat case_match;
      split; cbn; try done; by (apply dict_wf_set || apply dict_wf_del)
    | apply keeps_bind; [| intros ?]
    | apply keeps_try_except; [| intros ?]
    | apply keeps_swallow
    | match goal with
      | |- keeps _ (if ?b then _ else _) => destruct b
      | |- keeps _ (match ?x with _ => _ end) => destruct x
      end ].

Lemma registry_wf_empty : registry_wf empty_manager.
Proof. split; apply NoDup_nil_2. Qed.

Lemma keeps_wf_register uuid4 websocket user_id :
  keeps registry_wf (register uuid4 websocket user_id).
Proof. unfold register. repeat keeps_step. Qed.

Lemma keeps_wf_unregister user_id connection_id :
  keeps registry_wf (unregister user_id connection_id).
Proof. unfold unregister. repeat keeps_step. Qed.

Lemma keeps_wf_send_to_user user_id message :
  keeps registry_wf (send_to_user user_id message).
Proof.
  unfold send_to_user. repeat keeps_step; apply keeps_wf_unregister.
Qed.

Lemma keeps_wf_broadcast message exclude_user :
  keeps registry_wf (broadcast message exclude_user).
Proof.
  unfold broadcast.
  apply keeps_bind; [apply keeps_log_call | intros _].
  apply keeps_bind; [apply keeps_get_manager | intros m].
  rewrite gather_guard. apply keeps_gather.
  rewrite broadcast_tasks_recipients. apply Forall_fmap, Forall_forall.
  intros h _. apply keeps_ws_send.
Qed.

Lemma keeps_wf_frame_iteration uuid4 isoformat websocket user_id message :
  keeps registry_wf (frame_iteration uuid4 isoformat websocket user_id message).
Proof.
  unfold frame_iteration, frame_body, dispatch, update_user_activity,
    get_online_users, channels_of, store_channels.
  repeat first [apply keeps_wf_send_to_user | keeps_step].
Qed.

Lemma keeps_wf_message_loop uuid4 isoformat websocket user_id inbox :
  keeps registry_wf (message_loop uuid4 isoformat websocket user_id inbox).
Proof.
  induction inbox as [|message inbox IH]; [apply keeps_ret |].
  cbn [message_loop].
  apply keeps_bind; [apply keeps_wf_frame_iteration | intros _; exact IH].
Qed.

Lemma keeps_wf_cleanup uuid4 isoformat user_id connection_id :
  keeps registry_wf (cleanup uuid4 isoformat user_id connection_id).
Proof.
  unfold cleanup.
  repeat first [apply keeps_wf_unregister | apply keeps_wf_broadcast | keeps_step].
Qed.

(** Whatever a connection receives, its handler leaves the registry well
    formed. *)
Lemma keeps_wf_handle_message uuid4 isoformat websocket script :
  keeps registry_wf (handle_message uuid4 isoformat websocket script).
Proof.
  unfold handle_message, session.
  repeat first
    [ apply keeps_wf_cleanup | apply keeps_wf_register
    | apply keeps_wf_broadcast | apply keeps_wf_message_loop | keeps_step ].
Qed.

Lemma keeps_wf_health_check_tick : keeps registry_wf health_check_tick.
Proof.
  unfold health_check_tick.
  apply keeps_bind; [apply keeps_datetime_now | intros now].
  apply keeps_bind; [apply keeps_get_manager | intros m].
  induction (inactive_users now (active_users m)) as [|k users IH];
    [apply keeps_ret |].
  cbn [unregister_each].
  apply keeps_bind; [apply keeps_wf_unregister | intros _; exact IH].
Qed.

Lemma keeps_wf_health_check sleeps : keeps registry_wf (health_check sleeps).
Proof.
  induction sleeps as [|elapsed sleeps IH]; [apply keeps_ret |].
  cbn [health_check].
  apply keeps_bind; [apply keeps_asyncio_sleep | intros _].
  apply keeps_bind; [apply keeps_wf_health_check_tick | intros _; exact IH].
Qed.

(** ** Further properties: the registry *)

Lemma elem_of_dict_keys {V} k (d : pydict V) :
  k ∈ dict_keys d <-> is_Some (dict_get k d).
Proof.
  destruct (dict_get k d) as [v|] eqn:E.
  - split; [by eexists |]. intros _.
    destruct (decide (k ∈ dict_keys d)) as [|Hnin]; [done |].
    apply dict_get_None_keys in Hnin. congruence.
  - split; [| by intros [? ?]]. intros Hin.
    by apply dict_get_None_keys in E.
Qed.

Lemma elem_of_dict_del {V} k k0 (v : V) (d : pydict V) :
  (k, v) ∈ dict_del k0 d <-> (k, v) ∈ d /\ k ≠ k0.
Proof.
  induction d as [|[k' v'] d IH]; cbn [dict_del].
  - split; [intros H; by apply elem_of_nil in H |].
    intros [H _]. by apply elem_of_nil in H.
  - destruct (decide (k' = k0)) as [->|Hne].
    + rewrite IH, elem_of_cons. split; [intros [? ?]; auto |].
      intros [[[= -> ->]|?] ?]; [done | auto].
    + rewrite !elem_of_cons, IH. split.
      * intros [[= -> ->]|[? ?]]; auto.
      * intros [[?|?] ?]; auto.
Qed.

Lemma get_online_users_run w :
  get_online_users w =
    (Ret (dict_keys (active_users (manager w))),
     with_event (Called CGetOnlineUsers) w).
Proof. reflexivity. Qed.

(** X1. Once [register] has returned, the identity is in the list
    [get_online_users] gives, on the websocket it registered and active
    since now; once [unregister] has returned, with whatever connection id,
    it is in the list no longer. Neither call changes which other
    identities are listed. *)
Theorem register_lists_unregister_delists
    (uuid4 : nat -> string) websocket user_id k connection_id w :
  hash_key user_id = Some k ->
  let w1 := run (register uuid4 websocket user_id) w in
  let w2 := run (unregister user_id connection_id) w1 in
  (exists online, outcome get_online_users w1 = Ret online /\ k ∈ online) /\
  session_of k w1 = (Some websocket, Some (clock w)) /\
  (exists online, outcome get_online_users w2 = Ret online /\ k ∉ online) /\
  (forall k', k' ≠ k ->
     (k' ∈ dict_keys (active_users (manager w1)) <->
      k' ∈ dict_keys (active_users (manager w))) /\
     (k' ∈ dict_keys (active_users (manager w2)) <->
      k' ∈ dict_keys (active_users (manager w)))).
Proof.
  intros Hk w1 w2. subst w2 w1. unfold run, outcome.
  rewrite (register_run _ _ _ k) by done. cbn [snd].
  rewrite (unregister_run _ k) by done. cbn [snd].
  rewrite !get_online_users_run. cbn [fst manager with_manager with_event forget
    active_users user_connections].
  split; [| split; [| split]].
  - eexists. split; [reflexivity |]. apply elem_of_dict_keys.
    rewrite dict_get_set_eq. by eexists.
  - unfold session_of. cbn [manager user_connections active_users].
    by rewrite !dict_get_set_eq.
  - eexists. split; [reflexivity |]. rewrite elem_of_dict_keys.
    rewrite dict_get_del_eq. by intros [? ?].
  - intros k' Hne. rewrite !elem_of_dict_keys.
    rewrite dict_get_del_ne by done. by rewrite !dict_get_set_ne by done.
Qed.

Lemma register_lists_unregister_delists_witness :
  hash_key alice = Some (KStr "alice") /\
  exists online,
    outcome get_online_users (run (register sample_uuid4 1%nat alice) chat_world)
      = Ret online /\
    KStr "alice" ∈ online.
Proof.
  split; [reflexivity |].
  apply (register_lists_unregister_delists sample_uuid4 1%nat alice
           (KStr "alice") None chat_world).
  reflexivity.
Defined.

(** X2. [send_to_user] for an identity that is not registered returns
    [False] without raising: no send is attempted and the registry is left
    as it was. *)
Theorem send_to_unregistered_returns_false user_id k message w :
  hash_key user_id = Some k ->
  dict_get k (user_connections (manager w)) = None ->
  let w' := run (send_to_user user_id message) w in
  outcome (send_to_user user_id message) w = Ret false /\
  attempted (news w w') = [] /\
  manager w' = manager w.
Proof.
  intros Hk Hget w'. subst w'. unfold run, outcome.
  rewrite (send_to_user_absent _ k) by done. cbn [fst snd].
  split; [done |]. split; [| done].
  by erewrite news_app by reflexivity.
Qed.

Lemma send_to_unregistered_returns_false_witness :
  hash_key carol = Some (KStr "carol") /\
  dict_get (KStr "carol") (user_connections (manager chat_world)) = None /\
  outcome (send_to_user carol notice) chat_world = Ret false.
Proof.
  split; [reflexivity |]. split; [reflexivity |].
  apply (send_to_unregistered_returns_false carol (KStr "carol") notice chat_world);
    reflexivity.
Defined.

(** X3. When the websocket of the target is closed, [send_to_user]
    returns [False] after its one failed attempt and unregisters the
    target: handle and activity entry are gone, nobody is told (nothing is
    written on any websocket), [connection_users] and the other Sessions
    are untouched. A second [send_to_user] to the same identity returns
    [False] without attempting anything. *)
Theorem failed_send_unregisters_target user_id k websocket message message' w :
  hash_key user_id = Some k ->
  dict_get k (user_connections (manager w)) = Some websocket ->
  websocket ∈ closed w ->
  let w' := run (send_to_user user_id message) w in
  outcome (send_to_user user_id message) w = Ret false /\
  attempted (news w w') = [websocket] /\
  written (news w w') = [] /\
  session_of k w' = (None, None) /\
  connection_users (manager w') = connection_users (manager w) /\
  (forall k', k' ≠ k -> session_of k' w' = session_of k' w) /\
  outcome (send_to_user user_id message') w' = Ret false /\
  attempted (news w' (run (send_to_user user_id message') w')) = [].
Proof.
  intros Hk Hget Hclosed w'. subst w'.
  pose proof (send_to_user_closed user_id k websocket message w Hk Hget Hclosed)
    as Hrun.
  unfold run, outcome. rewrite !Hrun. cbn [fst snd].
  set (w' := with_manager _ _).
  assert (Hgone : dict_get k (user_connections (manager w')) = None).
  { subst w'. cbn [manager with_manager forget user_connections].
    apply dict_get_del_eq. }
  assert (Htrace :
    trace w' = trace w ++ [Called (CSendToUser user_id message);
                           WriteFailed websocket message;
                           Called (CUnregister user_id None)]).
  { subst w'. cbn. by rewrite <- !(assoc_L (++)). }
  split; [done |].
  split. { by rewrite (news_app _ _ _ Htrace). }
  split. { by rewrite (news_app _ _ _ Htrace). }
  split. { unfold session_of. subst w'. cbn [manager with_manager forget
             user_connections active_users]. by rewrite !dict_get_del_eq. }
  split; [done |].
  split. { intros k' Hne. unfold session_of. subst w'. cbn [manager with_manager
             forget user_connections active_users].
           by rewrite !dict_get_del_ne by done. }
  rewrite (send_to_user_absent _ k) by done. cbn [fst snd].
  split; [done |]. by erewrite news_app by reflexivity.
Qed.

Lemma failed_send_unregisters_target_witness :
  hash_key bob = Some (KStr "bob") /\
  dict_get (KStr "bob") (user_connections (manager broadcast_world)) = Some 2%nat /\
  2%nat ∈ closed broadcast_world /\
  session_of (KStr "bob") (run (send_to_user bob notice) broadcast_world)
    = (None, None).
Proof.
  assert (Hc : 2%nat ∈ closed broadcast_world).
  { change (2%nat ∈ ({[2%nat]} : gset handle)). set_solver. }
  split; [reflexivity |]. split; [reflexivity |]. split; [exact Hc |].
  apply (failed_send_unregisters_target bob (KStr "bob") 2%nat notice notice
           broadcast_world eq_refl eq_refl Hc).
Defined.

(** X4. [broadcast] never changes the registry, also when a send fails:
    unlike [send_to_user] it does not unregister a recipient whose
    websocket is closed, so a later broadcast with the same exclusion ends
    as this one did. Every frame it writes is the message it was given. *)
Theorem broadcast_never_unregisters message message' exclude_user w :
  let w' := run (broadcast message exclude_user) w in
  manager w' = manager w /\
  outcome (broadcast message' exclude_user) w'
    = outcome (broadcast message exclude_user) w /\
  Forall (fun sent => sent.2 = message) (written (news w w')).
Proof.
  intros w'. subst w'. unfold run, outcome. rewrite !broadcast_run.
  cbn [fst snd]. split; [done |]. split; [done |].
  erewrite news_app by reflexivity. cbn [written omap].
  induction (recipients exclude_user (user_connections (manager w)))
    as [|h hs IH]; [by apply Forall_nil |].
  cbn [fmap list_fmap omap]. unfold send_event at 1.
  destruct (decide (h ∈ closed w)); cbn; [exact IH |].
  apply Forall_cons. split; [done | exact IH].
Qed.

(** ** Further properties: the reaper and the activity entries *)

Lemma forget_all_active_elem k last users m :
  (k, last) ∈ active_users (forget_all users m) ->
  (k, last) ∈ active_users m /\ k ∉ users.
Proof.
  revert m. induction users as [|k0 users IH]; intros m.
  - intros H. split; [exact H | apply not_elem_of_nil].
  - change (forget_all (k0 :: users) m)
      with (forget_all users (forget k0 None m)).
    intros H. apply IH in H as [H Hnin]. cbn [forget active_users] in H.
    apply elem_of_dict_del in H as [H Hne]. split; [exact H |].
    rewrite not_elem_of_cons. by split.
Qed.

Lemma list_without_elements {A} (l : list A) : (forall x, x ∉ l) -> l = [].
Proof.
  destruct l as [|x l]; [done |]. intros H. destruct (H x). apply list_elem_of_here.
Qed.

(** X5. An identity that the reaper has evicted and whose connection then
    delivers one more valid frame is back in [active_users], since
    [update_user_activity] writes the entry whether or not the identity is
    registered. It is therefore listed by [get_online_users] while
    [send_to_user] to it returns [False] without attempting a send. *)
Theorem reaped_session_listed_but_unreachable user_id k last message w :
  hash_key user_id = Some k ->
  dict_get k (active_users (manager w)) = Some last ->
  CONNECTION_TIMEOUT config < (clock w - last) / 1000000 < 86400 ->
  let w1 := run health_check_tick w in
  let w2 := run (update_user_activity user_id) w1 in
  (k ∉ dict_keys (active_users (manager w1))) /\
  (exists online, outcome get_online_users w2 = Ret online /\ k ∈ online) /\
  outcome (send_to_user user_id message) w2 = Ret false /\
  attempted (news w2 (run (send_to_user user_id message) w2)) = [].
Proof.
  intros Hk Hget Hidle w1 w2.
  assert (Htimeout : CONNECTION_TIMEOUT config = 300) by reflexivity.
  assert (Hin : k ∈ inactive_users (clock w) (active_users (manager w))).
  { apply elem_of_inactive_users. exists last.
    split; [by apply dict_get_Some_elem |].
    rewrite timedelta_seconds_small; lia. }
  assert (Hw1 : dict_get k (user_connections (manager w1)) = None /\
                dict_get k (active_users (manager w1)) = None).
  { subst w1. unfold run. rewrite health_check_tick_run.
    cbn [snd manager with_manager].
    rewrite forget_all_connections, forget_all_active.
    by rewrite !decide_True by done. }
  destruct Hw1 as [Hconn Hact].
  assert (Hw2 : w2 = touched user_id k w1).
  { subst w2. unfold run. by rewrite (update_user_activity_run _ k). }
  split. { by apply dict_get_None_keys. }
  split.
  { rewrite Hw2. unfold outcome. rewrite get_online_users_run. cbn [fst].
    eexists. split; [reflexivity |]. apply elem_of_dict_keys.
    cbn [touched manager with_manager set_active_users active_users].
    rewrite dict_get_set_eq. by eexists. }
  assert (Hgone : dict_get k (user_connections (manager w2)) = None).
  { by rewrite Hw2. }
  unfold run, outcome. rewrite (send_to_user_absent _ k) by done.
  cbn [fst snd]. split; [done |]. by erewrite news_app by reflexivity.
Qed.

Lemma reaped_session_listed_but_unreachable_witness :
  hash_key alice = Some (KStr "alice") /\
  dict_get (KStr "alice") (active_users (manager reaper_world)) = Some 0 /\
  CONNECTION_TIMEOUT config < (clock reaper_world - 0) / 1000000 < 86400 /\
  outcome (send_to_user alice notice)
    (run (update_user_activity alice) (run health_check_tick reaper_world))
    = Ret false.
Proof.
  assert (Hidle :
    CONNECTION_TIMEOUT config < (clock reaper_world - 0) / 1000000 < 86400)
    by (vm_compute; split; reflexivity).
  split; [reflexivity |]. split; [reflexivity |]. split; [exact Hidle |].
  apply (reaped_session_listed_but_unreachable alice (KStr "alice") 0 notice
           reaper_world eq_refl eq_refl Hidle).
Defined.

(** X6. What the reaper compares is [timedelta.seconds], the seconds field
    of the difference between now and the last activity, which lies between
    0 and 86399: an identity is evicted by a pass exactly when that field
    exceeds 300. Whole days of idleness are therefore not counted (an
    identity idle for some days and up to 300 s more is kept), and an
    activity entry lying up to 86099 s in the future is evicted. *)
Theorem reaper_eviction_criterion w k last :
  dict_wf (active_users (manager w)) ->
  dict_get k (active_users (manager w)) = Some last ->
  let w' := run health_check_tick w in
  let idle := (clock w - last) / 1000000 in
  0 <= timedelta_seconds (clock w - last) < 86400 /\
  session_of k w' =
    (if Z.ltb 300 (timedelta_seconds (clock w - last))
     then (None, None) else session_of k w) /\
  (forall days, 0 <= idle - 86400 * days <= 300 ->
     session_of k w' = session_of k w) /\
  (-86100 < idle < 0 -> session_of k w' = (None, None)).
Proof.
  intros Hwf Hget w' idle.
  assert (Hrange : 0 <= timedelta_seconds (clock w - last) < 86400).
  { unfold timedelta_seconds. apply Z.mod_pos_bound. lia. }
  assert (Hcrit :
    session_of k w' =
      (if Z.ltb 300 (timedelta_seconds (clock w - last))
       then (None, None) else session_of k w)).
  { subst w'. unfold run. rewrite health_check_tick_run.
    unfold session_of. cbn [snd manager with_manager].
    rewrite forget_all_connections, forget_all_active.
    set (users := inactive_users (clock w) (active_users (manager w))).
    destruct (Z.ltb_spec 300 (timedelta_seconds (clock w - last))) as [Hlt|Hge].
    - assert (Hin : k ∈ users).
      { apply elem_of_inactive_users. exists last.
        split; [by apply dict_get_Some_elem | exact Hlt]. }
      by rewrite !decide_True by done.
    - assert (Hnin : k ∉ users).
      { intros Hin. apply elem_of_inactive_users in Hin as (last' & Hin & Hlt).
        apply (dict_wf_elem_get _ _ _ Hwf) in Hin.
        assert (last' = last) as -> by congruence.
        change (CONNECTION_TIMEOUT config) with 300 in Hlt. lia. }
      by rewrite !decide_False by done. }
  split; [exact Hrange |]. split; [exact Hcrit |]. split.
  - intros days Hdays. rewrite Hcrit.
    assert (Hs : timedelta_seconds (clock w - last) = idle - 86400 * days).
    { unfold timedelta_seconds. fold idle.
      replace idle with ((idle - 86400 * days) + days * 86400) at 1 by lia.
      rewrite Z_mod_plus_full. apply Z.mod_small. lia. }
    rewrite Hs. destruct (Z.ltb_spec 300 (idle - 86400 * days)); [lia | done].
  - intros Hneg. rewrite Hcrit.
    assert (Hs : timedelta_seconds (clock w - last) = idle + 86400).
    { unfold timedelta_seconds. fold idle.
      replace idle with ((idle + 86400) + (-1) * 86400) at 1 by lia.
      rewrite Z_mod_plus_full. apply Z.mod_small. lia. }
    rewrite Hs. destruct (Z.ltb_spec 300 (idle + 86400)); [done | lia].
Qed.

Lemma reaper_eviction_criterion_witness :
  dict_wf (active_users (manager reaper_world)) /\
  dict_get (KStr "bob") (active_users (manager reaper_world)) = Some 400000000 /\
  session_of (KStr "bob") (run health_check_tick reaper_world)
    = session_of (KStr "bob") reaper_world.
Proof.
  assert (Hwf : dict_wf (active_users (manager reaper_world))).
  { unfold dict_wf. simpl. apply NoDup_cons. split.
    - intros H. apply list_elem_of_singleton in H. discriminate H.
    - apply NoDup_singleton. }
  split; [exact Hwf |]. split; [reflexivity |].
  destruct (reaper_eviction_criterion reaper_world (KStr "bob") 400000000
              Hwf eq_refl) as (_ & _ & Hdays & _).
  apply (Hdays 0). vm_compute. split; discriminate.
Defined.

(** X7. A second pass of the reaper at the same clock reading finds nobody
    left to evict: it leaves the registry as the first pass left it. *)
Theorem reaper_pass_idempotent w :
  manager (run health_check_tick (run health_check_tick w))
    = manager (run health_check_tick w).
Proof.
  unfold run. rewrite (health_check_tick_run w). cbn [snd].
  rewrite health_check_tick_run.
  cbn [snd manager clock with_manager with_events].
  set (users := inactive_users (clock w) (active_users (manager w))).
  assert (Hnone :
    inactive_users (clock w) (active_users (forget_all users (manager w))) = []).
  { apply list_without_elements. intros k Hin.
    apply elem_of_inactive_users in Hin as (last & Hin & Hlt).
    apply forget_all_active_elem in Hin as [Hin Hnin]. apply Hnin.
    apply elem_of_inactive_users. by exists last. }
  by rewrite Hnone.
Qed.

(** ** Further properties: the branches of the dispatcher *)

Lemma frame_iteration_accepted uuid4 isoformat websocket user_id k fields w :
  hash_key user_id = Some k ->
  accepted (JObj fields) ->
  frame_iteration uuid4 isoformat websocket user_id (Some (JObj fields)) w =
    (Ret tt,
     run (dispatch uuid4 isoformat websocket user_id (JObj fields))
       (touched user_id k w)).
Proof.
  intros Hk Hacc. unfold frame_iteration, try_except, frame_body.
  rewrite bind_run. unfold lift at 1. cbn [json_loads].
  rewrite bind_run. unfold lift at 1. unfold accepted in Hacc. rewrite Hacc.
  cbn [negb]. rewrite bind_run, (update_user_activity_run _ k) by done.
  unfold run.
  destruct (dispatch uuid4 isoformat websocket user_id (JObj fields)
              (touched user_id k w)) as [[[]|e] w']; [done |].
  by destruct e.
Qed.

Lemma dispatch_ping uuid4 isoformat websocket user_id fields w :
  assoc "type" fields = Some (JStr "ping") ->
  dispatch uuid4 isoformat websocket user_id (JObj fields) w =
    ws_send websocket
      (JObj [("type", JStr "pong"); ("timestamp", JStr (isoformat (clock w)))]) w.
Proof.
  intros Hty. unfold dispatch, bind, lift. cbn [py_index]. rewrite Hty.
  reflexivity.
Qed.

Lemma dispatch_unknown uuid4 isoformat websocket user_id fields kind w :
  assoc "type" fields = Some kind ->
  Forall (fun s => is_str kind s = false) dispatched_kinds ->
  dispatch uuid4 isoformat websocket user_id (JObj fields) w = (Ret tt, w).
Proof.
  intros Hty Hkinds. unfold dispatch, bind, lift. cbn [py_index]. rewrite Hty.
  unfold dispatched_kinds in Hkinds.
  repeat (apply Forall_cons in Hkinds as [? Hkinds]).
  by repeat match goal with H : is_str kind _ = false |- _ => rewrite H; clear H end.
Qed.

Lemma dispatch_get_online_users uuid4 isoformat websocket user_id fields w :
  assoc "type" fields = Some (JStr "get_online_users") ->
  dispatch uuid4 isoformat websocket user_id (JObj fields) w =
    ws_send websocket
      (envelope isoformat "online_users"
         (JObj [("users", JArr (key_json <$> dict_keys (active_users (manager w))))])
         JNull (clock w) (uuid4 (draws w)))
      (drew (with_event (Called CGetOnlineUsers) w)).
Proof.
  intros Hty. unfold dispatch, bind, lift. cbn [py_index]. rewrite Hty.
  reflexivity.
Qed.

(** X8. An accepted [ping] frame is answered with a [pong] on the sender's
    websocket, stamped with the current time. Apart from the sender's
    activity entry, which every accepted frame sets to now, the registry is
    as before: nobody's connection, subscription or activity changes. *)
Theorem ping_gets_pong
    (uuid4 : nat -> string) (isoformat : Z -> string)
    websocket user_id k fields w :
  hash_key user_id = Some k ->
  accepted (JObj fields) ->
  assoc "type" fields = Some (JStr "ping") ->
  let w' :=
    run (frame_iteration uuid4 isoformat websocket user_id (Some (JObj fields)))
      w in
  news w w' =
    [Called (CUpdateUserActivity user_id);
     send_event w websocket
       (JObj [("type", JStr "pong"); ("timestamp", JStr (isoformat (clock w)))])] /\
  dict_get k (active_users (manager w')) = Some (clock w) /\
  user_connections (manager w') = user_connections (manager w) /\
  user_channels (manager w') = user_channels (manager w) /\
  connection_users (manager w') = connection_users (manager w) /\
  (forall k', k' ≠ k ->
     dict_get k' (active_users (manager w')) = dict_get k' (active_users (manager w))).
Proof.
  intros Hk Hacc Hty w'.
  assert (Hrun :
    w' = with_events
           [send_event w websocket
              (JObj [("type", JStr "pong");
                     ("timestamp", JStr (isoformat (clock w)))])]
           (touched user_id k w)).
  { subst w'. unfold run. rewrite (frame_iteration_accepted _ _ _ _ k) by done.
    cbn [snd]. unfold run. rewrite dispatch_ping by done.
    by rewrite ws_send_run. }
  rewrite Hrun. clear Hrun w'.
  split.
  { apply news_app. cbn. by rewrite <- (assoc_L (++)). }
  cbn [manager with_events touched with_manager set_active_users active_users
       user_connections user_channels connection_users].
  split; [apply dict_get_set_eq |]. repeat split.
  intros k' Hne. by apply dict_get_set_ne.
Qed.

Lemma ping_gets_pong_witness :
  hash_key alice = Some (KStr "alice") /\
  accepted (JObj ping_fields) /\
  news chat_world
    (run (frame_iteration sample_uuid4 sample_isoformat 1%nat alice
            (Some (JObj ping_fields))) chat_world) =
    [Called (CUpdateUserActivity alice);
     Wrote 1%nat (JObj [("type", JStr "pong"); ("timestamp", JStr "t5000000")])].
Proof.
  split; [reflexivity |]. split; [reflexivity |].
  apply (ping_gets_pong sample_uuid4 sample_isoformat 1%nat alice (KStr "alice")
           ping_fields chat_world eq_refl eq_refl eq_refl).
Defined.

(** X9. An accepted frame whose kind is none of the five the dispatcher
    knows is ignored: apart from the sender's activity entry nothing
    changes and nothing is sent. *)
Theorem unknown_kind_ignored
    (uuid4 : nat -> string) (isoformat : Z -> string)
    websocket user_id k fields kind w :
  hash_key user_id = Some k ->
  accepted (JObj fields) ->
  assoc "type" fields = Some kind ->
  Forall (fun s => is_str kind s = false) dispatched_kinds ->
  frame_iteration uuid4 isoformat websocket user_id (Some (JObj fields)) w =
    (Ret tt, run (update_user_activity user_id) w) /\
  attempted
    (news w (run (frame_iteration uuid4 isoformat websocket user_id
                    (Some (JObj fields))) w)) = [].
Proof.
  intros Hk Hacc Hty Hkinds. unfold run.
  rewrite (frame_iteration_accepted _ _ _ _ k) by done.
  unfold run. rewrite (dispatch_unknown _ _ _ _ _ kind) by done.
  rewrite (update_user_activity_run _ k) by done. cbn [snd].
  split; [done |]. by erewrite news_app by reflexivity.
Qed.

Lemma unknown_kind_ignored_witness :
  hash_key alice = Some (KStr "alice") /\
  accepted (JObj typing_fields) /\
  attempted
    (news chat_world
       (run (frame_iteration sample_uuid4 sample_isoformat 1%nat alice
               (Some (JObj typing_fields))) chat_world)) = [].
Proof.
  split; [reflexivity |]. split; [reflexivity |].
  apply (unknown_kind_ignored sample_uuid4 sample_isoformat 1%nat alice
           (KStr "alice") typing_fields (JStr "typing") chat_world
           eq_refl eq_refl eq_refl).
  unfold dispatched_kinds. repeat (apply Forall_cons; split; [reflexivity |]).
  apply Forall_nil_2.
Defined.

(** X10. An accepted [get_online_users] frame is answered on the sender's
    websocket with an [online_users] envelope that lists the keys of
    [active_users] in their order; the list always contains the sender
    itself, whose activity entry the frame has just written. *)
Theorem online_users_reply_lists_sender
    (uuid4 : nat -> string) (isoformat : Z -> string)
    websocket user_id k fields w :
  hash_key user_id = Some k ->
  accepted (JObj fields) ->
  assoc "type" fields = Some (JStr "get_online_users") ->
  let w' :=
    run (frame_iteration uuid4 isoformat websocket user_id (Some (JObj fields)))
      w in
  let online := dict_keys (dict_set k (clock w) (active_users (manager w))) in
  exists response,
    news w w' =
      [Called (CUpdateUserActivity user_id); Called CGetOnlineUsers;
       send_event w websocket response] /\
    py_get response "type" JNull = Ret (JStr "online_users") /\
    py_get response "data" JNull = Ret (JObj [("users", JArr (key_json <$> online))]) /\
    k ∈ online /\
    (forall k', k' ∈ dict_keys (active_users (manager w)) -> k' ∈ online).
Proof.
  intros Hk Hacc Hty w' online.
  set (response :=
         envelope isoformat "online_users"
           (JObj [("users", JArr (key_json <$> online))])
           JNull (clock w) (uuid4 (draws w))).
  assert (Hrun :
    w' = with_events [send_event w websocket response]
           (drew (with_event (Called CGetOnlineUsers) (touched user_id k w)))).
  { subst w'. unfold run. rewrite (frame_iteration_accepted _ _ _ _ k) by done.
    cbn [snd]. unfold run. rewrite dispatch_get_online_users by done.
    by rewrite ws_send_run. }
  rewrite Hrun. clear Hrun w'. exists response. split.
  { apply news_app. cbn. rewrite <- !(assoc_L (++)). reflexivity. }
  split; [reflexivity |]. split; [reflexivity |]. split.
  - apply elem_of_dict_keys. rewrite dict_get_set_eq. by eexists.
  - intros k' Hin. apply elem_of_dict_keys. apply elem_of_dict_keys in Hin.
    destruct (decide (k = k')) as [->|Hne].
    + rewrite dict_get_set_eq. by eexists.
    + by rewrite dict_get_set_ne.
Qed.

Lemma online_users_reply_lists_sender_witness :
  hash_key alice = Some (KStr "alice") /\
  accepted (JObj online_fields) /\
  exists response,
    written
      (news chat_world
         (run (frame_iteration sample_uuid4 sample_isoformat 1%nat alice
                 (Some (JObj online_fields))) chat_world)) = [(1%nat, response)] /\
    py_get response "data" JNull = Ret (JObj [("users", JArr [bob; alice])]).
Proof.
  split; [reflexivity |]. split; [reflexivity |].
  destruct (online_users_reply_lists_sender sample_uuid4 sample_isoformat 1%nat
              alice (KStr "alice") online_fields chat_world
              eq_refl eq_refl eq_refl) as (response & Hnews & _ & Hdata & _).
  exists response. split; [by rewrite Hnews | exact Hdata].
Defined.

Lemma dispatch_subscribe uuid4 isoformat websocket user_id k
    fields payload channel c w :
  hash_key user_id = Some k ->
  assoc "type" fields = Some (JStr "subscribe") ->
  assoc "data" fields = Some (JObj payload) ->
  assoc "channel" payload = Some channel ->
  truthy channel = true ->
  hash_key channel = Some c ->
  dispatch uuid4 isoformat websocket user_id (JObj fields) w =
    (Ret tt,
     with_manager
       (set_user_channels
          (<[k := channels k w ∪ {[c]}]> (user_channels (manager w)))
          (manager w)) w).
Proof.
  intros Hk Hty Hdata Hchannel Htruthy Hc.
  unfold dispatch, bind, lift. cbn [py_index py_get]. rewrite Hty.
  cbn [is_str String.eqb Ascii.eqb Bool.eqb andb]. rewrite Hdata.
  cbn [py_get]. rewrite Hchannel. cbn [default id]. rewrite Htruthy.
  unfold channels_of, store_channels, hashed, bind, get_manager. rewrite Hk, Hc.
  unfold ret, channels. cbv beta iota.
  destruct (user_channels (manager w) !! k) as [s|] eqn:E; cbn [default].
  - reflexivity.
  - unfold update_manager, with_manager, set_user_channels. cbn.
    by rewrite insert_insert_eq.
Qed.

Lemma dispatch_unsubscribe uuid4 isoformat websocket user_id k
    fields payload channel c w :
  hash_key user_id = Some k ->
  assoc "type" fields = Some (JStr "unsubscribe") ->
  assoc "data" fields = Some (JObj payload) ->
  assoc "channel" payload = Some channel ->
  truthy channel = true ->
  hash_key channel = Some c ->
  dispatch uuid4 isoformat websocket user_id (JObj fields) w =
    (Ret tt,
     with_manager
       (set_user_channels
          (<[k := channels k w ∖ {[c]}]> (user_channels (manager w)))
          (manager w)) w).
Proof.
  intros Hk Hty Hdata Hchannel Htruthy Hc.
  unfold dispatch, bind, lift. cbn [py_index py_get]. rewrite Hty.
  cbn [is_str String.eqb Ascii.eqb Bool.eqb andb]. rewrite Hdata.
  cbn [py_get]. rewrite Hchannel. cbn [default id]. rewrite Htruthy.
  unfold channels_of, store_channels, hashed, bind, get_manager. rewrite Hk, Hc.
  unfold ret, channels. cbv beta iota.
  destruct (user_channels (manager w) !! k) as [s|] eqn:E; cbn [default id].
  - cbv beta iota. case_bool_decide as Hin.
    + cbn [manager with_manager]. rewrite E. reflexivity.
    + assert (Hs : s ∖ {[c]} = s).
      { apply set_eq. intros x. rewrite elem_of_difference, elem_of_singleton.
        split; [by intros [? _] |]. intros Hx. split; [done |]. congruence. }
      cbn [id]. rewrite Hs, (insert_id _ _ _ E).
      unfold with_manager, set_user_channels. by destruct w as [[] ? ? ? ?].
  - unfold update_manager. cbv beta iota.
    rewrite bool_decide_eq_false_2 by apply not_elem_of_empty.
    assert (Hs : (∅ : gset key) ∖ {[c]} = ∅).
    { apply set_eq. intros x. rewrite elem_of_difference.
      split; [by intros [? _] |]. intros Hx. by apply not_elem_of_empty in Hx. }
    by rewrite Hs.
Qed.

Lemma channels_stored k s d m w :
  channels k (with_manager (set_user_channels (<[k := s]> d) m) w) = s.
Proof.
  unfold channels. cbn [manager with_manager set_user_channels user_channels].
  by rewrite lookup_insert_eq.
Qed.

Lemma subscribe_iteration uuid4 isoformat websocket user_id k
    fields payload channel c w :
  hash_key user_id = Some k ->
  accepted (JObj fields) ->
  assoc "type" fields = Some (JStr "subscribe") ->
  assoc "data" fields = Some (JObj payload) ->
  assoc "channel" payload = Some channel ->
  truthy channel = true ->
  hash_key channel = Some c ->
  run (frame_iteration uuid4 isoformat websocket user_id (Some (JObj fields))) w =
    with_manager
      (set_user_channels
         (<[k := channels k w ∪ {[c]}]> (user_channels (manager w)))
         (manager (touched user_id k w)))
      (touched user_id k w).
Proof.
  intros Hk Hacc Hty Hdata Hchannel Htruthy Hc. unfold run.
  rewrite (frame_iteration_accepted _ _ _ _ k) by done. cbn [snd]. unfold run.
  by rewrite (dispatch_subscribe _ _ _ _ k _ payload channel c) by done.
Qed.

Lemma unsubscribe_iteration uuid4 isoformat websocket user_id k
    fields payload channel c w :
  hash_key user_id = Some k ->
  accepted (JObj fields) ->
  assoc "type" fields = Some (JStr "unsubscribe") ->
  assoc "data" fields = Some (JObj payload) ->
  assoc "channel" payload = Some channel ->
  truthy channel = true ->
  hash_key channel = Some c ->
  run (frame_iteration uuid4 isoformat websocket user_id (Some (JObj fields))) w =
    with_manager
      (set_user_channels
         (<[k := channels k w ∖ {[c]}]> (user_channels (manager w)))
         (manager (touched user_id k w)))
      (touched user_id k w).
Proof.
  intros Hk Hacc Hty Hdata Hchannel Htruthy Hc. unfold run.
  rewrite (frame_iteration_accepted _ _ _ _ k) by done. cbn [snd]. unfold run.
  by rewrite (dispatch_unsubscribe _ _ _ _ k _ payload channel c) by done.
Qed.

(** X11. An accepted [subscribe] frame with a channel adds the channel to
    the sender's set in [user_channels] (creating the set when the sender
    has none) and does nothing else: no other identity's set changes,
    nothing is sent, and no connection is touched. *)
Theorem subscribe_adds_channel
    (uuid4 : nat -> string) (isoformat : Z -> string)
    websocket user_id k fields payload channel c w :
  hash_key user_id = Some k ->
  accepted (JObj fields) ->
  assoc "type" fields = Some (JStr "subscribe") ->
  assoc "data" fields = Some (JObj payload) ->
  assoc "channel" payload = Some channel ->
  truthy channel = true ->
  hash_key channel = Some c ->
  let w' :=
    run (frame_iteration uuid4 isoformat websocket user_id (Some (JObj fields)))
      w in
  channels k w' = channels k w ∪ {[c]} /\
  c ∈ channels k w' /\
  (forall k', k' ≠ k ->
     user_channels (manager w') !! k' = user_channels (manager w) !! k') /\
  attempted (news w w') = [] /\
  user_connections (manager w') = user_connections (manager w).
Proof.
  intros Hk Hacc Hty Hdata Hchannel Htruthy Hc w'. subst w'.
  rewrite (subscribe_iteration _ _ _ _ k _ payload channel c) by done.
  assert (Hch :
    channels k
      (with_manager
         (set_user_channels
            (<[k := channels k w ∪ {[c]}]> (user_channels (manager w)))
            (manager (touched user_id k w)))
         (touched user_id k w)) = channels k w ∪ {[c]}).
  { unfold channels at 1. cbn [manager with_manager set_user_channels user_channels].
    by rewrite lookup_insert_eq. }
  split; [exact Hch |]. split.
  { rewrite Hch. apply elem_of_union_r. by apply elem_of_singleton. }
  split.
  { intros k' Hne. cbn [manager with_manager set_user_channels user_channels].
    by apply lookup_insert_ne. }
  split; [| done].
  erewrite news_app; [| cbn; reflexivity]. done.
Qed.

Lemma subscribe_adds_channel_witness :
  hash_key alice = Some (KStr "alice") /\
  accepted (JObj subscribe_fields) /\
  KStr "news" ∈
    channels (KStr "alice")
      (run (frame_iteration sample_uuid4 sample_isoformat 1%nat alice
              (Some (JObj subscribe_fields))) chat_world).
Proof.
  split; [reflexivity |]. split; [reflexivity |].
  apply (subscribe_adds_channel sample_uuid4 sample_isoformat 1%nat alice
           (KStr "alice") subscribe_fields [("channel", JStr "news")]
           (JStr "news") (KStr "news") chat_world
           eq_refl eq_refl eq_refl eq_refl eq_refl eq_refl eq_refl).
Defined.

(** X12. An accepted [unsubscribe] frame with a channel removes the
    channel from the sender's set in [user_channels]; when the channel was
    not in the set the set is left as it is. No other identity's set
    changes and nothing is sent. *)
Theorem unsubscribe_removes_channel
    (uuid4 : nat -> string) (isoformat : Z -> string)
    websocket user_id k fields payload channel c w :
  hash_key user_id = Some k ->
  accepted (JObj fields) ->
  assoc "type" fields = Some (JStr "unsubscribe") ->
  assoc "data" fields = Some (JObj payload) ->
  assoc "channel" payload = Some channel ->
  truthy channel = true ->
  hash_key channel = Some c ->
  let w' :=
    run (frame_iteration uuid4 isoformat websocket user_id (Some (JObj fields)))
      w in
  channels k w' = channels k w ∖ {[c]} /\
  (c ∉ channels k w') /\
  (c ∉ channels k w -> channels k w' = channels k w) /\
  (forall k', k' ≠ k ->
     user_channels (manager w') !! k' = user_channels (manager w) !! k') /\
  attempted (news w w') = [].
Proof.
  intros Hk Hacc Hty Hdata Hchannel Htruthy Hc w'. subst w'.
  rewrite (unsubscribe_iteration _ _ _ _ k _ payload channel c) by done.
  assert (Hch :
    channels k
      (with_manager
         (set_user_channels
            (<[k := channels k w ∖ {[c]}]> (user_channels (manager w)))
            (manager (touched user_id k w)))
         (touched user_id k w)) = channels k w ∖ {[c]}).
  { unfold channels at 1. cbn [manager with_manager set_user_channels user_channels].
    by rewrite lookup_insert_eq. }
  split; [exact Hch |]. split.
  { rewrite Hch, elem_of_difference, elem_of_singleton. by intros [_ ?]. }
  split.
  { intros Hnin. rewrite Hch. apply set_eq. intros x.
    rewrite elem_of_difference, elem_of_singleton.
    split; [by intros [? _] |]. intros Hx. split; [done |]. congruence. }
  split.
  { intros k' Hne. cbn [manager with_manager set_user_channels user_channels].
    by apply lookup_insert_ne. }
  erewrite news_app; [| cbn; reflexivity]. done.
Qed.

Lemma unsubscribe_removes_channel_witness :
  hash_key alice = Some (KStr "alice") /\
  accepted (JObj unsubscribe_fields) /\
  KStr "news" ∉
    channels (KStr "alice")
      (run (frame_iteration sample_uuid4 sample_isoformat 1%nat alice
              (Some (JObj unsubscribe_fields))) chat_world).
Proof.
  split; [reflexivity |]. split; [reflexivity |].
  apply (unsubscribe_removes_channel sample_uuid4 sample_isoformat 1%nat alice
           (KStr "alice") unsubscribe_fields [("channel", JStr "news")]
           (JStr "news") (KStr "news") chat_world
           eq_refl eq_refl eq_refl eq_refl eq_refl eq_refl eq_refl).
Defined.

(** X13. Subscribing twice to a channel is the same as subscribing once,
    and a subscription followed by the unsubscription of the same channel
    leaves the sender with the channels it had before, without that one.
    Subscriptions are kept per identity, not per connection: the two frames
    may arrive on different websockets of the identity. *)
Theorem subscribe_then_unsubscribe
    (uuid4 : nat -> string) (isoformat : Z -> string)
    websocket websocket' user_id k sub unsub payload payload' channel c w :
  hash_key user_id = Some k ->
  accepted (JObj sub) ->
  assoc "type" sub = Some (JStr "subscribe") ->
  assoc "data" sub = Some (JObj payload) ->
  assoc "channel" payload = Some channel ->
  accepted (JObj unsub) ->
  assoc "type" unsub = Some (JStr "unsubscribe") ->
  assoc "data" unsub = Some (JObj payload') ->
  assoc "channel" payload' = Some channel ->
  truthy channel = true ->
  hash_key channel = Some c ->
  let subscribe :=
    frame_iteration uuid4 isoformat websocket user_id (Some (JObj sub)) in
  let subscribe' :=
    frame_iteration uuid4 isoformat websocket' user_id (Some (JObj sub)) in
  let unsubscribe :=
    frame_iteration uuid4 isoformat websocket' user_id (Some (JObj unsub)) in
  channels k (run subscribe' (run subscribe w)) = channels k (run subscribe w) /\
  channels k (run unsubscribe (run subscribe w)) = channels k w ∖ {[c]}.
Proof.
  intros Hk Hacc Hty Hdata Hchannel Hacc' Hty' Hdata' Hchannel' Htruthy Hc
    subscribe subscribe' unsubscribe.
  subst subscribe subscribe' unsubscribe.
  rewrite (subscribe_iteration _ _ websocket' _ k sub payload channel c) by done.
  rewrite (unsubscribe_iteration _ _ _ _ k unsub payload' channel c) by done.
  rewrite (subscribe_iteration _ _ websocket _ k sub payload channel c) by done.
  rewrite !channels_stored. split.
  - apply set_eq. intros x. rewrite !elem_of_union, elem_of_singleton. tauto.
  - apply set_eq. intros x.
    rewrite !elem_of_difference, elem_of_union, elem_of_singleton. tauto.
Qed.

Lemma subscribe_then_unsubscribe_witness :
  hash_key alice = Some (KStr "alice") /\
  accepted (JObj subscribe_fields) /\
  accepted (JObj unsubscribe_fields) /\
  channels (KStr "alice")
    (run (frame_iteration sample_uuid4 sample_isoformat 2%nat alice
            (Some (JObj unsubscribe_fields)))
       (run (frame_iteration sample_uuid4 sample_isoformat 1%nat alice
               (Some (JObj subscribe_fields))) chat_world))
    = channels (KStr "alice") chat_world ∖ {[KStr "news"]}.
Proof.
  split; [reflexivity |]. split; [reflexivity |]. split; [reflexivity |].
  apply (subscribe_then_unsubscribe sample_uuid4 sample_isoformat 1%nat 2%nat
           alice (KStr "alice") subscribe_fields unsubscribe_fields
           [("channel", JStr "news")] [("channel", JStr "news")]
           (JStr "news") (KStr "news") chat_world
           eq_refl eq_refl eq_refl eq_refl eq_refl eq_refl eq_refl eq_refl
           eq_refl eq_refl eq_refl).
Defined.

Lemma update_user_activity_unhashable user_id w :
  hash_key user_id = None ->
  update_user_activity user_id w =
    (Raise TypeError, with_event (Called (CUpdateUserActivity user_id)) w).
Proof.
  intros Hk. unfold update_user_activity, bind, log_call, hashed.
  by rewrite Hk.
Qed.

(** X14. An accepted [send_message] frame whose payload lacks a target or
    a content, or holds one that is false for Python (an empty string),
    is neither forwarded nor answered: no receipt, not even a [failed]
    one, is sent; only the sender's activity entry is written. *)
Theorem send_message_incomplete_is_silent
    (uuid4 : nat -> string) (isoformat : Z -> string)
    websocket user_id k fields payload w :
  hash_key user_id = Some k ->
  accepted (JObj fields) ->
  assoc "type" fields = Some (JStr "send_message") ->
  assoc "data" fields = Some (JObj payload) ->
  truthy (default JNull (assoc "target_user" payload)) &&
  truthy (default JNull (assoc "content" payload)) = false ->
  frame_iteration uuid4 isoformat websocket user_id (Some (JObj fields)) w =
    (Ret tt, run (update_user_activity user_id) w) /\
  attempted
    (news w (run (frame_iteration uuid4 isoformat websocket user_id
                    (Some (JObj fields))) w)) = [].
Proof.
  intros Hk Hacc Hty Hdata Hguard.
  assert (Hdispatch : forall w0,
    dispatch uuid4 isoformat websocket user_id (JObj fields) w0 = (Ret tt, w0)).
  { intros w0. unfold dispatch, bind, lift. cbn [py_index py_get]. rewrite Hty.
    cbn [is_str String.eqb Ascii.eqb Bool.eqb andb]. rewrite Hdata.
    cbn [py_get]. by rewrite Hguard. }
  unfold run. rewrite (frame_iteration_accepted _ _ _ _ k) by done.
  unfold run. rewrite Hdispatch.
  rewrite (update_user_activity_run _ k) by done. cbn [snd].
  split; [done |]. by erewrite news_app by reflexivity.
Qed.

Lemma send_message_incomplete_is_silent_witness :
  hash_key alice = Some (KStr "alice") /\
  accepted (JObj empty_message_fields) /\
  attempted
    (news chat_world
       (run (frame_iteration sample_uuid4 sample_isoformat 1%nat alice
               (Some (JObj empty_message_fields))) chat_world)) = [].
Proof.
  split; [reflexivity |]. split; [reflexivity |].
  apply (send_message_incomplete_is_silent sample_uuid4 sample_isoformat 1%nat
           alice (KStr "alice") empty_message_fields
           [("target_user", bob); ("content", JStr "")] chat_world
           eq_refl eq_refl eq_refl eq_refl eq_refl).
Defined.

(** X15. An accepted [send_message], [subscribe] or [unsubscribe] frame
    whose [data] field is not a mapping makes the branch raise
    [AttributeError]; the loop swallows it: the iteration returns
    normally, nothing is sent, and only the sender's activity entry is
    written. *)
Theorem payload_not_a_mapping_is_swallowed
    (uuid4 : nat -> string) (isoformat : Z -> string)
    websocket user_id k fields kind data w :
  hash_key user_id = Some k ->
  accepted (JObj fields) ->
  assoc "type" fields = Some (JStr kind) ->
  kind ∈ payload_kinds ->
  assoc "data" fields = Some data ->
  is_object data = false ->
  outcome (dispatch uuid4 isoformat websocket user_id (JObj fields))
    (run (update_user_activity user_id) w) = Raise AttributeError /\
  frame_iteration uuid4 isoformat websocket user_id (Some (JObj fields)) w =
    (Ret tt, run (update_user_activity user_id) w).
Proof.
  intros Hk Hacc Hty Hkind Hdata Hobj.
  assert (Hdispatch : forall w0,
    dispatch uuid4 isoformat websocket user_id (JObj fields) w0
      = (Raise AttributeError, w0)).
  { intros w0. unfold dispatch, bind, lift. cbn [py_index]. rewrite Hty, Hdata.
    unfold payload_kinds in Hkind.
    repeat (apply elem_of_cons in Hkind as [->|Hkind]);
      [| | | by apply elem_of_nil in Hkind];
      cbn [is_str String.eqb Ascii.eqb Bool.eqb andb];
      by destruct data. }
  split.
  - unfold outcome. by rewrite Hdispatch.
  - rewrite (frame_iteration_accepted _ _ _ _ k) by done.
    unfold run. rewrite Hdispatch.
    by rewrite (update_user_activity_run _ k) by done.
Qed.

Lemma payload_not_a_mapping_is_swallowed_witness :
  hash_key alice = Some (KStr "alice") /\
  accepted (JObj text_payload_fields) /\
  "send_message" ∈ payload_kinds /\
  frame_iteration sample_uuid4 sample_isoformat 1%nat alice
    (Some (JObj text_payload_fields)) chat_world
  = (Ret tt, run (update_user_activity alice) chat_world).
Proof.
  assert (Hkind : "send_message" ∈ payload_kinds) by apply list_elem_of_here.
  split; [reflexivity |]. split; [reflexivity |]. split; [exact Hkind |].
  apply (payload_not_a_mapping_is_swallowed sample_uuid4 sample_isoformat 1%nat
           alice (KStr "alice") text_payload_fields "send_message" (JStr "hello")
           chat_world eq_refl eq_refl eq_refl Hkind eq_refl eq_refl).
Defined.

(** X16. A frame that is not a JSON object never makes the dispatcher
    send anything or touch a connection or a subscription, and its
    iteration returns normally: text that is not JSON leaves the world as
    it is, and a JSON value of another type at most refreshes the sender's
    activity entry (an array or a string that contains the three field
    names passes [validate_message]). *)
Theorem non_object_frame_sends_nothing
    (uuid4 : nat -> string) (isoformat : Z -> string)
    websocket user_id message w :
  (forall v, message = Some v -> is_object v = false) ->
  let w' :=
    run (frame_iteration uuid4 isoformat websocket user_id message) w in
  outcome (frame_iteration uuid4 isoformat websocket user_id message) w = Ret tt /\
  attempted (news w w') = [] /\
  user_connections (manager w') = user_connections (manager w) /\
  user_channels (manager w') = user_channels (manager w) /\
  connection_users (manager w') = connection_users (manager w) /\
  (message = None -> w' = w).
Proof.
  intros Hobj w'. split; [apply frame_iteration_returns |].
  destruct message as [v|].
  2:{ assert (Hw : w' = w) by reflexivity. rewrite Hw.
      repeat split. unfold news. by rewrite drop_all. }
  specialize (Hobj v eq_refl).
  assert (Hdispatch : forall w0,
    dispatch uuid4 isoformat websocket user_id v w0 = (Raise TypeError, w0)).
  { intros w0. unfold dispatch, bind, lift. by destruct v. }
  assert (Hcases :
    w' = w \/ w' = with_event (Called (CUpdateUserActivity user_id)) w \/
    exists k, w' = touched user_id k w).
  { assert (Hbody :
      frame_body uuid4 isoformat websocket user_id (Some v) w =
        match validate_message v with
        | Ret true =>
            bind (update_user_activity user_id)
              (fun _ => dispatch uuid4 isoformat websocket user_id v) w
        | Ret false => (Ret tt, w)
        | Raise e => (Raise e, w)
        end).
    { unfold frame_body. rewrite bind_run. unfold lift at 1. cbn [json_loads].
      rewrite bind_run. unfold lift at 1.
      by destruct (validate_message v) as [[|]|e]. }
    subst w'. unfold run, frame_iteration, try_except. rewrite Hbody.
    destruct (validate_message v) as [[|]|e].
    - rewrite bind_run. destruct (hash_key user_id) as [k|] eqn:Hk.
      + right. right. exists k.
        rewrite (update_user_activity_run _ k) by done.
        by rewrite Hdispatch.
      + right. left. by rewrite update_user_activity_unhashable by done.
    - by left.
    - left. by destruct e. }
  destruct Hcases as [->|[->|[k ->]]].
  - repeat split; try done. unfold news. by rewrite drop_all.
  - repeat split; try done. by erewrite news_app by reflexivity.
  - repeat split; try done. by erewrite news_app by reflexivity.
Qed.

Lemma non_object_frame_sends_nothing_witness :
  (forall v,
     Some (JArr [JStr "type"; JStr "data"; JStr "timestamp"]) = Some v ->
     is_object v = false) /\
  attempted
    (news chat_world
       (run (frame_iteration sample_uuid4 sample_isoformat 1%nat alice
               (Some (JArr [JStr "type"; JStr "data"; JStr "timestamp"])))
          chat_world)) = [].
Proof.
  assert (Hobj : forall v,
     Some (JArr [JStr "type"; JStr "data"; JStr "timestamp"]) = Some v ->
     is_object v = false) by (by intros v [= <-]).
  split; [exact Hobj |].
  apply (non_object_frame_sends_nothing sample_uuid4 sample_isoformat 1%nat
           alice _ chat_world Hobj).
Defined.

(** ** Further properties: the handshake *)

Lemma handle_message_rejected uuid4 isoformat websocket script rejected w :
  auth_stage (first_recv script) = Ret rejected ->
  truthy rejected = false ->
  handle_message uuid4 isoformat websocket script w =
    (Ret tt, with_events [send_event w websocket auth_error] w).
Proof.
  intros Hauth Hfalse. unfold handle_message. rewrite Hauth, Hfalse. cbn [negb].
  rewrite bind_run. unfold swallow. rewrite ws_send_run.
  unfold cleanup. by rewrite Hfalse.
Qed.

(** X17. A first frame that [authenticate] answers with [None] (or with
    another value that is false for Python) gets the [error] envelope as
    its only reply, and the handler ends: nothing is registered, nobody
    else is told, and no later frame of the connection is read. *)
Theorem failed_authentication_replies_error
    (uuid4 : nat -> string) (isoformat : Z -> string)
    websocket script rejected w :
  auth_stage (first_recv script) = Ret rejected ->
  truthy rejected = false ->
  handle_message uuid4 isoformat websocket script w =
    (Ret tt, with_events [send_event w websocket auth_error] w) /\
  manager (run (handle_message uuid4 isoformat websocket script) w) = manager w.
Proof.
  intros Hauth Hfalse.
  pose proof (handle_message_rejected uuid4 isoformat websocket script rejected w
                Hauth Hfalse) as Hrun.
  split; [exact Hrun |]. unfold run. by rewrite Hrun.
Qed.

Lemma failed_authentication_replies_error_witness :
  auth_stage (first_recv intruder_script) = Ret JNull /\
  truthy JNull = false /\
  handle_message sample_uuid4 sample_isoformat 1%nat intruder_script chat_world =
    (Ret tt, with_events [Wrote 1%nat auth_error] chat_world).
Proof.
  split; [reflexivity |]. split; [reflexivity |].
  apply (failed_authentication_replies_error sample_uuid4 sample_isoformat
           1%nat intruder_script JNull chat_world eq_refl eq_refl).
Defined.

(** X18. When receiving, parsing or authenticating the first frame raises
    (no frame within the time limit, the peer gone, text that is not JSON,
    a frame that is not a mapping), the handler ends without having sent
    anything, the [error] envelope included, and leaves the world as it
    is. *)
Theorem handshake_failure_is_silent
    (uuid4 : nat -> string) (isoformat : Z -> string)
    websocket script e w :
  auth_stage (first_recv script) = Raise e ->
  handle_message uuid4 isoformat websocket script w = (Ret tt, w) /\
  auth_stage TimedOut = Raise TimeoutError /\
  auth_stage Disconnected = Raise ConnectionClosed /\
  auth_stage (Received None) = Raise JSONDecodeError /\
  (forall v, is_object v = false ->
     auth_stage (Received (Some v)) = Raise AttributeError).
Proof.
  intros Hauth. split.
  - unfold handle_message. by rewrite Hauth.
  - repeat split. intros v Hv. by destruct v.
Qed.

Lemma handshake_failure_is_silent_witness :
  auth_stage (first_recv silent_script) = Raise TimeoutError /\
  handle_message sample_uuid4 sample_isoformat 1%nat silent_script chat_world
    = (Ret tt, chat_world).
Proof.
  split; [reflexivity |].
  apply (handshake_failure_is_silent sample_uuid4 sample_isoformat 1%nat
           silent_script TimeoutError chat_world eq_refl).
Defined.

Lemma recipients_set user_id k websocket (d : pydict handle) :
  hash_key user_id = Some k ->
  recipients user_id (dict_set k websocket d) = recipients user_id d.
Proof.
  intros Hk.
  assert (Hself : key_is k user_id = true).
  { unfold key_is. rewrite Hk. by apply bool_decide_eq_true_2. }
  induction d as [|[k0 h] d IH]; cbn [dict_set recipients].
  - by rewrite Hself.
  - destruct (decide (k0 = k)) as [->|Hne]; cbn [recipients].
    + by rewrite Hself.
    + by rewrite IH.
Qed.

Lemma recipients_del user_id k (d : pydict handle) :
  hash_key user_id = Some k ->
  recipients user_id (dict_del k d) = recipients user_id d.
Proof.
  intros Hk.
  assert (Hself : key_is k user_id = true).
  { unfold key_is. rewrite Hk. by apply bool_decide_eq_true_2. }
  induction d as [|[k0 h] d IH]; cbn [dict_del recipients]; [done |].
  destruct (decide (k0 = k)) as [->|Hne]; cbn [recipients].
  - by rewrite Hself.
  - by rewrite IH.
Qed.

(** The handler of a connection that authenticates on an open websocket,
    up to the start of its read loop *)
Lemma handle_message_greeted uuid4 isoformat websocket script user_id k w :
  auth_stage (first_recv script) = Ret user_id ->
  truthy user_id = true ->
  hash_key user_id = Some k ->
  websocket ∉ closed w ->
  handle_message uuid4 isoformat websocket script w =
    if some_closed w (recipients user_id (user_connections (manager w)))
    then
      cleanup uuid4 isoformat user_id (Some (uuid4 (draws w)))
        (greeted uuid4 isoformat websocket user_id k w)
    else
      bind (swallow (read_loop uuid4 isoformat websocket user_id script))
        (fun _ => cleanup uuid4 isoformat user_id (Some (uuid4 (draws w))))
        (greeted uuid4 isoformat websocket user_id k w).
Proof.
  intros Hauth Htruthy Hk Hopen.
  unfold handle_message. rewrite Hauth, Htruthy. cbn [negb].
  rewrite bind_run. unfold swallow at 1.
  rewrite (register_run _ _ _ k) by done. cbv beta iota.
  rewrite bind_run. unfold swallow at 1. unfold session.
  rewrite bind_run, create_message_run.
  rewrite bind_run, ws_send_run.
  cbn [closed drew]. rewrite decide_False by done.
  rewrite bind_run, create_message_run.
  rewrite bind_run, broadcast_run.
  cbn [manager user_connections drew with_events].
  rewrite (recipients_set _ k) by done.
  unfold some_closed. cbn [closed with_events drew].
  fold (some_closed w (recipients user_id (user_connections (manager w)))).
  match goal with
  | |- context [bind (message_loop _ _ _ _ _) _ ?W] =>
      assert (HW : W = greeted uuid4 isoformat websocket user_id k w)
  end.
  { unfold greeted, with_events, presence, welcome, send_event.
    cbn [manager clock draws closed trace drew].
    rewrite decide_False by done.
    rewrite <- !(assoc_L (++)). reflexivity. }
  rewrite HW.
  destruct (some_closed w (recipients user_id (user_connections (manager w)))).
  - reflexivity.
  - rewrite bind_run. unfold swallow, read_loop. reflexivity.
Qed.

Lemma steady_weaken (P Q : event -> Prop) {A} (m : M A) :
  (forall ev, P ev -> Q ev) -> steady P m -> steady Q m.
Proof.
  intros HPQ Hm w. destruct (Hm w) as (evs & Ht & HP & Hc).
  exists evs. split; [done |]. split; [| done].
  eapply Forall_impl; [exact HP | exact HPQ].
Qed.

(** The registry's methods add to the trace their own call, the calls they
    make, and the sends of the message they are given. *)
Section steady_registry.
Context (P : event -> Prop) (Hcalls : forall c, P (Called c)).

Lemma steady_unregister_calls user_id connection_id :
  steady P (unregister user_id connection_id).
Proof.
  unfold unregister.
  apply steady_bind; [by apply steady_log_call |]. intros _.
  apply steady_bind; [apply steady_hashed |]. intros k.
  repeat (apply steady_bind; [apply steady_update_manager |]; intros _).
  apply steady_update_manager.
Qed.

Lemma steady_send_to_user_calls user_id message :
  (forall h, P (Wrote h message)) ->
  (forall h, P (WriteFailed h message)) ->
  steady P (send_to_user user_id message).
Proof.
  intros Hw Hf. unfold send_to_user.
  apply steady_bind; [by apply steady_log_call |]. intros _.
  apply steady_bind; [apply steady_hashed |]. intros k.
  apply steady_bind; [apply steady_get_manager |]. intros m.
  destruct (dict_get k (user_connections m)) as [h|]; [| apply steady_ret].
  apply steady_try_except.
  - apply steady_bind; [by apply steady_ws_send |]. intros _. apply steady_ret.
  - intros []; try apply steady_raise.
    apply steady_bind; [apply steady_unregister_calls |]. intros _.
    apply steady_ret.
Qed.

Lemma steady_broadcast_calls message exclude_user :
  (forall h, P (Wrote h message)) ->
  (forall h, P (WriteFailed h message)) ->
  steady P (broadcast message exclude_user).
Proof.
  intros Hw Hf. unfold broadcast.
  apply steady_bind; [by apply steady_log_call |]. intros _.
  apply steady_bind; [apply steady_get_manager |]. intros m.
  rewrite gather_guard. apply steady_gather.
  rewrite broadcast_tasks_recipients. apply Forall_fmap, Forall_forall.
  intros h _. by apply steady_ws_send.
Qed.

Lemma steady_update_user_activity_calls user_id :
  steady P (update_user_activity user_id).
Proof.
  unfold update_user_activity.
  apply steady_bind; [by apply steady_log_call |]. intros _.
  apply steady_bind; [apply steady_hashed |]. intros k.
  apply steady_bind; [apply steady_datetime_now |]. intros now.
  apply steady_update_manager.
Qed.

Lemma steady_get_online_users_calls : steady P get_online_users.
Proof.
  unfold get_online_users.
  apply steady_bind; [by apply steady_log_call |]. intros _.
  apply steady_bind; [apply steady_get_manager |]. intros m. apply steady_ret.
Qed.

Lemma steady_channels_of_calls user_id : steady P (channels_of user_id).
Proof.
  unfold channels_of.
  apply steady_bind; [apply steady_hashed |]. intros k.
  apply steady_bind; [apply steady_get_manager |]. intros m.
  destruct (user_channels m !! k); [apply steady_ret |].
  apply steady_bind; [apply steady_update_manager |]. intros _. apply steady_ret.
Qed.

Lemma steady_store_channels_calls user_id s : steady P (store_channels user_id s).
Proof.
  unfold store_channels.
  apply steady_bind; [apply steady_hashed |]. intros k.
  apply steady_update_manager.
Qed.

End steady_registry.

Lemma steady_read_loop uuid4 isoformat websocket user_id script :
  steady quiet (read_loop uuid4 isoformat websocket user_id script).
Proof.
  unfold read_loop.
  apply steady_bind; [apply steady_message_loop |]. intros _.
  destruct (close script); [apply steady_ret | apply steady_raise].
Qed.

Lemma steady_cleanup_grows uuid4 isoformat user_id connection_id :
  steady (fun _ => True) (cleanup uuid4 isoformat user_id connection_id).
Proof.
  unfold cleanup. destruct (truthy user_id); [| apply steady_ret].
  apply steady_bind; [by apply steady_unregister_calls |]. intros _.
  apply steady_bind; [apply steady_create_message |]. intros offline.
  by apply steady_broadcast_calls.
Qed.

Lemma greeted_news uuid4 isoformat websocket script user_id k w :
  auth_stage (first_recv script) = Ret user_id ->
  truthy user_id = true ->
  hash_key user_id = Some k ->
  websocket ∉ closed w ->
  exists rest,
    news w (run (handle_message uuid4 isoformat websocket script) w) =
      [Called (CRegister websocket user_id);
       Wrote websocket
         (welcome isoformat user_id (uuid4 (draws w)) (clock w)
            (uuid4 (S (draws w))));
       Called
         (CBroadcast
            (presence isoformat "user_online" user_id (clock w)
               (uuid4 (S (S (draws w)))))
            user_id)] ++
      ((fun h =>
          send_event w h
            (presence isoformat "user_online" user_id (clock w)
               (uuid4 (S (S (draws w))))))
         <$> recipients user_id (user_connections (manager w))) ++
      rest.
Proof.
  intros Hauth Htruthy Hk Hopen.
  set (w' := run (handle_message uuid4 isoformat websocket script) w).
  set (wg := greeted uuid4 isoformat websocket user_id k w).
  assert (Hgrow : exists rest, trace w' = trace wg ++ rest).
  { subst w'. unfold run.
    rewrite (handle_message_greeted _ _ _ _ user_id k) by done. fold wg.
    destruct (some_closed w (recipients user_id (user_connections (manager w)))).
    - destruct (steady_cleanup_grows uuid4 isoformat user_id
                  (Some (uuid4 (draws w))) wg) as (evs & Ht & _).
      by exists evs.
    - assert (Hs : steady (fun _ => True)
        (bind (swallow (read_loop uuid4 isoformat websocket user_id script))
           (fun _ => cleanup uuid4 isoformat user_id (Some (uuid4 (draws w)))))).
      { apply steady_bind; [| intros _; apply steady_cleanup_grows].
        apply steady_swallow.
        apply (steady_weaken quiet); [done | apply steady_read_loop]. }
      destruct (Hs wg) as (evs & Ht & _). by exists evs. }
  destruct Hgrow as (rest & Hrest). exists rest.
  apply news_app. rewrite Hrest. subst wg. unfold greeted. cbn [trace].
  by rewrite <- !(assoc_L (++)).
Qed.

(** X19. A connection that authenticates on an open websocket is first
    registered, then sent the [connection_established] envelope with its
    identity and the connection id [register] returned, and then announced:
    a [user_online] notice about it, in the name of the system, is sent to
    the websocket of every other identity registered so far. All this
    happens before any of its frames is read. *)
Theorem welcome_then_online
    (uuid4 : nat -> string) (isoformat : Z -> string)
    websocket script user_id k w :
  auth_stage (first_recv script) = Ret user_id ->
  truthy user_id = true ->
  hash_key user_id = Some k ->
  websocket ∉ closed w ->
  let w' := run (handle_message uuid4 isoformat websocket script) w in
  let greeting :=
    welcome isoformat user_id (uuid4 (draws w)) (clock w) (uuid4 (S (draws w))) in
  let online :=
    presence isoformat "user_online" user_id (clock w) (uuid4 (S (S (draws w)))) in
  exists rest,
    news w w' =
      [Called (CRegister websocket user_id); Wrote websocket greeting;
       Called (CBroadcast online user_id)] ++
      ((fun h => send_event w h online)
         <$> recipients user_id (user_connections (manager w))) ++
      rest /\
    py_get greeting "type" JNull = Ret (JStr "connection_established") /\
    py_get greeting "data" JNull =
      Ret (JObj [("user_id", user_id);
                 ("connection_id", JStr (uuid4 (draws w)))]) /\
    py_get online "type" JNull = Ret (JStr "user_online") /\
    py_get online "data" JNull = Ret (JObj [("user_id", user_id)]) /\
    py_get online "sender" JNull = Ret (JStr "system").
Proof.
  intros Hauth Htruthy Hk Hopen w' greeting online.
  destruct (greeted_news uuid4 isoformat websocket script user_id k w
              Hauth Htruthy Hk Hopen) as (rest & Hrest).
  exists rest. split; [exact Hrest |]. repeat split.
Qed.

Lemma welcome_then_online_witness :
  auth_stage (first_recv alice_script) = Ret alice /\
  truthy alice = true /\
  hash_key alice = Some (KStr "alice") /\
  (1%nat ∉ closed chat_world) /\
  exists rest,
    written
      (news chat_world
         (run (handle_message sample_uuid4 sample_isoformat 1%nat alice_script)
            chat_world)) =
      [(1%nat, welcome sample_isoformat alice "c1" 5000000 "c2");
       (2%nat, presence sample_isoformat "user_online" alice 5000000 "c3")] ++
      rest.
Proof.
  assert (Hopen : 1%nat ∉ closed chat_world) by apply not_elem_of_empty.
  split; [reflexivity |]. split; [reflexivity |]. split; [reflexivity |].
  split; [exact Hopen |].
  destruct (welcome_then_online sample_uuid4 sample_isoformat 1%nat
              alice_script alice (KStr "alice") chat_world
              eq_refl eq_refl eq_refl Hopen) as (rest & Hnews & _).
  exists (written rest). rewrite Hnews. unfold written.
  rewrite !omap_app. reflexivity.
Defined.

(** X20. While the registry holds, under another identity, a websocket
    whose transport is closed, nobody can stay connected: the online
    broadcast of a newcomer raises, its handler goes straight to the
    cleanup without reading a single frame (its result does not depend on
    the frames of the connection), the newcomer is unregistered again, and
    the [user_offline] broadcast of the cleanup raises out of the handler,
    the closed websocket being still registered. *)
Theorem dead_peer_blocks_newcomers
    (uuid4 : nat -> string) (isoformat : Z -> string)
    websocket script script' user_id k w :
  auth_stage (first_recv script) = Ret user_id ->
  truthy user_id = true ->
  hash_key user_id = Some k ->
  websocket ∉ closed w ->
  some_closed w (recipients user_id (user_connections (manager w))) = true ->
  first_recv script' = first_recv script ->
  let w' := run (handle_message uuid4 isoformat websocket script) w in
  let online :=
    presence isoformat "user_online" user_id (clock w) (uuid4 (S (S (draws w)))) in
  let offline :=
    presence isoformat "user_offline" user_id (clock w)
      (uuid4 (S (S (S (draws w))))) in
  handle_message uuid4 isoformat websocket script' w =
    handle_message uuid4 isoformat websocket script w /\
  outcome (handle_message uuid4 isoformat websocket script) w
    = Raise ConnectionClosed /\
  news w w' =
    [Called (CRegister websocket user_id);
     Wrote websocket
       (welcome isoformat user_id (uuid4 (draws w)) (clock w)
          (uuid4 (S (draws w))));
     Called (CBroadcast online user_id)] ++
    ((fun h => send_event w h online)
       <$> recipients user_id (user_connections (manager w))) ++
    [Called (CUnregister user_id (Some (uuid4 (draws w))));
     Called (CBroadcast offline user_id)] ++
    ((fun h => send_event w h offline)
       <$> recipients user_id (user_connections (manager w))) /\
  session_of k w' = (None, None) /\
  recipients user_id (user_connections (manager w'))
    = recipients user_id (user_connections (manager w)).
Proof.
  intros Hauth Htruthy Hk Hopen Hdead Hfirst w' online offline.
  assert (Hrun : forall s,
    first_recv s = first_recv script ->
    handle_message uuid4 isoformat websocket s w =
      (Raise ConnectionClosed,
       with_events
         (Called (CBroadcast offline user_id) ::
          ((fun h => send_event w h offline)
             <$> recipients user_id (user_connections (manager w))))
         (drew
            (with_manager
               (forget k (Some (uuid4 (draws w)))
                  (manager (greeted uuid4 isoformat websocket user_id k w)))
               (with_event
                  (Called (CUnregister user_id (Some (uuid4 (draws w)))))
                  (greeted uuid4 isoformat websocket user_id k w)))))).
  { intros s Hs.
    rewrite (handle_message_greeted _ _ _ _ user_id k) by (by rewrite ?Hs).
    rewrite Hdead. unfold cleanup. rewrite Htruthy.
    rewrite bind_run, (unregister_run _ k) by done.
    rewrite bind_run, create_message_run, broadcast_run.
    cbn [manager drew with_manager forget user_connections greeted].
    rewrite (recipients_del _ k), (recipients_set _ k) by done.
    unfold some_closed in *. cbn [closed drew with_manager with_event greeted].
    by rewrite Hdead. }
  split; [by rewrite !Hrun |].
  subst w'. unfold run, outcome. rewrite Hrun by done. cbn [fst snd].
  split; [done |]. split.
  - apply news_app. unfold greeted.
    cbn [trace with_events drew with_manager with_event].
    by rewrite <- !(assoc_L (++)).
  - split.
    + unfold session_of.
      cbn [manager with_events drew with_manager forget user_connections
           active_users]. by rewrite !dict_get_del_eq.
    + cbn [manager with_events drew with_manager forget user_connections greeted].
      by rewrite (recipients_del _ k), (recipients_set _ k) by done.
Qed.

Lemma dead_peer_blocks_newcomers_witness :
  auth_stage (first_recv alice_script) = Ret alice /\
  truthy alice = true /\
  hash_key alice = Some (KStr "alice") /\
  (1%nat ∉ closed blocked_world) /\
  some_closed blocked_world
    (recipients alice (user_connections (manager blocked_world))) = true /\
  outcome (handle_message sample_uuid4 sample_isoformat 1%nat alice_script)
    blocked_world = Raise ConnectionClosed /\
  session_of (KStr "alice")
    (run (handle_message sample_uuid4 sample_isoformat 1%nat alice_script)
       blocked_world) = (None, None).
Proof.
  assert (Hopen : 1%nat ∉ closed blocked_world).
  { change (1%nat ∉ ({[2%nat]} : gset handle)).
    rewrite elem_of_singleton. discriminate. }
  split; [reflexivity |]. split; [reflexivity |]. split; [reflexivity |].
  split; [exact Hopen |]. split; [reflexivity |].
  destruct (dead_peer_blocks_newcomers sample_uuid4 sample_isoformat 1%nat
              alice_script alice_script alice (KStr "alice") blocked_world
              eq_refl eq_refl eq_refl Hopen eq_refl eq_refl)
    as (_ & Hout & _ & Hsession & _).
  split; [exact Hout | exact Hsession].
Defined.

(** ** Further properties: messages and the shape of the registry *)

Lemma validate_envelope isoformat msg_type data sender now message_id :
  validate_message (envelope isoformat msg_type data sender now message_id)
    = Ret true.
Proof. unfold envelope. by destruct (truthy sender). Qed.

(** X21. [create_message] builds a message that the server's own
    [validate_message] accepts: it carries the given type and data, the
    time of its creation and an id of its own, and a sender exactly when
    one is given. With a UUID generator that never repeats a draw, two
    messages created one after the other have different ids. Creating a
    message changes neither the registry nor the wire. *)
Theorem created_message_validates
    (uuid4 : nat -> string) (isoformat : Z -> string)
    msg_type data sender msg_type' data' sender' w :
  (forall i j, uuid4 i = uuid4 j -> i = j) ->
  let create := create_message uuid4 isoformat msg_type data sender in
  let create' := create_message uuid4 isoformat msg_type' data' sender' in
  exists message message',
    outcome create w = Ret message /\
    outcome create' (run create w) = Ret message' /\
    validate_message message = Ret true /\
    py_get message "type" JNull = Ret (JStr msg_type) /\
    py_get message "data" JNull = Ret data /\
    py_get message "timestamp" JNull = Ret (JStr (isoformat (clock w))) /\
    (carries "sender" message <-> truthy sender = true) /\
    (truthy sender = true -> py_get message "sender" JNull = Ret sender) /\
    py_get message "message_id" JNull ≠ py_get message' "message_id" JNull /\
    manager (run create w) = manager w /\
    trace (run create w) = trace w.
Proof.
  intros Hinj create create'. subst create create'. unfold outcome, run.
  rewrite !create_message_run. cbn [fst snd drew clock draws].
  eexists _, _. split; [reflexivity |]. split; [reflexivity |].
  split; [apply validate_envelope |].
  assert (Hfresh : uuid4 (draws w) ≠ uuid4 (S (draws w))).
  { intros Heq. apply Hinj in Heq. lia. }
  unfold envelope, carries.
  destruct (truthy sender) eqn:Hs, (truthy sender') eqn:Hs'; cbn;
    (repeat split; try done; try (by intros [? ?]); try (by eexists);
     try (intros [= Heq]; by apply Hfresh)).
Qed.

Lemma created_message_validates_witness :
  exists message,
    outcome (create_message sample_uuid4 sample_isoformat "new_message"
               (JObj hello_payload) alice) chat_world = Ret message /\
    validate_message message = Ret true.
Proof.
  destruct (created_message_validates sample_uuid4 sample_isoformat
              "new_message" (JObj hello_payload) alice
              "new_message" (JObj hello_payload) alice chat_world
              sample_uuid4_inj)
    as (message & _ & Hout & _ & Hvalid & _).
  by exists message.
Defined.

(** X22. The handler of a connection, whatever the connection receives,
    and any number of passes of the reaper keep the registry well formed:
    [user_connections] and [active_users] hold every identity at most
    once, so an identity never has two websockets or two activity
    entries; the empty registry the server starts with is well formed. *)
Theorem registry_stays_well_formed
    (uuid4 : nat -> string) (isoformat : Z -> string)
    websocket script sleeps w :
  registry_wf (manager w) ->
  registry_wf (manager (run (handle_message uuid4 isoformat websocket script) w)) /\
  registry_wf (manager (run (health_check sleeps) w)) /\
  registry_wf empty_manager.
Proof.
  intros Hwf. split; [by apply keeps_wf_handle_message |].
  split; [by apply keeps_wf_health_check | apply registry_wf_empty].
Qed.

Lemma registry_stays_well_formed_witness :
  registry_wf (manager world0) /\
  registry_wf
    (manager (run (handle_message sample_uuid4 sample_isoformat 1%nat alice_script)
                world0)).
Proof.
  split; [apply registry_wf_empty |].
  apply (registry_stays_well_formed sample_uuid4 sample_isoformat 1%nat
           alice_script [] world0 registry_wf_empty).
Defined.

(** ** Further properties: the PC client against the server *)

Lemma pc_auth_stage user_id token timestamp :
  auth_stage (Received (Some (pc_client.auth_message user_id token timestamp))) =
    (if nonempty user_id && nonempty token then Ret (JStr user_id) else Ret JNull).
Proof. reflexivity. Qed.

(** X23. The message the PC client sends first authenticates it under its
    user id exactly when its user id and its token are not empty;
    otherwise [authenticate] answers [None]. *)
Theorem pc_auth_message_authenticates user_id token timestamp :
  authenticate (pc_client.auth_message user_id token timestamp) =
    (if nonempty user_id && nonempty token then Ret (JStr user_id) else Ret JNull) /\
  auth_stage (Received (Some (pc_client.auth_message user_id token timestamp))) =
    authenticate (pc_client.auth_message user_id token timestamp).
Proof. split; reflexivity. Qed.

Lemma written_app evs1 evs2 : written (evs1 ++ evs2) = written evs1 ++ written evs2.
Proof. unfold written. apply omap_app. Qed.

(** X24. The handshake, end to end: to the first message of a PC client
    the server replies on the client's connection, and with that reply
    [connect] returns [True] exactly when the client's user id and token
    are not empty (the reply is then the [connection_established]
    envelope, otherwise the [error] envelope). *)
Theorem pc_connect_iff_credentials
    (uuid4 : nat -> string) (isoformat : Z -> string)
    websocket (self : pc_client.client) h timestamp frames ending w wc :
  websocket ∉ closed w ->
  h ∉ closed wc ->
  let script :=
    {| first_recv :=
         Received
           (Some (pc_client.auth_message (pc_client.user_id self)
                    (pc_client.token self) timestamp));
       inbox := frames;
       close := ending |} in
  exists reply rest,
    written (news w (run (handle_message uuid4 isoformat websocket script) w))
      = (websocket, reply) :: rest /\
    outcome (pc_client.connect self (Some h) timestamp (Some (Some reply))) wc =
      Ret (nonempty (pc_client.user_id self) && nonempty (pc_client.token self),
           pc_client.with_websocket h self).
Proof.
  intros Hopen Hh script.
  destruct (nonempty (pc_client.user_id self) && nonempty (pc_client.token self))
    eqn:Hcred.
  - assert (Hauth : auth_stage (first_recv script)
                    = Ret (JStr (pc_client.user_id self))).
    { subst script. cbn [first_recv]. rewrite pc_auth_stage. by rewrite Hcred. }
    assert (Htruthy : truthy (JStr (pc_client.user_id self)) = true).
    { by apply andb_prop in Hcred as [? _]. }
    destruct (greeted_news uuid4 isoformat websocket script
                (JStr (pc_client.user_id self)) (KStr (pc_client.user_id self)) w
                Hauth Htruthy eq_refl Hopen) as (rest & Hnews).
    eexists _, _. split.
    + rewrite Hnews, written_app. cbn [written omap app]. reflexivity.
    + unfold outcome, pc_client.connect, try_except.
      rewrite bind_run, ws_send_run, decide_False by done.
      reflexivity.
  - assert (Hauth : auth_stage (first_recv script) = Ret JNull).
    { subst script. cbn [first_recv]. rewrite pc_auth_stage. by rewrite Hcred. }
    exists auth_error, []. split.
    + unfold run.
      rewrite (handle_message_rejected _ _ _ _ JNull) by done. cbn [snd].
      erewrite news_app by reflexivity. unfold send_event.
      by rewrite decide_False by done.
    + unfold outcome, pc_client.connect, try_except.
      rewrite bind_run, ws_send_run, decide_False by done.
      reflexivity.
Qed.

Lemma pc_connect_iff_credentials_witness :
  (1%nat ∉ closed chat_world) /\
  (9%nat ∉ closed world0) /\
  exists reply rest,
    written
      (news chat_world
         (run (handle_message sample_uuid4 sample_isoformat 1%nat
                 {| first_recv :=
                      Received
                        (Some (pc_client.auth_message "alice" "demo-token"
                                 "2024-01-01T00:00:00"));
                    inbox := [];
                    close := ClosedOK |}) chat_world))
      = (1%nat, reply) :: rest /\
    outcome
      (pc_client.connect pc_alice (Some 9%nat) "2024-01-01T00:00:00"
         (Some (Some reply))) world0
      = Ret (true, pc_client.with_websocket 9%nat pc_alice).
Proof.
  assert (H1 : 1%nat ∉ closed chat_world) by apply not_elem_of_empty.
  assert (H9 : 9%nat ∉ closed world0) by apply not_elem_of_empty.
  split; [exact H1 |]. split; [exact H9 |].
  apply (pc_connect_iff_credentials sample_uuid4 sample_isoformat 1%nat
           pc_alice 9%nat "2024-01-01T00:00:00" [] ClosedOK chat_world world0
           H1 H9).
Defined.

(** X25. A message the PC client sends with a target and a content that
    are not empty is accepted by the server and answered with a receipt:
    the last thing the server's iteration does is to send, on the sender's
    websocket, a [message_receipt] that names the target, says
    [delivered] when the target is registered on an open websocket and
    [failed] otherwise, and carries the client's own message id. *)
Theorem pc_message_is_receipted
    (uuid4 : nat -> string) (isoformat : Z -> string)
    websocket user_id k target_user content timestamp stamp w :
  hash_key user_id = Some k ->
  nonempty target_user = true ->
  nonempty content = true ->
  let frame := pc_client.message target_user content timestamp stamp in
  accepted frame /\
  exists receipt data,
    last (trace (run (frame_iteration uuid4 isoformat websocket user_id
                        (Some frame)) w))
      = Some (send_event w websocket receipt) /\
    py_get receipt "type" JNull = Ret (JStr "message_receipt") /\
    py_get receipt "data" JNull = Ret data /\
    py_get data "message_id" JNull = Ret (JStr ("msg_" +:+ stamp)) /\
    py_get data "target_user" JNull = Ret (JStr target_user) /\
    py_get data "status" JNull =
      Ret (JStr (if deliverable (KStr target_user) w
                 then "delivered" else "failed")).
Proof.
  intros Hk Htarget Hcontent frame. split; [reflexivity |].
  destruct (send_message_receipt_run uuid4 isoformat websocket user_id k
              [("type", JStr "send_message");
               ("data", JObj [("target_user", JStr target_user);
                              ("content", JStr content)]);
               ("timestamp", JStr timestamp);
               ("message_id", JStr ("msg_" +:+ stamp))]
              [("target_user", JStr target_user); ("content", JStr content)]
              (JStr target_user) (KStr target_user) (JStr content) w
              Hk eq_refl eq_refl eq_refl eq_refl Htarget eq_refl eq_refl Hcontent)
    as (success & receipt & _ & Hsuccess & _ & Htrace & Hreceipt & _).
  exists receipt, (receipt_data
    [("type", JStr "send_message");
     ("data", JObj [("target_user", JStr target_user); ("content", JStr content)]);
     ("timestamp", JStr timestamp);
     ("message_id", JStr ("msg_" +:+ stamp))] success (JStr target_user)).
  split. { subst frame. unfold pc_client.message. by rewrite Htrace, last_snoc. }
  rewrite Hreceipt, Hsuccess. repeat split.
Qed.

Lemma pc_message_is_receipted_witness :
  hash_key alice = Some (KStr "alice") /\
  nonempty "bob" = true /\
  nonempty "hi" = true /\
  accepted (pc_client.message "bob" "hi" "2024-01-01T00:00:00" "1704067200.5").
Proof.
  split; [reflexivity |]. split; [reflexivity |]. split; [reflexivity |].
  apply (pc_message_is_receipted sample_uuid4 sample_isoformat 1%nat alice
           (KStr "alice") "bob" "hi" "2024-01-01T00:00:00" "1704067200.5"
           chat_world eq_refl eq_refl eq_refl).
Defined.

Lemma heartbeat_run self h beats wc :
  pc_client.running self = true ->
  pc_client.websocket self = Some h ->
  h ∉ closed wc ->
  pc_client.heartbeat self beats wc =
    (Ret tt,
     {| manager := manager wc;
        clock := clock wc + 30000000 * Z.of_nat beats;
        draws := draws wc;
        closed := closed wc;
        trace := trace wc ++ replicate beats (Wrote h (JObj [("type", JStr "ping")])) |}).
Proof.
  intros Hrunning Hws. revert wc.
  induction beats as [|beats IH]; intros wc Hopen.
  - cbn [pc_client.heartbeat replicate]. unfold ret.
    rewrite app_nil_r, Z.mul_0_r, Z.add_0_r. by destruct wc.
  - cbn [pc_client.heartbeat]. rewrite Hrunning, Hws.
    rewrite bind_run. unfold try_except at 1.
    rewrite bind_run, ws_send_run, decide_False by done.
    cbv beta iota. rewrite bind_run. unfold asyncio_sleep at 1.
    cbv beta iota. unfold ret at 1. cbv beta iota.
    unfold send_event. rewrite decide_False by done.
    cbn [manager clock draws closed trace with_events].
    rewrite IH by done. cbn [manager clock draws closed trace replicate].
    f_equal. f_equal; [lia |].
    by rewrite <- (assoc_L (++)).
Qed.

Lemma written_replicate n h frame :
  written (replicate n (Wrote h frame)) = replicate n (h, frame).
Proof. induction n as [|n IH]; [done |]. cbn. by rewrite <- IH. Qed.

(** X26. While it runs on an open connection, the heartbeat of the PC
    client writes one [ping] frame every thirty seconds and nothing else;
    that frame has no [data] and no [timestamp], so the server's loop
    drops it: no [pong] is sent and the sender's activity is not
    refreshed. *)
Theorem heartbeat_pings_are_dropped self h beats wc :
  pc_client.running self = true ->
  pc_client.websocket self = Some h ->
  h ∉ closed wc ->
  outcome (pc_client.heartbeat self beats) wc = Ret tt /\
  news wc (run (pc_client.heartbeat self beats) wc) =
    replicate beats (Wrote h (JObj [("type", JStr "ping")])) /\
  clock (run (pc_client.heartbeat self beats) wc) =
    clock wc + 30000000 * Z.of_nat beats /\
  server_drops (JObj [("type", JStr "ping")]).
Proof.
  intros Hrunning Hws Hopen. unfold outcome, run.
  rewrite (heartbeat_run self h beats wc) by done. cbn [fst snd clock].
  split; [done |]. split; [by apply news_app |]. split; [done |].
  intros uuid4 isoformat websocket user_id w. reflexivity.
Qed.

Lemma heartbeat_pings_are_dropped_witness :
  pc_client.running pc_alice = true /\
  pc_client.websocket pc_alice = Some 9%nat /\
  (9%nat ∉ closed world0) /\
  news world0 (run (pc_client.heartbeat pc_alice 3) world0) =
    replicate 3 (Wrote 9%nat (JObj [("type", JStr "ping")])).
Proof.
  assert (H9 : 9%nat ∉ closed world0) by apply not_elem_of_empty.
  split; [reflexivity |]. split; [reflexivity |]. split; [exact H9 |].
  apply (heartbeat_pings_are_dropped pc_alice 9%nat 3 world0 eq_refl eq_refl H9).
Defined.

(** X27. The request the interactive client sends for the command [users]
    has no [data] field, so the server's loop drops it: whatever the
    registry holds, the client gets no [online_users] reply and its
    activity is not refreshed. *)
Theorem users_command_gets_no_reply timestamp :
  validate_message (pc_client.users_request timestamp) = Ret false /\
  server_drops (pc_client.users_request timestamp).
Proof.
  split; [reflexivity |].
  intros uuid4 isoformat websocket user_id w. reflexivity.
Qed.

Lemma pc_ignores_envelope isoformat msg_type fields sender now message_id :
  String.eqb msg_type "ping" = false ->
  pc_ignores (envelope isoformat msg_type (JObj fields) sender now message_id).
Proof.
  intros Hping h w. unfold pc_client.listen_step, envelope.
  rewrite bind_run. cbn [json_loads lift]. cbv beta iota.
  assert (Hget : forall rest,
            py_get (JObj (("type", JStr msg_type) :: ("data", JObj fields) :: rest))
              "type" JNull = Ret (JStr msg_type)) by done.
  assert (Hidx : forall rest,
            py_index (JObj (("type", JStr msg_type) :: ("data", JObj fields) :: rest))
              "data" = Ret (JObj fields)) by done.
  destruct (truthy sender); cbn [app];
    rewrite bind_run, Hget; cbn [lift is_str]; cbv beta iota;
    repeat match goal with
           | |- context [if String.eqb msg_type ?s then _ else _] =>
               destruct (String.eqb msg_type s) eqn:?
           end;
    try discriminate;
    repeat (rewrite bind_run, ?Hidx; cbn [lift py_get]; cbv beta iota);
    reflexivity.
Qed.

Lemma pc_ignores_pong stamp :
  pc_ignores (JObj [("type", JStr "pong"); ("timestamp", JStr stamp)]).
Proof. intros h w. reflexivity. Qed.

Lemma pc_ignores_auth_error : pc_ignores auth_error.
Proof. intros h w. reflexivity. Qed.

Lemma listen_loop_ignored h frames w :
  Forall pc_ignores frames ->
  pc_client.listen_loop h (Some <$> frames) w = (Ret tt, w).
Proof.
  induction 1 as [|frame frames Hframe _ IH]; [done |].
  cbn [fmap list_fmap pc_client.listen_loop].
  rewrite bind_run, Hframe. exact IH.
Qed.

(** The frames the server sends come from its own envelopes. *)
Section steady_frames.
Context (uuid4 : nat -> string) (isoformat : Z -> string).

Lemma frames_calls c : on_frames pc_ignores (Called c).
Proof. done. Qed.

Lemma steady_ws_send_frames h message :
  pc_ignores message -> steady (on_frames pc_ignores) (ws_send h message).
Proof. intros Hm. by apply steady_ws_send. Qed.

Lemma steady_broadcast_frames msg_type fields sender now message_id exclude_user :
  String.eqb msg_type "ping" = false ->
  steady (on_frames pc_ignores)
    (broadcast (envelope isoformat msg_type (JObj fields) sender now message_id)
       exclude_user).
Proof.
  intros Hping.
  apply steady_broadcast_calls; [apply frames_calls | |];
    intros h; by apply pc_ignores_envelope.
Qed.

Lemma steady_dispatch_frames websocket user_id data :
  steady (on_frames pc_ignores) (dispatch uuid4 isoformat websocket user_id data).
Proof.
  unfold dispatch.
  apply steady_bind; [apply steady_lift |]. intros msg_type.
  destruct (is_str msg_type "ping").
  { apply steady_bind; [apply steady_datetime_now |]. intros now.
    apply steady_ws_send_frames, pc_ignores_pong. }
  destruct (is_str msg_type "send_message").
  { apply steady_bind; [apply steady_lift |]. intros payload.
    apply steady_bind; [apply steady_lift |]. intros target_user.
    apply steady_bind; [apply steady_lift |]. intros payload'.
    apply steady_bind; [apply steady_lift |]. intros content.
    destruct (truthy target_user && truthy content); [| apply steady_ret].
    apply steady_bind_create_message. intros now message_id.
    apply steady_bind.
    { apply steady_send_to_user_calls; [apply frames_calls | |];
        intros h; by apply pc_ignores_envelope. }
    intros success.
    apply steady_bind; [apply steady_lift |]. intros echoed.
    apply steady_bind_create_message. intros now' message_id'.
    by apply steady_ws_send_frames, pc_ignores_envelope. }
  destruct (is_str msg_type "subscribe").
  { apply steady_bind; [apply steady_lift |]. intros payload.
    apply steady_bind; [apply steady_lift |]. intros channel.
    destruct (truthy channel); [| apply steady_ret].
    apply steady_bind; [apply steady_channels_of_calls |].
    intros s.
    apply steady_bind; [apply steady_hashed |]. intros c.
    apply steady_store_channels_calls. }
  destruct (is_str msg_type "unsubscribe").
  { apply steady_bind; [apply steady_lift |]. intros payload.
    apply steady_bind; [apply steady_lift |]. intros channel.
    destruct (truthy channel); [| apply steady_ret].
    apply steady_bind; [apply steady_channels_of_calls |].
    intros s.
    apply steady_bind; [apply steady_hashed |]. intros c.
    destruct (bool_decide (c ∈ s)); [| apply steady_ret].
    apply steady_bind; [apply steady_channels_of_calls |].
    intros s'. apply steady_store_channels_calls. }
  destruct (is_str msg_type "get_online_users"); [| apply steady_ret].
  apply steady_bind; [apply steady_get_online_users_calls, frames_calls |].
  intros online_users.
  apply steady_bind_create_message. intros now message_id.
  by apply steady_ws_send_frames, pc_ignores_envelope.
Qed.

Lemma steady_message_loop_frames websocket user_id inbox :
  steady (on_frames pc_ignores)
    (message_loop uuid4 isoformat websocket user_id inbox).
Proof.
  induction inbox as [|message inbox IH]; [apply steady_ret |].
  cbn [message_loop]. apply steady_bind; [| intros _; exact IH].
  unfold frame_iteration, frame_body.
  apply steady_try_except; [| intros []; apply steady_ret].
  apply steady_bind; [apply steady_lift |]. intros data.
  apply steady_bind; [apply steady_lift |]. intros valid.
  destruct (negb valid); [apply steady_ret |].
  apply steady_bind;
    [apply steady_update_user_activity_calls, frames_calls |].
  intros _. apply steady_dispatch_frames.
Qed.

Lemma steady_session_frames websocket user_id connection_id script :
  steady (on_frames pc_ignores)
    (session uuid4 isoformat websocket user_id connection_id script).
Proof.
  unfold session.
  apply steady_bind_create_message. intros now message_id.
  apply steady_bind;
    [by apply steady_ws_send_frames, pc_ignores_envelope |].
  intros _.
  apply steady_bind_create_message. intros now' message_id'.
  apply steady_bind; [by apply steady_broadcast_frames |]. intros _.
  apply steady_bind; [apply steady_message_loop_frames |]. intros _.
  destruct (close script); [apply steady_ret | apply steady_raise].
Qed.

Lemma steady_cleanup_frames user_id connection_id :
  steady (on_frames pc_ignores) (cleanup uuid4 isoformat user_id connection_id).
Proof.
  unfold cleanup. destruct (truthy user_id); [| apply steady_ret].
  apply steady_bind; [apply steady_unregister_calls, frames_calls |].
  intros _.
  apply steady_bind_create_message. intros now message_id.
  by apply steady_broadcast_frames.
Qed.

Lemma steady_register_frames websocket user_id :
  steady (on_frames pc_ignores) (register uuid4 websocket user_id).
Proof.
  unfold register.
  apply steady_bind; [apply steady_log_call, frames_calls |]. intros _.
  apply steady_bind; [apply steady_uuid4_str |]. intros connection_id.
  apply steady_bind; [apply steady_update_manager |]. intros _.
  apply steady_bind; [apply steady_hashed |]. intros k.
  apply steady_bind; [apply steady_update_manager |]. intros _.
  apply steady_bind; [apply steady_datetime_now |]. intros now.
  apply steady_bind; [apply steady_update_manager |]. intros _.
  apply steady_ret.
Qed.

Lemma steady_handle_message_frames websocket script :
  steady (on_frames pc_ignores) (handle_message uuid4 isoformat websocket script).
Proof.
  unfold handle_message.
  destruct (auth_stage (first_recv script)) as [user_id|e];
    [| apply steady_cleanup_frames].
  destruct (negb (truthy user_id)).
  - apply steady_bind; [| intros _; apply steady_cleanup_frames].
    apply steady_swallow, steady_ws_send_frames, pc_ignores_auth_error.
  - apply steady_bind; [apply steady_swallow, steady_register_frames |].
    intros [connection_id|e]; [| apply steady_cleanup_frames].
    apply steady_bind; [| intros _; apply steady_cleanup_frames].
    apply steady_swallow, steady_session_frames.
Qed.

End steady_frames.

Lemma written_frames_ignored evs :
  Forall (on_frames pc_ignores) evs -> Forall pc_ignores (written evs).*2.
Proof.
  induction 1 as [|ev evs Hev _ IH]; [constructor |].
  destruct ev; cbn; [constructor; assumption | assumption | assumption].
Qed.

(** X28. The listener of the PC client, which catches [ConnectionClosed]
    only, is never stopped by the server's own traffic: run over all the
    frames [handle_message] wrote during a connection, to whichever
    websocket, [listen_for_messages] raises nothing, sends nothing and
    leaves the client as it was. *)
Theorem pc_listener_survives_server_traffic
    (uuid4 : nat -> string) (isoformat : Z -> string)
    websocket script w self h wc :
  pc_client.websocket self = Some h ->
  let frames :=
    (written (news w (run (handle_message uuid4 isoformat websocket script) w))).*2 in
  pc_client.listen_for_messages self (Some <$> frames) ClosedOK wc = (Ret self, wc).
Proof.
  intros Hws frames.
  assert (Hframes : Forall pc_ignores frames).
  { subst frames. apply written_frames_ignored.
    destruct (steady_handle_message_frames uuid4 isoformat websocket script w)
      as (evs & Htrace & Hevs & _).
    by rewrite (news_app _ _ _ Htrace). }
  unfold pc_client.listen_for_messages. rewrite Hws.
  unfold try_except. rewrite bind_run, listen_loop_ignored by done.
  reflexivity.
Qed.

Lemma pc_listener_survives_server_traffic_witness :
  pc_client.websocket pc_alice = Some 9%nat /\
  pc_client.listen_for_messages pc_alice
    (Some <$>
       (written
          (news chat_world
             (run (handle_message sample_uuid4 sample_isoformat 1%nat alice_script)
                chat_world))).*2)
    ClosedOK world0
  = (Ret pc_alice, world0).
Proof.
  split; [reflexivity |].
  apply (pc_listener_survives_server_traffic sample_uuid4 sample_isoformat
           1%nat alice_script chat_world pc_alice 9%nat world0 eq_refl).
Defined.

(** ** Further properties: the command line and the web page *)

Lemma split_at_no_sep sep s :
  has_char sep s = false -> split_at sep s = (s, None).
Proof.
  induction s as [|c s IH]; [done |]. cbn [has_char split_at].
  intros [Hc Hs]%orb_false_elim. rewrite Hc, (IH Hs). done.
Qed.

Lemma split_at_first sep before rest :
  has_char sep before = false ->
  split_at sep (before +:+ String sep rest) = (before, Some rest).
Proof.
  induction before as [|c s IH]; simpl.
  - intros _. by rewrite Ascii.eqb_refl.
  - intros [Hc Hs]%orb_false_elim. rewrite Hc, (IH Hs). done.
Qed.

(** X29. The command [send <target> <text>] of the interactive client:
    the target is what stands between the first and the second blank, the
    content is all the rest, blanks included, and [send_message] is called
    with the two; with a target but nothing after it, nothing is sent. *)
Theorem interactive_send_splits_twice self target_user content timestamp stamp :
  has_char " " target_user = false ->
  pc_client.interactive_send self
    ("send " +:+ target_user +:+ " " +:+ content) timestamp stamp
    = (pc_client.send_message self target_user content timestamp stamp;;; ret tt) /\
  pc_client.interactive_send self ("send " +:+ target_user) timestamp stamp
    = ret tt.
Proof.
  intros Htarget. unfold pc_client.interactive_send.
  split.
  - change ("send " +:+ target_user +:+ " " +:+ content)
      with ("send" +:+ String " " (target_user +:+ String " " content)).
    cbn [py_split].
    rewrite (split_at_first " " "send") by reflexivity.
    rewrite (split_at_first " " target_user) by done.
    reflexivity.
  - change ("send " +:+ target_user)
      with ("send" +:+ String " " target_user).
    cbn [py_split].
    rewrite (split_at_first " " "send") by reflexivity.
    rewrite split_at_no_sep by done.
    reflexivity.
Qed.

Lemma interactive_send_splits_twice_witness :
  has_char " " "bob" = false /\
  pc_client.interactive_send pc_alice "send bob see you at ten"
    "2024-01-01T00:00:00" "1704067200.5"
  = (pc_client.send_message pc_alice "bob" "see you at ten"
       "2024-01-01T00:00:00" "1704067200.5";;; ret tt).
Proof.
  split; [reflexivity |].
  apply (interactive_send_splits_twice pc_alice "bob" "see you at ten"
           "2024-01-01T00:00:00" "1704067200.5" eq_refl).
Defined.

Lemma py_split_head sep s before rest :
  has_char sep before = false ->
  s = before +:+ String sep rest ->
  List.hd "" (py_split sep (String.length s) s) = before.
Proof.
  intros Hbefore ->.
  destruct (String.length (before +:+ String sep rest)) as [|n] eqn:Hlen.
  - destruct before; discriminate.
  - cbn [py_split]. by rewrite split_at_first.
Qed.

Lemma py_split_whole sep s :
  has_char sep s = false ->
  List.hd "" (py_split sep (String.length s) s) = s.
Proof.
  intros Hs. destruct s as [|c s]; [done |].
  cbn [String.length py_split]. by rewrite split_at_no_sep.
Qed.

(** X30. The websocket address [ws_test] hands to the page: the host name
    of the [Host] header up to its first colon, always with port 8765,
    whatever port the header names; without the header it is
    [ws://localhost:8765]. *)
Theorem ws_test_url_ignores_port user_id host port :
  has_char ":" host = false ->
  ws_test user_id (Some (host +:+ ":" +:+ port)) =
    [("user_id", user_id); ("ws_url", "ws://" +:+ host +:+ ":8765")] /\
  ws_test user_id (Some host) =
    [("user_id", user_id); ("ws_url", "ws://" +:+ host +:+ ":8765")] /\
  ws_test user_id None =
    [("user_id", user_id); ("ws_url", "ws://localhost:8765")].
Proof.
  intros Hhost. unfold ws_test. cbn [default id].
  split; [| split; [| reflexivity]].
  - by rewrite (py_split_head ":" _ host port).
  - by rewrite py_split_whole.
Qed.

Lemma ws_test_url_ignores_port_witness :
  has_char ":" "chat.example.org" = false /\
  ws_test "alice" (Some "chat.example.org:8080") =
    [("user_id", "alice"); ("ws_url", "ws://chat.example.org:8765")].
Proof.
  split; [reflexivity |].
  apply (ws_test_url_ignores_port "alice" "chat.example.org" "8080" eq_refl).
Defined.
